(** * The tokenized record lifecycle of the ToDo client

    A shallow embedding of the business logic of the two copies of [App.tsx]
    of the repository:

    - [src/frontend/src/App.tsx], embedded in [Module Frontend];
    - [src/src/App.tsx], embedded in [Module Root].

    Both copies define three asynchronous workflows over React state:
    [handleCreateSubmit] (create a record), [handleCompleteSubmit] (redeem a
    record) and the discovery pass ([loadTasks], an anonymous effect in the
    second copy).  The wallet ([WalletClient]), the script builder
    ([PushDrop]), [Transaction], [Beef], [Utils] and the chain tracker are
    npm dependencies: they enter as a record of functions, [Sdk], whose
    fields return [Ok] or the thrown (rejected) error; a collaborator
    answers as a function of the arguments of the call.

    A text is a [string], read as UTF-8.  Concatenation, comparison and
    [split('.')] are those of the bytes; [length] and [substring], which
    count UTF-16 code units, are fields of [Sdk] too, and agree with the
    bytes on ASCII text ([utf16_on_ascii]).

    A workflow is a computation in [M]: it reads and updates the React state,
    allocates objects, emits a chronological list of observable events
    (toasts, console lines, calls to the asynchronous services) and returns or
    throws. *)

From Stdlib Require Import Strings.Byte.
From Stdlib Require Import List String Ascii Bool Arith Lia PrimFloat.
From Stdlib Require DecimalString.
From Stdlib Require Import ZArith PArith Floats.
Import ListNotations.
Open Scope string_scope.

(** ** Values *)

(** [number[]]: a byte array. *)
Definition bytes := list byte.

(** [BEEF] and [AtomicBEEF] are byte arrays. *)
Definition BEEF := bytes.

(** [WalletProtocol]: a security level and a protocol name. *)
Definition WalletProtocol := (nat * string)%type.

(** A thrown JavaScript error: the handlers read [message] and [code]. *)
Record JsError := mkError { message : string; code : option string }.

(** The result of a call that returns or throws (or of a promise that
    resolves or rejects). *)
Inductive Res (A : Type) : Type :=
| Ok (a : A)
| Err (e : JsError).
Arguments Ok {A} a.
Arguments Err {A} e.

(** JavaScript numbers are IEEE 754 doubles: [createAmount], [sats] and
    [satoshis] are primitive floats. *)
Definition number := float.

(** The global [isNaN] on a number. *)
Definition isNaN (x : number) : bool := PrimFloat.is_nan x.

(** [s.split('.')[0]]: the part of [s] before its first dot (all of [s] when
    it has none). *)
Fixpoint split0 (s : string) : string :=
  match s with
  | EmptyString => EmptyString
  | String c r => if Ascii.eqb c "." then EmptyString else String c (split0 r)
  end.

(** A possibly undefined string inside a template literal. *)
Definition templ (o : option string) : string :=
  match o with
  | Some s => s
  | None => "undefined"
  end.

(** An array index inside a template literal. *)
Definition templ_index (i : nat) : string :=
  DecimalString.NilEmpty.string_of_uint (Nat.to_uint i).

(** ** The repository's constants *)

Definition TODO_PROTO_ADDR : string := "1ToDoDtKreEzbHYKFjmoBuduFmSXXUGZG".
Definition PROTOCOL_ID : WalletProtocol := (0, "todo list").
Definition KEY_ID : string := "1".

(** ** [types.d.ts]: the catalogued record

    [oid] is the identity of the JavaScript object: [===] on two tasks
    compares it.  Task objects are never mutated, so a copy with the same
    [oid] stands for an alias of the same object. *)
Record Task := mkTask {
  oid : nat;
  task : string;
  sats : number;
  outpoint : string;
  lockingScript : string;
  beef : option BEEF
}.

Definition same_object (a b : Task) : bool := Nat.eqb (oid a) (oid b).

(** ** The SDK's data

    A [LockingScript] or [UnlockingScript] object is represented by its hex
    serialization ([toHex], [fromHex] are the identity); a [Beef] object by
    its binary serialization; a chain tracker by the name of its chain. *)

Record TransactionOutput := mkTxOut {
  txo_lockingScript : string;
  txo_satoshis : option number
}.

Record Transaction := mkTx {
  tx_raw : bytes;
  tx_outputs : list TransactionOutput
}.

Record WalletOutput := mkWalletOutput {
  wo_satoshis : option number;
  wo_outpoint : string
}.

Record CreateActionOutput := mkCAOutput {
  cao_lockingScript : string;
  cao_satoshis : number;
  cao_basket : string;
  cao_outputDescription : string
}.

Record CreateActionInput := mkCAInput {
  cai_inputDescription : string;
  cai_outpoint : string;
  cai_unlockingScriptLength : nat
}.

Record CreateActionOptions := mkCAOptions {
  opt_randomizeOutputs : option bool;
  opt_acceptDelayedBroadcast : option bool
}.

Record CreateActionArgs := mkCAArgs {
  ca_description : string;
  ca_inputBEEF : option BEEF;
  ca_inputs : list CreateActionInput;
  ca_outputs : list CreateActionOutput;
  ca_options : CreateActionOptions
}.

Record SignableTransaction := mkSignable {
  st_tx : BEEF;
  st_reference : string
}.

Record CreateActionResult := mkCAResult {
  car_txid : option string;
  car_tx : option BEEF;
  car_signableTransaction : option SignableTransaction
}.

Record SignActionArgs := mkSAArgs {
  sa_reference : string;
  sa_spends : list (nat * string)
}.

Record SignActionResult := mkSAResult {
  sar_txid : option string;
  sar_tx : option BEEF
}.

Record ListOutputsArgs := mkLOArgs {
  lo_basket : string;
  lo_include : string;
  lo_limit : option nat
}.

Record ListOutputsResult := mkLOResult {
  lor_outputs : list WalletOutput;
  lor_BEEF : option BEEF
}.

(** What [new PushDrop(wallet).unlock(...)] returns: closures over its
    arguments, represented by the arguments. *)
Record Unlocker := mkUnlocker {
  u_protocolID : WalletProtocol;
  u_keyID : string;
  u_counterparty : string;
  u_signOutputs : string;
  u_anyoneCanPay : bool;
  u_sourceSatoshis : number;
  u_lockingScript : string
}.

(** ** The external collaborators *)

Record Sdk := mkSdk {
  (* String.prototype: [s.length] and [s.substring(start, end)] count UTF-16
     code units, which the bytes of a text are only when it is ASCII *)
  utf16_length : string -> nat;
  utf16_substring : string -> nat -> nat -> string;
  (* Utils *)
  toArray_utf8 : string -> bytes;
  toUTF8 : bytes -> string;
  (* WalletClient: the Signing Service *)
  encrypt : bytes -> WalletProtocol -> string -> Res bytes;
  decrypt : option bytes -> WalletProtocol -> string -> Res bytes;
  createAction : CreateActionArgs -> Res CreateActionResult;
  signAction : SignActionArgs -> Res SignActionResult;
  listOutputs : ListOutputsArgs -> Res ListOutputsResult;
  (* PushDrop: the script builder *)
  pushdrop_lock : list bytes -> WalletProtocol -> string -> string -> Res string;
  pushdrop_decode : string -> Res (list bytes);
  unlocker_sign : Unlocker -> Transaction -> nat -> Res string;
  (* Transaction and Beef *)
  fromBEEF : option BEEF -> option string -> Res Transaction;
  Beef_fromBinary : option BEEF -> Res BEEF;
  (* Services and the Chain Verifier *)
  getChainTracker : string -> Res string;
  Beef_verify : BEEF -> string -> bool -> Res bool
}.

(** ** Observable events *)

Inductive Event :=
| ToastError (msg : string)
| ToastDark (msg : string)
| ConsoleError (label : option string) (e : JsError)
| ConsoleLog (r : SignActionResult)
| WalletEncrypt (plaintext : bytes) (protocolID : WalletProtocol) (keyID : string)
| WalletDecrypt (ciphertext : option bytes) (protocolID : WalletProtocol) (keyID : string)
| WalletCreateAction (args : CreateActionArgs)
| WalletSignAction (args : SignActionArgs)
| WalletListOutputs (args : ListOutputsArgs)
| PushDropLock (fields : list bytes) (protocolID : WalletProtocol) (keyID : string)
    (counterparty : string)
| UnlockerSign (u : Unlocker) (tx : Transaction) (inputIndex : nat)
| ServicesGetChainTracker (chain : string)
| BeefVerify (b : BEEF) (tracker : string) (strict : bool).

(** The calls to an asynchronous service. *)
Definition is_service_call (ev : Event) : bool :=
  match ev with
  | ToastError _ | ToastDark _ | ConsoleError _ _ | ConsoleLog _ => false
  | _ => true
  end.

(** The texts of the error toasts of a trace. *)
Fixpoint toast_errors (tr : list Event) : list string :=
  match tr with
  | [] => []
  | ToastError m :: r => m :: toast_errors r
  | _ :: r => toast_errors r
  end.

(** The texts of the dark toasts of a trace. *)
Fixpoint toast_darks (tr : list Event) : list string :=
  match tr with
  | [] => []
  | ToastDark m :: r => m :: toast_darks r
  | _ :: r => toast_darks r
  end.

(** ** React state *)

Record AppState := mkApp {
  isMncMissing : bool;
  createOpen : bool;
  createTask : string;
  createAmount : number;
  createLoading : bool;
  tasksLoading : bool;
  tasks : list Task;
  completeOpen : bool;
  selectedTask : option Task;
  completeLoading : bool
}.

Definition withCreateOpen (v : bool) (s : AppState) : AppState :=
  mkApp (isMncMissing s) v (createTask s) (createAmount s) (createLoading s)
    (tasksLoading s) (tasks s) (completeOpen s) (selectedTask s) (completeLoading s).
Definition withCreateTask (v : string) (s : AppState) : AppState :=
  mkApp (isMncMissing s) (createOpen s) v (createAmount s) (createLoading s)
    (tasksLoading s) (tasks s) (completeOpen s) (selectedTask s) (completeLoading s).
Definition withCreateAmount (v : number) (s : AppState) : AppState :=
  mkApp (isMncMissing s) (createOpen s) (createTask s) v (createLoading s)
    (tasksLoading s) (tasks s) (completeOpen s) (selectedTask s) (completeLoading s).
Definition withCreateLoading (v : bool) (s : AppState) : AppState :=
  mkApp (isMncMissing s) (createOpen s) (createTask s) (createAmount s) v
    (tasksLoading s) (tasks s) (completeOpen s) (selectedTask s) (completeLoading s).
Definition withTasksLoading (v : bool) (s : AppState) : AppState :=
  mkApp (isMncMissing s) (createOpen s) (createTask s) (createAmount s) (createLoading s)
    v (tasks s) (completeOpen s) (selectedTask s) (completeLoading s).
Definition withTasks (v : list Task) (s : AppState) : AppState :=
  mkApp (isMncMissing s) (createOpen s) (createTask s) (createAmount s) (createLoading s)
    (tasksLoading s) v (completeOpen s) (selectedTask s) (completeLoading s).
Definition withCompleteOpen (v : bool) (s : AppState) : AppState :=
  mkApp (isMncMissing s) (createOpen s) (createTask s) (createAmount s) (createLoading s)
    (tasksLoading s) (tasks s) v (selectedTask s) (completeLoading s).
Definition withSelectedTask (v : option Task) (s : AppState) : AppState :=
  mkApp (isMncMissing s) (createOpen s) (createTask s) (createAmount s) (createLoading s)
    (tasksLoading s) (tasks s) (completeOpen s) v (completeLoading s).
Definition withCompleteLoading (v : bool) (s : AppState) : AppState :=
  mkApp (isMncMissing s) (createOpen s) (createTask s) (createAmount s) (createLoading s)
    (tasksLoading s) (tasks s) (completeOpen s) (selectedTask s) v.

(** The React state and the next fresh object identity. *)
Record World := mkWorld {
  app : AppState;
  nextOid : nat
}.

(** ** The workflow monad: state, events, exceptions *)

Record Run (A : Type) := mkRun {
  world : World;
  events : list Event;
  result : Res A
}.
Arguments mkRun {A} world events result.
Arguments world {A} r.
Arguments events {A} r.
Arguments result {A} r.

Definition M (A : Type) : Type := World -> Run A.

Definition ret {A} (a : A) : M A := fun w => mkRun w [] (Ok a).

Definition throw {A} (e : JsError) : M A := fun w => mkRun w [] (Err e).

Definition bind {A B} (m : M A) (k : A -> M B) : M B := fun w =>
  match m w with
  | mkRun w1 ev1 (Ok a) =>
      match k a w1 with
      | mkRun w2 ev2 r => mkRun w2 (ev1 ++ ev2) r
      end
  | mkRun w1 ev1 (Err e) => mkRun w1 ev1 (Err e)
  end.

Notation "x <- m ;; k" := (bind m (fun x => k))
  (at level 61, m at next level, right associativity).
Notation "m ;; k" := (bind m (fun _ => k))
  (at level 61, right associativity).

(** [try { m } catch (e) { h e }]. *)
Definition tryCatch {A} (m : M A) (h : JsError -> M A) : M A := fun w =>
  match m w with
  | mkRun w1 ev1 (Ok a) => mkRun w1 ev1 (Ok a)
  | mkRun w1 ev1 (Err e) =>
      match h e w1 with
      | mkRun w2 ev2 r => mkRun w2 (ev1 ++ ev2) r
      end
  end.

(** [try { m } finally { f }], for an [f] that does not throw. *)
Definition finally {A} (m : M A) (f : M unit) : M A := fun w =>
  match m w with
  | mkRun w1 ev1 r =>
      match f w1 with
      | mkRun w2 ev2 _ => mkRun w2 (ev1 ++ ev2) r
      end
  end.

Definition emit (ev : Event) : M unit := fun w => mkRun w [ev] (Ok tt).

(** A synchronous library call that returns or throws. *)
Definition lift {A} (r : Res A) : M A := fun w => mkRun w [] r.

(** An awaited call to an asynchronous service: the call is observable, then
    the promise resolves or rejects. *)
Definition await {A} (call : Event) (r : Res A) : M A := emit call ;; lift r.

(** A state setter of React. *)
Definition setState (f : AppState -> AppState) : M unit := fun w =>
  mkRun (mkWorld (f (app w)) (nextOid w)) [] (Ok tt).

(** An object literal of type [Task]: a fresh object. *)
Definition newTaskObject (t : string) (s : number) (o : string) (ls : string)
    (b : option BEEF) : M Task := fun w =>
  mkRun (mkWorld (app w) (S (nextOid w))) [] (Ok (mkTask (nextOid w) t s o ls b)).

Definition toast_error (msg : string) : M unit := emit (ToastError msg).
Definition toast_dark (msg : string) : M unit := emit (ToastDark msg).
Definition console_error (label : option string) (e : JsError) : M unit :=
  emit (ConsoleError label e).

(** Reading a property of [undefined]. *)
Definition TypeError_undefined (prop : string) : JsError :=
  mkError ("Cannot read properties of undefined (reading '" ++ prop ++ "')") None.

(** ** Discovery: the fan-out over the store's outputs

    The callback of [outputs.map(async ...)] runs synchronously up to its
    first [await] (the call to [walletClient.decrypt]) for every output in
    turn; the continuations after the [await] run later, when the promises
    settle, and [Promise.all] collects their results by position.  A [Slot]
    is what one callback has left when it suspends: either it has already
    settled (its synchronous part threw and was caught), or it awaits the
    decryption, holding its own [lockingScript] and [task]. *)
Inductive Slot :=
| Settled (r : option Task)
| Awaiting (lockingScript : string) (satoshis : option number) (promise : Res bytes).

(** [tx.outputs[0]], whose property is then read. *)
Definition output0 (tx : Transaction) : Res TransactionOutput :=
  match nth_error (tx_outputs tx) 0 with
  | Some o => Ok o
  | None => Err (TypeError_undefined "lockingScript")
  end.

(** [x ?? 0]. *)
Definition orZero (x : option number) : number :=
  match x with
  | Some v => v
  | None => 0%float
  end.

(** [results.filter(result => result !== null)]. *)
Fixpoint nonNull {A} (l : list (option A)) : list A :=
  match l with
  | [] => []
  | Some a :: r => a :: nonNull r
  | None :: r => nonNull r
  end.

(** [errorCode !== 'ERR_NO_METANET_IDENTITY']. *)
Definition not_missing_identity (e : JsError) : bool :=
  match code e with
  | Some c => negb (String.eqb c "ERR_NO_METANET_IDENTITY")
  | None => true
  end.

Definition quote : string := String (ascii_of_nat 34) EmptyString.

(** [if (description.length > 128) { description = description.substring(0, 128) }]. *)
Definition truncate128 (sdk : Sdk) (description : string) : string :=
  if Nat.ltb 128 (utf16_length sdk description)
  then utf16_substring sdk description 0 128
  else description.

(** [`Complete a TODO task: "${task}"`], cut to 128 code units. *)
Definition completeDescription (sdk : Sdk) (t : string) : string :=
  truncate128 sdk ("Complete a TODO task: " ++ quote ++ t ++ quote).

(** * [src/frontend/src/App.tsx] *)
Module Frontend.
Section Workflows.
Variable sdk : Sdk.

Definition DEFAULT_CREATE_AMOUNT : number := 1%float.

(** The [try] block of [handleCreateSubmit]; [r] is the state of the render
    whose closure the handler is. *)
Definition handleCreateSubmit_try (r : AppState) : M unit :=
  if String.eqb (createTask r) EmptyString then
    toast_error "Enter a task to complete!"
  else if PrimFloat.eqb (createAmount r) 0 || isNaN (createAmount r) then
    toast_error "Enter an amount for the new task!"
  else if PrimFloat.ltb (createAmount r) 1 then
    toast_error "The amount must at least 1 satoshi!"
  else
    setState (withCreateLoading true) ;;
    let plaintext := toArray_utf8 sdk (createTask r) in
    encryptedTask <- await (WalletEncrypt plaintext PROTOCOL_ID KEY_ID)
                       (encrypt sdk plaintext PROTOCOL_ID KEY_ID) ;;
    let fields := [toArray_utf8 sdk TODO_PROTO_ADDR; encryptedTask] in
    bitcoinOutputScript <- await (PushDropLock fields PROTOCOL_ID KEY_ID "self")
                             (pushdrop_lock sdk fields PROTOCOL_ID KEY_ID "self") ;;
    let args :=
      mkCAArgs ("Create a TODO task: " ++ createTask r) None []
        [mkCAOutput bitcoinOutputScript (createAmount r) "todo tokens" "New ToDo list item"]
        (mkCAOptions (Some false) (Some true)) in
    newToDoToken <- await (WalletCreateAction args) (createAction sdk args) ;;
    newTask <- newTaskObject (createTask r) (createAmount r)
                 (templ (car_txid newToDoToken) ++ ".0")
                 bitcoinOutputScript (car_tx newToDoToken) ;;
    setState (withTasks (newTask :: tasks r)) ;;
    setState (withCreateLoading false) ;;
    toast_dark "Task successfully created!" ;;
    setState (withCreateTask EmptyString) ;;
    setState (withCreateAmount DEFAULT_CREATE_AMOUNT) ;;
    setState (withCreateOpen false).

Definition handleCreateSubmit_catch (e : JsError) : M unit :=
  toast_error (message e) ;;
  console_error None e ;;
  setState (withCreateLoading false).

Definition handleCreateSubmit : M unit := fun w =>
  tryCatch (handleCreateSubmit_try (app w)) handleCreateSubmit_catch w.

(** The [try] block of [handleCompleteSubmit]. *)
Definition handleCompleteSubmit_try (r : AppState) : M unit :=
  setState (withCompleteLoading true) ;;
  match selectedTask r with
  | None => throw (mkError "selectedTask does not exist" None)
  | Some sel =>
      let description := completeDescription sdk (task sel) in
      let args :=
        mkCAArgs description (beef sel)
          [mkCAInput "Complete a ToDo list item" (outpoint sel) 73] []
          (mkCAOptions (Some false) (Some true)) in
      created <- await (WalletCreateAction args) (createAction sdk args) ;;
      match car_signableTransaction created with
      | None => throw (mkError "Failed to create signable transaction" None)
      | Some signableTransaction =>
          partialTx <- lift (fromBEEF sdk (Some (st_tx signableTransaction)) None) ;;
          let unlocker :=
            mkUnlocker PROTOCOL_ID KEY_ID "self" "all" false (sats sel)
              (lockingScript sel) in
          unlockingScript <- await (UnlockerSign unlocker partialTx 0)
                               (unlocker_sign sdk unlocker partialTx 0) ;;
          let sargs := mkSAArgs (st_reference signableTransaction) [(0, unlockingScript)] in
          signResult <- await (WalletSignAction sargs) (signAction sdk sargs) ;;
          setState (withCompleteLoading false) ;;
          setState (withCompleteOpen false) ;;
          emit (ConsoleLog signResult) ;;
          toast_dark "Congrats! Task complete ðŸŽ‰" ;;
          setState (fun prev =>
            withTasks (filter (fun t => negb (same_object t sel)) (tasks prev)) prev) ;;
          setState (withSelectedTask None)
      end
  end.

Definition handleCompleteSubmit_catch (e : JsError) : M unit :=
  toast_error ("Error completing task: " ++ message e) ;;
  console_error None e.

Definition handleCompleteSubmit : M unit := fun w =>
  finally
    (tryCatch (handleCompleteSubmit_try (app w)) handleCompleteSubmit_catch)
    (setState (withCompleteLoading false)) w.

(** The callback of [loadTasks] up to its [await]: it assigns the variable
    [txid], which [loadTasks] declares outside the callback and all callbacks
    share, and returns its new value with the slot. *)
Definition startOutput (basketBEEF : option BEEF) (task : WalletOutput)
    : M (option string * Slot) :=
  let txid := split0 (wo_outpoint task) in
  slot <- tryCatch
    (tx <- lift (fromBEEF sdk basketBEEF (Some txid)) ;;
     out0 <- lift (output0 tx) ;;
     let lockingScript := txo_lockingScript out0 in
     fields <- lift (pushdrop_decode sdk lockingScript) ;;
     let encryptedTask := nth_error fields 1 in
     emit (WalletDecrypt encryptedTask PROTOCOL_ID KEY_ID) ;;
     ret (Awaiting lockingScript (wo_satoshis task)
            (decrypt sdk encryptedTask PROTOCOL_ID KEY_ID)))
    (fun error =>
       console_error (Some "Error decrypting task:") error ;;
       ret (Settled None)) ;;
  ret (Some txid, slot).

(** [outputs.map(callback)]: every callback up to its [await], in order. *)
Fixpoint startAll (basketBEEF : option BEEF) (outputs : list WalletOutput)
    (txid : option string) : M (option string * list Slot) :=
  match outputs with
  | [] => ret (txid, [])
  | task :: rest =>
      started <- startOutput basketBEEF task ;;
      others <- startAll basketBEEF rest (fst started) ;;
      ret (fst others, snd started :: snd others)
  end.

(** The callback after its [await]; [txid] is the shared variable, read when
    the continuation runs. *)
Definition resumeOutput (basketBEEF : option BEEF) (txid : option string)
    (slot : Slot) : M (option Task) :=
  match slot with
  | Settled r => ret r
  | Awaiting lockingScript satoshis promise =>
      tryCatch
        (plaintext <- lift promise ;;
         t <- newTaskObject (toUTF8 sdk plaintext) (orZero satoshis)
                (templ txid ++ ".0") lockingScript basketBEEF ;;
         ret (Some t))
        (fun error =>
           console_error (Some "Error decrypting task:") error ;;
           ret None)
  end.

(** [Promise.all]: the results by position (the continuations are run in the
    order of the calls). *)
Fixpoint resumeAll (basketBEEF : option BEEF) (txid : option string)
    (slots : list Slot) : M (list (option Task)) :=
  match slots with
  | [] => ret []
  | slot :: rest =>
      r <- resumeOutput basketBEEF txid slot ;;
      rs <- resumeAll basketBEEF txid rest ;;
      ret (r :: rs)
  end.

Definition loadTasks_try : M unit :=
  setState (withTasksLoading true) ;;
  let args := mkLOArgs "todo tokens" "entire transactions" (Some 1000) in
  tasksFromBasket <- await (WalletListOutputs args) (listOutputs sdk args) ;;
  started <- startAll (lor_BEEF tasksFromBasket) (lor_outputs tasksFromBasket) None ;;
  decryptedTasksResults <- resumeAll (lor_BEEF tasksFromBasket) (fst started) (snd started) ;;
  let decryptedTasks := nonNull decryptedTasksResults in
  setState (withTasks (rev decryptedTasks)).

Definition loadTasks_catch (e : JsError) : M unit :=
  if not_missing_identity e then
    toast_error ("Failed to load ToDo tasks! Error: " ++ message e) ;;
    console_error None e
  else ret tt.

Definition loadTasks : M unit :=
  finally (tryCatch loadTasks_try loadTasks_catch) (setState (withTasksLoading false)).

End Workflows.
End Frontend.

(** * [src/src/App.tsx] *)
Module Root.
Section Workflows.
Variable sdk : Sdk.

(** [findIndex(x => x === selectedTask)] then [splice(index, 1)]: the first
    occurrence of the object is removed. *)
Fixpoint removeFirst (sel : Task) (oldTasks : list Task) : list Task :=
  match oldTasks with
  | [] => []
  | x :: rest => if same_object x sel then rest else x :: removeFirst sel rest
  end.

(** The [try] block of [handleCreateSubmit]. *)
Definition handleCreateSubmit_try (r : AppState) : M unit :=
  if String.eqb (createTask r) EmptyString then
    toast_error "Enter a task to complete!"
  else if PrimFloat.eqb (createAmount r) 0 || isNaN (createAmount r) then
    toast_error "Enter an amount for the new task!"
  else if PrimFloat.ltb (createAmount r) 1 then
    toast_error "The amount must be more than 1 satoshis!"
  else
    setState (withCreateLoading true) ;;
    let plaintext := toArray_utf8 sdk (createTask r) in
    encryptedTask <- await (WalletEncrypt plaintext (0, "todo list") "1")
                       (encrypt sdk plaintext (0, "todo list") "1") ;;
    let fields := [toArray_utf8 sdk TODO_PROTO_ADDR; encryptedTask] in
    bitcoinOutputScript <- await (PushDropLock fields (0, "todo list") "1" "self")
                             (pushdrop_lock sdk fields (0, "todo list") "1" "self") ;;
    let args :=
      mkCAArgs ("Create a TODO task: " ++ createTask r) None []
        [mkCAOutput bitcoinOutputScript (createAmount r) "todo tokens" "New ToDo list item"]
        (mkCAOptions (Some false) (Some false)) in
    newToDoToken <- await (WalletCreateAction args) (createAction sdk args) ;;
    toast_dark "Task successfully created!" ;;
    created <- newTaskObject (createTask r) (createAmount r)
                 (templ (car_txid newToDoToken) ++ ".0")
                 bitcoinOutputScript (car_tx newToDoToken) ;;
    setState (withTasks (created :: tasks r)) ;;
    setState (withCreateTask EmptyString) ;;
    setState (withCreateAmount 1000%float) ;;
    setState (withCreateOpen false).

Definition handleCreateSubmit_catch (e : JsError) : M unit :=
  toast_error (message e) ;;
  console_error None e.

Definition handleCreateSubmit : M unit := fun w =>
  finally
    (tryCatch (handleCreateSubmit_try (app w)) handleCreateSubmit_catch)
    (setState (withCreateLoading false)) w.

(** The [try] block of [handleCompleteSubmit].  The boolean that
    [loadedBeef.verify] resolves to is bound to [ok]. *)
Definition handleCompleteSubmit_try (r : AppState) : M unit :=
  setState (withCompleteLoading true) ;;
  match selectedTask r with
  | None => throw (mkError "selectedTask does not exist" None)
  | Some sel =>
      let description := completeDescription sdk (task sel) in
      let txid := split0 (outpoint sel) in
      loadedBeef <- lift (Beef_fromBinary sdk (beef sel)) ;;
      chainTracker <- await (ServicesGetChainTracker "main") (getChainTracker sdk "main") ;;
      ok <- await (BeefVerify loadedBeef chainTracker true)
              (Beef_verify sdk loadedBeef chainTracker true) ;;
      let args :=
        mkCAArgs description (Some loadedBeef)
          [mkCAInput "Complete a ToDo list item" (outpoint sel) 73] []
          (mkCAOptions (Some false) None) in
      created <- await (WalletCreateAction args) (createAction sdk args) ;;
      match car_signableTransaction created with
      | None => throw (mkError "Failed to create signable transaction" None)
      | Some signableTransaction =>
          partialTx <- lift (fromBEEF sdk (Some (st_tx signableTransaction)) None) ;;
          let unlocker :=
            mkUnlocker (0, "todo list") "1" "self" "all" false (sats sel)
              (lockingScript sel) in
          unlockingScript <- await (UnlockerSign unlocker partialTx 0)
                               (unlocker_sign sdk unlocker partialTx 0) ;;
          let sargs := mkSAArgs (st_reference signableTransaction) [(0, unlockingScript)] in
          signResult <- await (WalletSignAction sargs) (signAction sdk sargs) ;;
          emit (ConsoleLog signResult) ;;
          toast_dark "Congrats! Task complete 🎉" ;;
          setState (fun oldTasks => withTasks (removeFirst sel (tasks oldTasks)) oldTasks) ;;
          setState (withSelectedTask None) ;;
          setState (withCompleteOpen false)
      end
  end.

Definition handleCompleteSubmit_catch (e : JsError) : M unit :=
  toast_error ("Error completing task: " ++ message e) ;;
  console_error None e.

Definition handleCompleteSubmit : M unit := fun w =>
  finally
    (tryCatch (handleCompleteSubmit_try (app w)) handleCompleteSubmit_catch)
    (setState (withCompleteLoading false)) w.

(** The callback of the discovery effect up to its [await]; it assigns the
    shared variable [txid] from [tasksFromBasket.outputs[i].outpoint], which
    is [task.outpoint]. *)
Definition startOutput (basketBEEF : option BEEF) (task : WalletOutput)
    : M (option string * Slot) :=
  let txid := split0 (wo_outpoint task) in
  slot <- tryCatch
    (tx <- lift (fromBEEF sdk basketBEEF (Some (split0 (wo_outpoint task)))) ;;
     out0 <- lift (output0 tx) ;;
     let lockingScript := txo_lockingScript out0 in
     fields <- lift (pushdrop_decode sdk lockingScript) ;;
     let encryptedTask := nth_error fields 1 in
     emit (WalletDecrypt encryptedTask (0, "todo list") "1") ;;
     ret (Awaiting lockingScript (wo_satoshis task)
            (decrypt sdk encryptedTask (0, "todo list") "1")))
    (fun error =>
       console_error (Some "Error decrypting task:") error ;;
       ret (Settled None)) ;;
  ret (Some txid, slot).

Fixpoint startAll (basketBEEF : option BEEF) (outputs : list WalletOutput)
    (txid : option string) : M (option string * list Slot) :=
  match outputs with
  | [] => ret (txid, [])
  | task :: rest =>
      started <- startOutput basketBEEF task ;;
      others <- startAll basketBEEF rest (fst started) ;;
      ret (fst others, snd started :: snd others)
  end.

(** The callback after its [await], for the output at position [i]. *)
Definition resumeOutput (basketBEEF : option BEEF) (txid : option string)
    (i : nat) (slot : Slot) : M (option Task) :=
  match slot with
  | Settled r => ret r
  | Awaiting lockingScript satoshis promise =>
      tryCatch
        (plaintext <- lift promise ;;
         let decryptedTask := toUTF8 sdk plaintext in
         t <- newTaskObject decryptedTask (orZero satoshis)
                (templ txid ++ "." ++ templ_index i) lockingScript basketBEEF ;;
         ret (Some t))
        (fun error =>
           console_error (Some "Error decrypting task:") error ;;
           ret None)
  end.

Fixpoint resumeAll (basketBEEF : option BEEF) (txid : option string)
    (i : nat) (slots : list Slot) : M (list (option Task)) :=
  match slots with
  | [] => ret []
  | slot :: rest =>
      r <- resumeOutput basketBEEF txid i slot ;;
      rs <- resumeAll basketBEEF txid (S i) rest ;;
      ret (r :: rs)
  end.

Definition loadTasks_try : M unit :=
  let args := mkLOArgs "todo tokens" "entire transactions" None in
  tasksFromBasket <- await (WalletListOutputs args) (listOutputs sdk args) ;;
  started <- startAll (lor_BEEF tasksFromBasket) (lor_outputs tasksFromBasket) None ;;
  decryptedTasksResults <-
    resumeAll (lor_BEEF tasksFromBasket) (fst started) 0 (snd started) ;;
  let decryptedTasks := nonNull decryptedTasksResults in
  setState (withTasks (rev decryptedTasks)).

Definition loadTasks_catch (e : JsError) : M unit :=
  if not_missing_identity e then
    toast_error ("Failed to load ToDo tasks! Error: " ++ message e) ;;
    console_error None e
  else ret tt.

(** The effect that runs the discovery when the component mounts. *)
Definition loadTasks : M unit :=
  finally (tryCatch loadTasks_try loadTasks_catch) (setState (withTasksLoading false)).

End Workflows.
End Root.

(** * The two copies side by side *)

Inductive Copy := FrontendCopy | RootCopy.

Definition handleCreateSubmit (c : Copy) : Sdk -> M unit :=
  match c with
  | FrontendCopy => Frontend.handleCreateSubmit
  | RootCopy => Root.handleCreateSubmit
  end.

Definition handleCreateSubmit_try (c : Copy) : Sdk -> AppState -> M unit :=
  match c with
  | FrontendCopy => Frontend.handleCreateSubmit_try
  | RootCopy => Root.handleCreateSubmit_try
  end.

Definition handleCompleteSubmit (c : Copy) : Sdk -> M unit :=
  match c with
  | FrontendCopy => Frontend.handleCompleteSubmit
  | RootCopy => Root.handleCompleteSubmit
  end.

Definition handleCompleteSubmit_try (c : Copy) : Sdk -> AppState -> M unit :=
  match c with
  | FrontendCopy => Frontend.handleCompleteSubmit_try
  | RootCopy => Root.handleCompleteSubmit_try
  end.

Definition loadTasks (c : Copy) : Sdk -> M unit :=
  match c with
  | FrontendCopy => Frontend.loadTasks
  | RootCopy => Root.loadTasks
  end.

(** The argument of [walletClient.listOutputs] in each copy. *)
Definition listOutputsArgs (c : Copy) : ListOutputsArgs :=
  match c with
  | FrontendCopy => mkLOArgs "todo tokens" "entire transactions" (Some 1000)
  | RootCopy => mkLOArgs "todo tokens" "entire transactions" None
  end.

(** The output index that discovery writes into the [outpoint] of the record
    of the store's [i]-th output. *)
Definition recordedIndex (c : Copy) (i : nat) : string :=
  match c with
  | FrontendCopy => "0"
  | RootCopy => templ_index i
  end.

(** * Vocabulary of the statements *)

(** What a reader of the catalogue sees of a record (all but the identity of
    the object). *)
Record Content := mkContent {
  c_task : string;
  c_sats : number;
  c_outpoint : string;
  c_lockingScript : string;
  c_beef : option BEEF
}.

Definition content (t : Task) : Content :=
  mkContent (task t) (sats t) (outpoint t) (lockingScript t) (beef t).

(** Decoding one output of the store: the transaction named before the dot
    of its outpoint, the locking script of that transaction's output 0, the
    fields of the script. *)
Definition decoded (sdk : Sdk) (basketBEEF : option BEEF) (o : WalletOutput)
    : Res (string * option bytes) :=
  match fromBEEF sdk basketBEEF (Some (split0 (wo_outpoint o))) with
  | Err e => Err e
  | Ok tx =>
      match output0 tx with
      | Err e => Err e
      | Ok out0 =>
          match pushdrop_decode sdk (txo_lockingScript out0) with
          | Err e => Err e
          | Ok fields => Ok (txo_lockingScript out0, nth_error fields 1)
          end
      end
  end.

(** Decoding and decrypting one output: its locking script and plaintext. *)
Definition decrypted (sdk : Sdk) (basketBEEF : option BEEF) (o : WalletOutput)
    : Res (string * bytes) :=
  match decoded sdk basketBEEF o with
  | Err e => Err e
  | Ok (ls, encryptedTask) =>
      match decrypt sdk encryptedTask PROTOCOL_ID KEY_ID with
      | Err e => Err e
      | Ok plaintext => Ok (ls, plaintext)
      end
  end.

Definition fails {A} (r : Res A) : bool :=
  match r with
  | Ok _ => false
  | Err _ => true
  end.

(** The console lines ['Error decrypting task:'] of a trace. *)
Definition is_decrypt_error_line (ev : Event) : bool :=
  match ev with
  | ConsoleError (Some l) _ => String.eqb l "Error decrypting task:"
  | _ => false
  end.

(** The value of the shared variable [txid] once every callback has run its
    synchronous part. *)
Fixpoint finalTxid (txid : option string) (outputs : list WalletOutput) : option string :=
  match outputs with
  | [] => txid
  | o :: rest => finalTxid (Some (split0 (wo_outpoint o))) rest
  end.

(** The slot an output leaves and the events of its synchronous part. *)
Definition slotOf (sdk : Sdk) (basketBEEF : option BEEF) (o : WalletOutput) : Slot :=
  match decoded sdk basketBEEF o with
  | Err _ => Settled None
  | Ok (ls, encryptedTask) =>
      Awaiting ls (wo_satoshis o) (decrypt sdk encryptedTask PROTOCOL_ID KEY_ID)
  end.

Definition startEvents (sdk : Sdk) (basketBEEF : option BEEF) (o : WalletOutput)
    : list Event :=
  match decoded sdk basketBEEF o with
  | Err e => [ConsoleError (Some "Error decrypting task:") e]
  | Ok (_, encryptedTask) => [WalletDecrypt encryptedTask PROTOCOL_ID KEY_ID]
  end.

(** The record expected for the output at position [i], given the final
    value of [txid]. *)
Definition expected (c : Copy) (sdk : Sdk) (basketBEEF : option BEEF)
    (txid : option string) (i : nat) (o : WalletOutput) : option Content :=
  match decrypted sdk basketBEEF o with
  | Err _ => None
  | Ok (ls, plaintext) =>
      Some (mkContent (toUTF8 sdk plaintext) (orZero (wo_satoshis o))
              (templ txid ++ "." ++ recordedIndex c i) ls basketBEEF)
  end.

Fixpoint expectedFrom (c : Copy) (sdk : Sdk) (basketBEEF : option BEEF)
    (txid : option string) (i : nat) (outputs : list WalletOutput)
    : list (option Content) :=
  match outputs with
  | [] => []
  | o :: rest =>
      expected c sdk basketBEEF txid i o
        :: expectedFrom c sdk basketBEEF txid (S i) rest
  end.

(** What the continuation of a slot contributes: the record and the console
    lines. *)
Definition slotContent (c : Copy) (sdk : Sdk) (basketBEEF : option BEEF)
    (txid : option string) (i : nat) (s : Slot) : option Content :=
  match s with
  | Settled r => option_map content r
  | Awaiting ls satoshis (Ok plaintext) =>
      Some (mkContent (toUTF8 sdk plaintext) (orZero satoshis)
              (templ txid ++ "." ++ recordedIndex c i) ls basketBEEF)
  | Awaiting _ _ (Err _) => None
  end.

Fixpoint slotContentsFrom (c : Copy) (sdk : Sdk) (basketBEEF : option BEEF)
    (txid : option string) (i : nat) (slots : list Slot) : list (option Content) :=
  match slots with
  | [] => []
  | s :: rest =>
      slotContent c sdk basketBEEF txid i s
        :: slotContentsFrom c sdk basketBEEF txid (S i) rest
  end.

Definition resumeEvents (s : Slot) : list Event :=
  match s with
  | Awaiting _ _ (Err e) => [ConsoleError (Some "Error decrypting task:") e]
  | _ => []
  end.

(** The text, the value and the locking script of the record an output
    yields. *)
Definition payload (sdk : Sdk) (basketBEEF : option BEEF) (o : WalletOutput)
    : option (string * number * string) :=
  match decrypted sdk basketBEEF o with
  | Err _ => None
  | Ok (ls, plaintext) => Some (toUTF8 sdk plaintext, orZero (wo_satoshis o), ls)
  end.

(** Two outputs that differ at most in what follows the first dot of their
    outpoints. *)
Definition same_but_vout (o o' : WalletOutput) : Prop :=
  split0 (wo_outpoint o) = split0 (wo_outpoint o') /\ wo_satoshis o = wo_satoshis o'.

(** The argument of [createAction] in a creation of the task [text] worth
    [amount] under the locking script [script]; the two copies differ in
    [acceptDelayedBroadcast]. *)
Definition createArgs (c : Copy) (text : string) (amount : number) (script : string)
    : CreateActionArgs :=
  mkCAArgs ("Create a TODO task: " ++ text) None []
    [mkCAOutput script amount "todo tokens" "New ToDo list item"]
    (mkCAOptions (Some false)
       (Some match c with FrontendCopy => true | RootCopy => false end)).

(** What a redemption of [sel] does before it asks the wallet for the
    spending transaction, and the evidence it then hands over: the first copy
    takes the record's evidence as it is; the second parses it, obtains a
    chain tracker and awaits the verification. *)
Definition evidenceOf (c : Copy) (sdk : Sdk) (sel : Task) : Res (option BEEF) :=
  match c with
  | FrontendCopy => Ok (beef sel)
  | RootCopy =>
      match Beef_fromBinary sdk (beef sel) with
      | Err e => Err e
      | Ok loadedBeef =>
          match getChainTracker sdk "main" with
          | Err e => Err e
          | Ok chainTracker =>
              match Beef_verify sdk loadedBeef chainTracker true with
              | Err e => Err e
              | Ok _ => Ok (Some loadedBeef)
              end
          end
      end
  end.

(** The argument of [createAction] in a redemption of [sel] with the
    evidence [inputBEEF]. *)
Definition completeArgs (c : Copy) (sdk : Sdk) (sel : Task) (inputBEEF : option BEEF)
    : CreateActionArgs :=
  mkCAArgs (completeDescription sdk (task sel)) inputBEEF
    [mkCAInput "Complete a ToDo list item" (outpoint sel) 73] []
    (mkCAOptions (Some false)
       match c with FrontendCopy => Some true | RootCopy => None end).

(** The unlocker that a redemption of [sel] builds with [PushDrop.unlock]. *)
Definition unlockerOf (sel : Task) : Unlocker :=
  mkUnlocker (0, "todo list") "1" "self" "all" false (sats sel) (lockingScript sel).

(** The calls to [lock] of a trace. *)
Definition is_lock_call (ev : Event) : bool :=
  match ev with
  | PushDropLock _ _ _ _ => true
  | _ => false
  end.

(** Texts of ASCII characters: those whose bytes are their UTF-16 code
    units. *)
Definition ascii_only (s : string) : bool :=
  forallb (fun ch => Nat.ltb (nat_of_ascii ch) 128) (list_ascii_of_string s).

(** The string primitives on ASCII text. *)
Definition utf16_on_ascii (sdk : Sdk) : Prop :=
  forall s, ascii_only s = true ->
    utf16_length sdk s = String.length s /\
    (forall n, utf16_substring sdk s 0 n = substring 0 n s).

(** Replacing one collaborator. *)
Definition with_listOutputs (f : ListOutputsArgs -> Res ListOutputsResult) (s : Sdk) : Sdk :=
  mkSdk (utf16_length s) (utf16_substring s)
    (toArray_utf8 s) (toUTF8 s) (encrypt s) (decrypt s) (createAction s)
    (signAction s) f (pushdrop_lock s) (pushdrop_decode s) (unlocker_sign s)
    (fromBEEF s) (Beef_fromBinary s) (getChainTracker s) (Beef_verify s).

Definition with_Beef_verify (f : BEEF -> string -> bool -> Res bool) (s : Sdk) : Sdk :=
  mkSdk (utf16_length s) (utf16_substring s)
    (toArray_utf8 s) (toUTF8 s) (encrypt s) (decrypt s) (createAction s)
    (signAction s) (listOutputs s) (pushdrop_lock s) (pushdrop_decode s)
    (unlocker_sign s) (fromBEEF s) (Beef_fromBinary s) (getChainTracker s) f.

Definition with_createAction (f : CreateActionArgs -> Res CreateActionResult) (s : Sdk) : Sdk :=
  mkSdk (utf16_length s) (utf16_substring s)
    (toArray_utf8 s) (toUTF8 s) (encrypt s) (decrypt s) f
    (signAction s) (listOutputs s) (pushdrop_lock s) (pushdrop_decode s)
    (unlocker_sign s) (fromBEEF s) (Beef_fromBinary s) (getChainTracker s)
    (Beef_verify s).

(** * A small model of the collaborators

    An executable [Sdk] on which the workflows can be run: a cipher that tags
    the plaintext with its context, a script format that stores the fields
    with their lengths, a ledger that is a table from transaction names to
    transactions. *)
Module Demo.

Definition contextTag (p : WalletProtocol) (k : string) : bytes :=
  list_byte_of_string (templ_index (fst p) ++ "/" ++ snd p ++ "/" ++ k ++ ":").

Fixpoint stripPrefix (p l : bytes) : option bytes :=
  match p, l with
  | [], _ => Some l
  | x :: p', y :: l' => if Byte.eqb x y then stripPrefix p' l' else None
  | _ :: _, [] => None
  end.

Definition demoEncrypt (plaintext : bytes) (p : WalletProtocol) (k : string) : Res bytes :=
  Ok (contextTag p k ++ plaintext)%list.

Definition demoDecrypt (ciphertext : option bytes) (p : WalletProtocol) (k : string)
    : Res bytes :=
  match ciphertext with
  | None => Err (mkError "ciphertext is undefined" None)
  | Some c =>
      match stripPrefix (contextTag p k) c with
      | Some plaintext => Ok plaintext
      | None => Err (mkError "decryption failed" None)
      end
  end.

(** A script: each field preceded by its length. *)
Fixpoint scriptOf (fields : list bytes) : string :=
  match fields with
  | [] => EmptyString
  | f :: r => String (ascii_of_nat (List.length f)) (string_of_list_byte f ++ scriptOf r)
  end.

Fixpoint parseScript (s : string) (cur : option (nat * bytes)) (done : list bytes)
    : option (list bytes) :=
  match s with
  | EmptyString =>
      match cur with
      | None => Some (rev done)
      | Some _ => None
      end
  | String ch r =>
      match cur with
      | None =>
          match nat_of_ascii ch with
          | 0 => parseScript r None ([] :: done)
          | n => parseScript r (Some (n, [])) done
          end
      | Some (n, acc) =>
          match n with
          | 0 | 1 => parseScript r None (rev (byte_of_ascii ch :: acc) :: done)
          | S m => parseScript r (Some (m, byte_of_ascii ch :: acc)) done
          end
      end
  end.

Definition demoLock (fields : list bytes) (p : WalletProtocol) (k counterparty : string)
    : Res string :=
  if forallb (fun f => Nat.ltb (List.length f) 256) fields then Ok (scriptOf fields)
  else Err (mkError "field too long" None).

Definition demoDecode (script : string) : Res (list bytes) :=
  match parseScript script None [] with
  | Some fields => Ok fields
  | None => Err (mkError "not a PushDrop script" None)
  end.

Definition Ledger := list (string * Transaction).

Fixpoint lookupTx (ledger : Ledger) (txid : string) : Res Transaction :=
  match ledger with
  | [] => Err (mkError ("BEEF does not contain " ++ txid) None)
  | (t, tx) :: r => if String.eqb t txid then Ok tx else lookupTx r txid
  end.

Definition demoFromBEEF (ledger : Ledger) (b : option BEEF) (txid : option string)
    : Res Transaction :=
  match b, txid with
  | None, _ => Err (mkError "BEEF is undefined" None)
  | Some raw, None => Ok (mkTx raw [])
  | Some _, Some t => lookupTx ledger t
  end.

Definition demoCreateAction (args : CreateActionArgs) : Res CreateActionResult :=
  match ca_inputs args with
  | [] => Ok (mkCAResult (Some "created") (Some []) None)
  | _ => Ok (mkCAResult None None (Some (mkSignable [] "reference")))
  end.

Definition demoBeefFromBinary (b : option BEEF) : Res BEEF :=
  match b with
  | Some raw => Ok raw
  | None => Err (mkError "BEEF is undefined" None)
  end.

(** The collaborators over a ledger and a basket; the string primitives are
    those of ASCII text. *)
Definition sdk (ledger : Ledger) (basket : list WalletOutput) : Sdk :=
  mkSdk String.length (fun s i j => substring i (j - i) s)
    list_byte_of_string string_of_list_byte demoEncrypt demoDecrypt
    demoCreateAction
    (fun _ => Ok (mkSAResult (Some "spent") None))
    (fun _ => Ok (mkLOResult basket (Some [])))
    demoLock demoDecode
    (fun _ _ _ => Ok "unlocking script")
    (demoFromBEEF ledger) demoBeefFromBinary
    (fun chain => Ok chain)
    (fun _ _ _ => Ok true).

Definition emptyApp : AppState :=
  mkApp false false EmptyString 1%float false true [] false None false.

Definition emptyWorld : World := mkWorld emptyApp 0.

(** The task script of this protocol for a plaintext. *)
Definition taskScript (text : string) : string :=
  scriptOf [list_byte_of_string TODO_PROTO_ADDR;
            (contextTag PROTOCOL_ID KEY_ID ++ list_byte_of_string text)%list].

(** A transaction whose outputs carry the given scripts. *)
Definition txOf (scripts : list string) : Transaction :=
  mkTx [] (map (fun s => mkTxOut s (Some 1%float)) scripts).

(** A ledger: three task transactions (the third with a second output), a
    transaction whose output is not a script of two fields, and one whose
    three-field script carries another marker. *)
Definition alienScript : string :=
  scriptOf [list_byte_of_string "another protocol";
            (contextTag PROTOCOL_ID KEY_ID ++ list_byte_of_string "alien")%list;
            list_byte_of_string "a third field"].

Definition ledger : Ledger :=
  [("A", txOf [taskScript "one"]);
   ("B", txOf [taskScript "two"]);
   ("C", txOf [taskScript "three"; taskScript "hidden"]);
   ("X", txOf [scriptOf [list_byte_of_string "one field only"]]);
   ("Y", txOf [alienScript])].

(** Three records, oldest first; the second without an amount, the third at
    output 1 of its transaction. *)
Definition basket3 : list WalletOutput :=
  [mkWalletOutput (Some 5%float) "A.0";
   mkWalletOutput None "B.0";
   mkWalletOutput (Some 7%float) "C.1"].

(** One record, at output 1 of its transaction. *)
Definition basketC1 : list WalletOutput := [mkWalletOutput (Some 7%float) "C.1"].

(** Four candidates, of which the second (one field) and the third (not in
    the ledger) fail. *)
Definition basket4 : list WalletOutput :=
  [mkWalletOutput (Some 5%float) "A.0";
   mkWalletOutput (Some 1%float) "X.0";
   mkWalletOutput (Some 1%float) "Z.0";
   mkWalletOutput (Some 2%float) "B.0"].

(** Two records of different transactions, oldest first. *)
Definition basketAB : list WalletOutput :=
  [mkWalletOutput (Some 5%float) "A.0"; mkWalletOutput (Some 2%float) "B.0"].

(** Two records, the second at output 1 of its transaction. *)
Definition basketAC1 : list WalletOutput :=
  [mkWalletOutput (Some 5%float) "A.0"; mkWalletOutput (Some 7%float) "C.1"].

(** A render in which the user has typed a task and an amount. *)
Definition typed (text : string) (amount : number) : World :=
  mkWorld (withCreateTask text (withCreateAmount amount emptyApp)) 0.

(** A render after the discovery pass (the list is on screen), with the
    creation dialog open and a task and an amount typed. *)
Definition filledIn (text : string) (amount : number) : World :=
  mkWorld (withCreateOpen true
             (withTasksLoading false
                (withCreateTask text (withCreateAmount amount emptyApp)))) 0.

(** The record that discovery makes of the second output of [basket3], and a
    render in which a record is selected for completion. *)
Definition recordTwo : Task :=
  mkTask 1 "two" 0%float "C.0" (taskScript "two") (Some []).

Definition selecting (t : Task) : World :=
  mkWorld (withSelectedTask (Some t) (withTasks [t] emptyApp)) 2.

(** An error thrown by the wallet. *)
Definition boom : JsError := mkError "boom" None.

(** The ledger and the basket after the creation of the task "Buy milk"
    ([demoCreateAction] names the transaction "created"), and the record
    that the creation puts on the list. *)
Definition milkLedger : Ledger := [("created", txOf [taskScript "Buy milk"])].

Definition milkBasket : list WalletOutput :=
  [mkWalletOutput (Some 1000%float) "created.0"].

Definition milkRecord : Task :=
  mkTask 0 "Buy milk" 1000%float "created.0" (taskScript "Buy milk") (Some []).


End Demo.

(** * The rest of the component

    What the two copies of [App.tsx] define beside the three workflows (the
    same text in both, unless said otherwise), and the utility
    [checkForMetaNetClient]. *)

(** [openCompleteModal(task)]: the click handler of a list item. *)
Definition openCompleteModal (task : Task) : M unit :=
  setState (withSelectedTask (Some task)) ;;
  setState (withCompleteOpen true).

(** A click on the [i]-th item of the rendered list.  The list is rendered
    only when [tasksLoading] is false (a loading bar takes its place
    otherwise): [tasks.map((x, i) => <ListItem onClick={openCompleteModal(x)} />)];
    there is no item to click while the list is loading, nor beyond its
    end. *)
Definition clickItem (i : nat) : M unit := fun w =>
  if tasksLoading (app w) then ret tt w
  else
    match nth_error (tasks (app w)) i with
    | Some x => openCompleteModal x w
    | None => ret tt w
    end.

(** [onSubmit] of the creation form: the handler is awaited inside a [try]
    whose [catch] logs ['Error in form submission:']. *)
Definition onSubmitCreate (c : Copy) (sdk : Sdk) : M unit :=
  tryCatch (handleCreateSubmit c sdk)
    (fun error => console_error (Some "Error in form submission:") error).

(** [onSubmit] of the completion form. *)
Definition onSubmitComplete (c : Copy) (sdk : Sdk) : M unit :=
  tryCatch (handleCompleteSubmit c sdk)
    (fun error => console_error (Some "Error in form submission:") error).

(** [utils/checkForMetaNetClient.ts] (both files; they differ in the
    arguments of [new WalletClient] only): [getNetwork] is how the call
    [getNetwork()] settles, with the network name when it resolves. *)
Definition checkForMetaNetClient (getNetwork : Res string) : number :=
  match getNetwork with
  | Ok result =>
      if String.eqb result "mainnet" || String.eqb result "testnet" then 1%float
      else (-1)%float
  | Err _ => 0%float
  end.

Definition withIsMncMissing (v : bool) (s : AppState) : AppState :=
  mkApp v (createOpen s) (createTask s) (createAmount s) (createLoading s)
    (tasksLoading s) (tasks s) (completeOpen s) (selectedTask s) (completeLoading s).

(** The state of the polling effect: the React state and whether the
    interval started by [setInterval] is still running. *)
Record Polling := mkPolling {
  p_app : AppState;
  p_interval : bool
}.

(** The [then] callback of one check: [hasMNC === 0] opens the modal, any
    other number closes it and clears the interval. *)
Definition onChecked (hasMNC : number) (p : Polling) : Polling :=
  if PrimFloat.eqb hasMNC 0 then mkPolling (withIsMncMissing true (p_app p)) (p_interval p)
  else mkPolling (withIsMncMissing false (p_app p)) false.

(** The ticks of the interval, one for each element of [answers] (how
    [getNetwork] settles at that tick), each check settling before the next
    tick; a cleared interval ticks no more.  The number returned counts the
    checks made. *)
Fixpoint poll (answers : list (Res string)) (p : Polling) : Polling * nat :=
  match answers with
  | [] => (p, 0)
  | answer :: later =>
      if p_interval p then
        let (p', n) := poll later (onChecked (checkForMetaNetClient answer) p) in
        (p', S n)
      else (p, 0)
  end.

(** The kinds of calls to the asynchronous services, in the order of a
    trace. *)
Inductive CallKind :=
| KEncrypt | KDecrypt | KLock | KCreateAction | KSignAction | KListOutputs
| KUnlockerSign | KGetChainTracker | KVerify.

Fixpoint calls (tr : list Event) : list CallKind :=
  match tr with
  | [] => []
  | ev :: r =>
      match ev with
      | WalletEncrypt _ _ _ => KEncrypt :: calls r
      | WalletDecrypt _ _ _ => KDecrypt :: calls r
      | PushDropLock _ _ _ _ => KLock :: calls r
      | WalletCreateAction _ => KCreateAction :: calls r
      | WalletSignAction _ => KSignAction :: calls r
      | WalletListOutputs _ => KListOutputs :: calls r
      | UnlockerSign _ _ _ => KUnlockerSign :: calls r
      | ServicesGetChainTracker _ => KGetChainTracker :: calls r
      | BeefVerify _ _ _ => KVerify :: calls r
      | _ => calls r
      end
  end.

(** The calls of each workflow when every step succeeds. *)
Definition createProtocol : list CallKind := [KEncrypt; KLock; KCreateAction].

Definition completeProtocol (c : Copy) : list CallKind :=
  match c with
  | FrontendCopy => [KCreateAction; KUnlockerSign; KSignAction]
  | RootCopy => [KGetChainTracker; KVerify; KCreateAction; KUnlockerSign; KSignAction]
  end.

(** [l] is an initial segment of [l']. *)
Fixpoint prefixOf (l l' : list CallKind) : Prop :=
  match l, l' with
  | [], _ => True
  | x :: r, y :: r' => x = y /\ prefixOf r r'
  | _ :: _, [] => False
  end.

(** Every record on the list is an object of its own, allocated before the
    next fresh identity. *)
Definition distinct_objects (w : World) : Prop :=
  NoDup (map oid (tasks (app w))) /\
  Forall (fun t => oid t < nextOid w) (tasks (app w)).

(** What the continuations of a discovery pass allocate, from the world [w]
    to the next fresh identity [n]: objects of their own, numbered from
    [nextOid w] up to [n]. *)
Definition fresh_results (w : World) (rs : list (option Task)) (n : nat) : Prop :=
  nextOid w <= n /\
  NoDup (map oid (nonNull rs)) /\
  Forall (fun t => nextOid w <= oid t /\ oid t < n) (nonNull rs).

(** The list without the record [sel] (by identity), as
    [prevTasks.filter(task => task !== selectedTask)] computes it. *)
Definition without (sel : Task) (l : list Task) : list Task :=
  filter (fun t => negb (same_object t sel)) l.

(** A creation, a click on the first item of the list, a completion. *)
Definition createThenComplete (c : Copy) (sdk : Sdk) : M unit :=
  handleCreateSubmit c sdk ;;
  clickItem 0 ;;
  handleCompleteSubmit c sdk.

(** * Proof tools *)

Ltac unfold_workflows :=
  unfold handleCreateSubmit, handleCompleteSubmit,
    handleCreateSubmit_try, handleCompleteSubmit_try,
    Frontend.handleCreateSubmit, Root.handleCreateSubmit,
    Frontend.handleCompleteSubmit, Root.handleCompleteSubmit,
    Frontend.handleCreateSubmit_try, Root.handleCreateSubmit_try,
    Frontend.handleCompleteSubmit_try, Root.handleCompleteSubmit_try,
    Frontend.handleCreateSubmit_catch, Root.handleCreateSubmit_catch,
    Frontend.handleCompleteSubmit_catch, Root.handleCompleteSubmit_catch,
    finally, tryCatch.

Ltac unfold_monad :=
  unfold bind, await, emit, lift, ret, throw, setState, newTaskObject,
    toast_error, toast_dark, console_error.

(** One step of a handler: a case analysis on the next answer of a
    collaborator. *)
Ltac step :=
  match goal with
  | |- context [match ?r with Ok _ => _ | Err _ => _ end] =>
      lazymatch r with
      | context [match _ with _ => _ end] => fail
      | _ => let E := fresh "E" in destruct r eqn:E; cbn
      end
  | |- context [match ?r with Some _ => _ | None => _ end] =>
      lazymatch r with
      | context [match _ with _ => _ end] => fail
      | _ => let E := fresh "E" in destruct r eqn:E; cbn
      end
  end.

(** The branches of [handleCreateSubmit]: the three rejections, then the
    answers of [encrypt], [lock] and [createAction]. *)
Ltac create_branches c w :=
  destruct c; unfold_workflows;
  (destruct (String.eqb (createTask (app w)) EmptyString) eqn:Htext;
   [cbn|
    destruct (PrimFloat.eqb (createAmount (app w)) 0 || isNaN (createAmount (app w)))
      eqn:Hzero;
    [cbn|
     destruct (PrimFloat.ltb (createAmount (app w)) 1) eqn:Hlt;
     [cbn|unfold_monad; cbn; repeat step]]]).

(** The branches of [handleCompleteSubmit]. *)
Ltac complete_branches c w :=
  destruct c; unfold_workflows; unfold_monad; cbn; repeat step.

(** A session of several steps. *)
Ltac unfold_session :=
  unfold createThenComplete, clickItem, openCompleteModal.

(** The two ways a run of a handler ends: the toast of success, or one
    error toast. *)
Ltac run_succeeded :=
  left; repeat split; solve [reflexivity|eexists; reflexivity].

Ltac run_failed :=
  right; split; [reflexivity|]; eexists; repeat split;
  first [reflexivity|eassumption].

(** * Properties *)

(** ** Running a sequence *)

Lemma bind_run {A B} (m : M A) (k : A -> M B) (w w1 w2 : World)
    (ev1 ev2 : list Event) (a : A) (r : Res B) :
  m w = mkRun w1 ev1 (Ok a) ->
  k a w1 = mkRun w2 ev2 r ->
  bind m k w = mkRun w2 (ev1 ++ ev2) r.
Proof. intros Hm Hk. unfold bind. rewrite Hm. cbn. now rewrite Hk. Qed.

Lemma bind_ret_run {A B} (m : M A) (f : A -> B) (w w1 : World)
    (ev1 : list Event) (a : A) :
  m w = mkRun w1 ev1 (Ok a) ->
  bind m (fun x => ret (f x)) w = mkRun w1 ev1 (Ok (f a)).
Proof. intros Hm. unfold bind, ret. rewrite Hm. cbn. now rewrite app_nil_r. Qed.

Lemma bind_setState_run {A} (m : M A) (f : A -> AppState -> AppState)
    (w w1 : World) (ev1 : list Event) (a : A) :
  m w = mkRun w1 ev1 (Ok a) ->
  bind m (fun x => setState (f x)) w =
  mkRun (mkWorld (f a (app w1)) (nextOid w1)) ev1 (Ok tt).
Proof. intros Hm. unfold bind, setState. rewrite Hm. cbn. now rewrite app_nil_r. Qed.

(** ** The discovery pass, phase by phase *)

Section Discovery.
Variable sdk : Sdk.
Variable basketBEEF : option BEEF.

Lemma Frontend_startOutput_run (o : WalletOutput) (w : World) :
  Frontend.startOutput sdk basketBEEF o w =
  mkRun w (startEvents sdk basketBEEF o)
    (Ok (Some (split0 (wo_outpoint o)), slotOf sdk basketBEEF o)).
Proof.
  unfold Frontend.startOutput, startEvents, slotOf, decoded.
  unfold bind, tryCatch, lift, emit, ret, console_error; cbn.
  destruct (fromBEEF sdk basketBEEF (Some (split0 (wo_outpoint o)))) as [tx|e];
    cbn; [|reflexivity].
  destruct (output0 tx) as [out0|e]; cbn; [|reflexivity].
  destruct (pushdrop_decode sdk (txo_lockingScript out0)) as [fields|e]; reflexivity.
Qed.

Lemma Root_startOutput_run (o : WalletOutput) (w : World) :
  Root.startOutput sdk basketBEEF o w =
  mkRun w (startEvents sdk basketBEEF o)
    (Ok (Some (split0 (wo_outpoint o)), slotOf sdk basketBEEF o)).
Proof. exact (Frontend_startOutput_run o w). Qed.

Lemma Frontend_startAll_run (outputs : list WalletOutput) :
  forall (txid : option string) (w : World),
  Frontend.startAll sdk basketBEEF outputs txid w =
  mkRun w (flat_map (startEvents sdk basketBEEF) outputs)
    (Ok (finalTxid txid outputs, map (slotOf sdk basketBEEF) outputs)).
Proof.
  induction outputs as [|o rest IH]; intros txid w; [reflexivity|].
  cbn [Frontend.startAll flat_map finalTxid map].
  eapply bind_run; [apply Frontend_startOutput_run|].
  cbn [fst snd]. erewrite bind_ret_run by apply IH. reflexivity.
Qed.

Lemma Root_startAll_run (outputs : list WalletOutput) :
  forall (txid : option string) (w : World),
  Root.startAll sdk basketBEEF outputs txid w =
  mkRun w (flat_map (startEvents sdk basketBEEF) outputs)
    (Ok (finalTxid txid outputs, map (slotOf sdk basketBEEF) outputs)).
Proof.
  induction outputs as [|o rest IH]; intros txid w; [reflexivity|].
  cbn [Root.startAll flat_map finalTxid map].
  eapply bind_run; [apply Root_startOutput_run|].
  cbn [fst snd]. erewrite bind_ret_run by apply IH. reflexivity.
Qed.

Lemma Frontend_resumeOutput_run (txid : option string) (i : nat) (s : Slot) (w : World) :
  exists r n,
    Frontend.resumeOutput sdk basketBEEF txid s w =
      mkRun (mkWorld (app w) n) (resumeEvents s) (Ok r) /\
    option_map content r = slotContent FrontendCopy sdk basketBEEF txid i s.
Proof.
  destruct s as [r|ls satoshis [plaintext|e]]; cbn.
  - exists r, (nextOid w). destruct w; split; reflexivity.
  - eexists _, _. split; reflexivity.
  - exists None, (nextOid w). destruct w; split; reflexivity.
Qed.

Lemma Root_resumeOutput_run (txid : option string) (i : nat) (s : Slot) (w : World) :
  exists r n,
    Root.resumeOutput sdk basketBEEF txid i s w =
      mkRun (mkWorld (app w) n) (resumeEvents s) (Ok r) /\
    option_map content r = slotContent RootCopy sdk basketBEEF txid i s.
Proof.
  destruct s as [r|ls satoshis [plaintext|e]]; cbn.
  - exists r, (nextOid w). destruct w; split; reflexivity.
  - eexists _, _. split; reflexivity.
  - exists None, (nextOid w). destruct w; split; reflexivity.
Qed.

Lemma Frontend_resumeAll_run (txid : option string) (slots : list Slot) :
  forall (i : nat) (w : World),
  exists rs n,
    Frontend.resumeAll sdk basketBEEF txid slots w =
      mkRun (mkWorld (app w) n) (flat_map resumeEvents slots) (Ok rs) /\
    map (option_map content) rs = slotContentsFrom FrontendCopy sdk basketBEEF txid i slots.
Proof.
  induction slots as [|s rest IH]; intros i w.
  - exists [], (nextOid w). destruct w; split; reflexivity.
  - destruct (Frontend_resumeOutput_run txid i s w) as (r & n & Hr & Hc).
    destruct (IH (S i) (mkWorld (app w) n)) as (rs & n' & Hrs & Hcs).
    exists (r :: rs), n'. split.
    + cbn [Frontend.resumeAll flat_map]. eapply bind_run; [exact Hr|].
      apply (bind_ret_run _ (fun rs => r :: rs)). exact Hrs.
    + cbn [map slotContentsFrom]. now rewrite Hc, Hcs.
Qed.

Lemma Root_resumeAll_run (txid : option string) (slots : list Slot) :
  forall (i : nat) (w : World),
  exists rs n,
    Root.resumeAll sdk basketBEEF txid i slots w =
      mkRun (mkWorld (app w) n) (flat_map resumeEvents slots) (Ok rs) /\
    map (option_map content) rs = slotContentsFrom RootCopy sdk basketBEEF txid i slots.
Proof.
  induction slots as [|s rest IH]; intros i w.
  - exists [], (nextOid w). destruct w; split; reflexivity.
  - destruct (Root_resumeOutput_run txid i s w) as (r & n & Hr & Hc).
    destruct (IH (S i) (mkWorld (app w) n)) as (rs & n' & Hrs & Hcs).
    exists (r :: rs), n'. split.
    + cbn [Root.resumeAll flat_map]. eapply bind_run; [exact Hr|].
      apply (bind_ret_run _ (fun rs => r :: rs)). exact Hrs.
    + cbn [map slotContentsFrom]. now rewrite Hc, Hcs.
Qed.

Lemma slotContent_slotOf (c : Copy) (txid : option string) (i : nat) (o : WalletOutput) :
  slotContent c sdk basketBEEF txid i (slotOf sdk basketBEEF o) =
  expected c sdk basketBEEF txid i o.
Proof.
  unfold slotOf, expected, decrypted.
  destruct (decoded sdk basketBEEF o) as [[ls enc]|e]; [|reflexivity].
  cbn. destruct (decrypt sdk enc PROTOCOL_ID KEY_ID); reflexivity.
Qed.

Lemma slotContentsFrom_slotOf (c : Copy) (txid : option string) (outputs : list WalletOutput) :
  forall i,
  slotContentsFrom c sdk basketBEEF txid i (map (slotOf sdk basketBEEF) outputs) =
  expectedFrom c sdk basketBEEF txid i outputs.
Proof.
  induction outputs as [|o rest IH]; intros i; [reflexivity|].
  cbn [map slotContentsFrom expectedFrom]. now rewrite slotContent_slotOf, IH.
Qed.

End Discovery.

Lemma nonNull_map {A B} (f : A -> B) (l : list (option A)) :
  map f (nonNull l) = nonNull (map (option_map f) l).
Proof.
  induction l as [|[a|] l IH]; cbn; [reflexivity| |assumption].
  now rewrite IH.
Qed.

Lemma await_run {A} (call : Event) (r : Res A) (w : World) :
  await call r w = mkRun w [call] r.
Proof. unfold await, bind, emit, lift; cbn. reflexivity. Qed.

(** ** The discovery pass as a whole *)

(** The [try] block of the discovery, when the store answers. *)
Lemma Frontend_loadTasks_try_run (sdk : Sdk) (w : World) (res : ListOutputsResult) :
  listOutputs sdk (listOutputsArgs FrontendCopy) = Ok res ->
  exists rs n,
    Frontend.loadTasks_try sdk w =
      mkRun (mkWorld (withTasks (rev (nonNull rs)) (withTasksLoading true (app w))) n)
        (WalletListOutputs (listOutputsArgs FrontendCopy)
           :: flat_map (startEvents sdk (lor_BEEF res)) (lor_outputs res)
           ++ flat_map resumeEvents (map (slotOf sdk (lor_BEEF res)) (lor_outputs res)))
        (Ok tt) /\
    map (option_map content) rs =
      expectedFrom FrontendCopy sdk (lor_BEEF res)
        (finalTxid None (lor_outputs res)) 0 (lor_outputs res).
Proof.
  intros Hlist.
  destruct (Frontend_resumeAll_run sdk (lor_BEEF res) (finalTxid None (lor_outputs res))
              (map (slotOf sdk (lor_BEEF res)) (lor_outputs res)) 0
              (mkWorld (withTasksLoading true (app w)) (nextOid w)))
    as (rs & n & Hrun & Hcontent).
  exists rs, n. split.
  - unfold Frontend.loadTasks_try.
    eapply (bind_run _ _ w _ _ []); [reflexivity|].
    eapply (bind_run _ _ _ _ _ [_]).
    { cbn in Hlist. rewrite Hlist. apply await_run. }
    eapply bind_run; [apply Frontend_startAll_run|].
    cbn [fst snd].
    erewrite bind_setState_run by exact Hrun. reflexivity.
  - rewrite Hcontent. apply slotContentsFrom_slotOf.
Qed.

Lemma Root_loadTasks_try_run (sdk : Sdk) (w : World) (res : ListOutputsResult) :
  listOutputs sdk (listOutputsArgs RootCopy) = Ok res ->
  exists rs n,
    Root.loadTasks_try sdk w =
      mkRun (mkWorld (withTasks (rev (nonNull rs)) (app w)) n)
        (WalletListOutputs (listOutputsArgs RootCopy)
           :: flat_map (startEvents sdk (lor_BEEF res)) (lor_outputs res)
           ++ flat_map resumeEvents (map (slotOf sdk (lor_BEEF res)) (lor_outputs res)))
        (Ok tt) /\
    map (option_map content) rs =
      expectedFrom RootCopy sdk (lor_BEEF res)
        (finalTxid None (lor_outputs res)) 0 (lor_outputs res).
Proof.
  intros Hlist.
  destruct (Root_resumeAll_run sdk (lor_BEEF res) (finalTxid None (lor_outputs res))
              (map (slotOf sdk (lor_BEEF res)) (lor_outputs res)) 0 w)
    as (rs & n & Hrun & Hcontent).
  exists rs, n. split.
  - unfold Root.loadTasks_try.
    eapply (bind_run _ _ _ _ _ [_]).
    { cbn in Hlist. rewrite Hlist. apply await_run. }
    eapply bind_run; [apply Root_startAll_run|].
    cbn [fst snd].
    erewrite bind_setState_run by (destruct w; exact Hrun). reflexivity.
  - rewrite Hcontent. apply slotContentsFrom_slotOf.
Qed.

(** What a discovery pass leaves when the store answers: it returns, the
    catalogue holds the expected records in reverse order, and the trace is
    the call to the store, the synchronous parts, the continuations. *)
Lemma loadTasks_run (c : Copy) (sdk : Sdk) (w : World) (res : ListOutputsResult) :
  listOutputs sdk (listOutputsArgs c) = Ok res ->
  result (loadTasks c sdk w) = Ok tt /\
  map content (tasks (app (world (loadTasks c sdk w)))) =
    rev (nonNull (expectedFrom c sdk (lor_BEEF res)
                    (finalTxid None (lor_outputs res)) 0 (lor_outputs res))) /\
  events (loadTasks c sdk w) =
    WalletListOutputs (listOutputsArgs c)
      :: flat_map (startEvents sdk (lor_BEEF res)) (lor_outputs res)
      ++ flat_map resumeEvents (map (slotOf sdk (lor_BEEF res)) (lor_outputs res)).
Proof.
  intros Hlist. destruct c.
  - destruct (Frontend_loadTasks_try_run sdk w res Hlist) as (rs & n & Hrun & Hcontent).
    unfold loadTasks, Frontend.loadTasks, finally, tryCatch. rewrite Hrun. cbn.
    rewrite app_nil_r. repeat split.
    now rewrite map_rev, nonNull_map, Hcontent.
  - destruct (Root_loadTasks_try_run sdk w res Hlist) as (rs & n & Hrun & Hcontent).
    unfold loadTasks, Root.loadTasks, finally, tryCatch. rewrite Hrun. cbn.
    rewrite app_nil_r. repeat split.
    now rewrite map_rev, nonNull_map, Hcontent.
Qed.


(** ** The tests on the amount *)

Lemma Prim2SF_one : Prim2SF 1%float = S754_finite false 4503599627370496 (-52).
Proof. vm_compute. reflexivity. Qed.

Lemma Prim2SF_zero : Prim2SF 0%float = S754_zero false.
Proof. vm_compute. reflexivity. Qed.

(** The three tests on the amount let through exactly the doubles [x] with
    [1 <= x]. *)
Lemma amount_tests (x : number) :
  negb (PrimFloat.eqb x 0 || isNaN x) && negb (PrimFloat.ltb x 1) = PrimFloat.leb 1 x.
Proof.
  unfold isNaN, PrimFloat.is_nan.
  rewrite !eqb_spec, ltb_spec, leb_spec, Prim2SF_one, Prim2SF_zero.
  destruct (Prim2SF x) as [s|s| |s m e].
  - destruct s; reflexivity.
  - destruct s; reflexivity.
  - reflexivity.
  - destruct s.
    + assert (SFltb (S754_finite true m e) (S754_finite false 4503599627370496 (-52)) = true)
        as -> by reflexivity.
      rewrite andb_false_r. reflexivity.
    + assert (SFeqb (S754_finite false m e) (S754_finite false m e) = true) as ->.
      { unfold SFeqb, SFcompare. now rewrite Z.compare_refl, Pos.compare_cont_refl. }
      assert (SFeqb (S754_finite false m e) (S754_zero false) = false) as -> by reflexivity.
      unfold SFleb, SFltb, SFcompare.
      rewrite (Z.compare_antisym e (-52)).
      destruct (e ?= -52)%Z; try reflexivity.
      replace (Pos.compare_cont Eq 4503599627370496 m)
        with (CompOpp (Pos.compare_cont Eq m 4503599627370496))
        by apply (Pos.compare_cont_antisym _ _ Eq).
      destruct (Pos.compare_cont Eq m 4503599627370496); reflexivity.
Qed.

Lemma amount_passes (x : number) :
  PrimFloat.leb 1 x = true ->
  (PrimFloat.eqb x 0 || isNaN x) = false /\ PrimFloat.ltb x 1 = false.
Proof.
  intros Hle. pose proof (amount_tests x) as Htests. rewrite Hle in Htests.
  apply andb_prop in Htests. destruct Htests as [Hzero Hlt].
  apply negb_true_iff in Hzero, Hlt. split; assumption.
Qed.

(** ** A creation whose services answer *)

(** The run of a creation for a text that is not empty and an amount of at
    least 1, when [encrypt], [lock] and [createAction] answer. *)
Lemma creation_run (c : Copy) (sdk : Sdk) (w : World)
    (ct : bytes) (ls : string) (created : CreateActionResult) :
  createTask (app w) <> EmptyString ->
  PrimFloat.leb 1 (createAmount (app w)) = true ->
  encrypt sdk (toArray_utf8 sdk (createTask (app w))) PROTOCOL_ID KEY_ID = Ok ct ->
  pushdrop_lock sdk [toArray_utf8 sdk TODO_PROTO_ADDR; ct] PROTOCOL_ID KEY_ID "self" = Ok ls ->
  createAction sdk (createArgs c (createTask (app w)) (createAmount (app w)) ls) =
    Ok created ->
  events (handleCreateSubmit c sdk w) =
    [WalletEncrypt (toArray_utf8 sdk (createTask (app w))) PROTOCOL_ID KEY_ID;
     PushDropLock [toArray_utf8 sdk TODO_PROTO_ADDR; ct] PROTOCOL_ID KEY_ID "self";
     WalletCreateAction (createArgs c (createTask (app w)) (createAmount (app w)) ls);
     ToastDark "Task successfully created!"] /\
  tasks (app (world (handleCreateSubmit c sdk w))) =
    mkTask (nextOid w) (createTask (app w)) (createAmount (app w))
      (templ (car_txid created) ++ ".0") ls (car_tx created) :: tasks (app w) /\
  result (handleCreateSubmit c sdk w) = Ok tt.
Proof.
  intros Htext Hamount Henc Hlock Hcreate.
  apply String.eqb_neq in Htext.
  destruct (amount_passes _ Hamount) as (Hzero & Hlt).
  unfold createArgs, PROTOCOL_ID, KEY_ID in *.
  destruct c; cbn in Hcreate; unfold_workflows; rewrite Htext, Hzero, Hlt;
    unfold_monad; unfold PROTOCOL_ID, KEY_ID;
    cbn; rewrite Henc; cbn; rewrite Hlock; cbn; rewrite Hcreate; cbn;
    repeat split.
Qed.

(** With a text that is not empty, an amount of at least 1 and a ciphertext
    from [encrypt], a creation calls [lock], once, with the marker and the
    ciphertext. *)
Lemma creation_locks (c : Copy) (sdk : Sdk) (w : World) (ct : bytes) :
  createTask (app w) <> EmptyString ->
  PrimFloat.leb 1 (createAmount (app w)) = true ->
  encrypt sdk (toArray_utf8 sdk (createTask (app w))) PROTOCOL_ID KEY_ID = Ok ct ->
  filter is_lock_call (events (handleCreateSubmit c sdk w)) =
    [PushDropLock [toArray_utf8 sdk TODO_PROTO_ADDR; ct] PROTOCOL_ID KEY_ID "self"].
Proof.
  intros Htext Hamount Henc.
  apply String.eqb_neq in Htext.
  destruct (amount_passes _ Hamount) as (Hzero & Hlt).
  unfold PROTOCOL_ID, KEY_ID in *.
  destruct c; unfold_workflows; rewrite Htext, Hzero, Hlt;
    unfold_monad; unfold PROTOCOL_ID, KEY_ID;
    cbn; rewrite Henc; cbn; repeat step; reflexivity.
Qed.

(** ** Creation: validation *)

(** C3. A create request whose task text is empty, or whose amount is 0, NaN
    or less than 1, is rejected before any call to an asynchronous service:
    the only event of the invocation is one error toast, the handler
    returns, and the catalogue's list is unchanged (both copies). *)
Theorem C3_invalid_create_rejected (c : Copy) (sdk : Sdk) (w : World) :
  createTask (app w) = EmptyString \/
  PrimFloat.eqb (createAmount (app w)) 0 = true \/
  isNaN (createAmount (app w)) = true \/
  PrimFloat.ltb (createAmount (app w)) 1 = true ->
  (exists msg, events (handleCreateSubmit c sdk w) = [ToastError msg]) /\
  filter is_service_call (events (handleCreateSubmit c sdk w)) = [] /\
  tasks (app (world (handleCreateSubmit c sdk w))) = tasks (app w) /\
  result (handleCreateSubmit c sdk w) = Ok tt.
Proof.
  intros Hbad.
  destruct c; unfold_workflows;
    destruct (String.eqb (createTask (app w)) EmptyString) eqn:Htext;
    try (cbn; repeat split; eexists; reflexivity);
    destruct (PrimFloat.eqb (createAmount (app w)) 0) eqn:Hzero;
    try (cbn; repeat split; eexists; reflexivity);
    destruct (isNaN (createAmount (app w))) eqn:Hnan;
    try (cbn; repeat split; eexists; reflexivity);
    destruct (PrimFloat.ltb (createAmount (app w)) 1) eqn:Hlt;
    try (cbn; repeat split; eexists; reflexivity);
    exfalso; destruct Hbad as [H|[H|[H|H]]]; try discriminate;
    rewrite H in Htext; discriminate.
Qed.

Lemma C3_invalid_create_rejected_witness :
  PrimFloat.eqb (createAmount (app (Demo.typed "Buy milk" 0%float))) 0 = true /\
  events (handleCreateSubmit RootCopy (Demo.sdk [] []) (Demo.typed "Buy milk" 0%float)) =
    [ToastError "Enter an amount for the new task!"] /\
  tasks (app (world (handleCreateSubmit RootCopy (Demo.sdk [] [])
                       (Demo.typed "Buy milk" 0%float)))) = [].
Proof.
  pose proof (C3_invalid_create_rejected RootCopy (Demo.sdk [] [])
                (Demo.typed "Buy milk" 0%float)
                (or_intror (or_introl eq_refl))) as (_ & _ & Htasks & _).
  split; [reflexivity|]. split; [reflexivity|]. exact Htasks.
Defined.

(** ** Discovery: what is kept and what is dropped *)

Section Counting.
Variable c : Copy.
Variable sdk : Sdk.
Variable basketBEEF : option BEEF.

Lemma expected_None_iff (txid : option string) (i : nat) (o : WalletOutput) :
  expected c sdk basketBEEF txid i o = None <-> fails (decrypted sdk basketBEEF o) = true.
Proof.
  unfold expected. destruct (decrypted sdk basketBEEF o) as [[ls p]|e]; cbn;
    split; intros H; try discriminate; reflexivity.
Qed.

Lemma kept_plus_dropped (txid : option string) (outputs : list WalletOutput) :
  forall i,
  List.length (nonNull (expectedFrom c sdk basketBEEF txid i outputs)) +
  List.length (filter (fun o => fails (decrypted sdk basketBEEF o)) outputs) =
  List.length outputs.
Proof.
  induction outputs as [|o rest IH]; intros i; [reflexivity|].
  cbn [expectedFrom filter]. specialize (IH (S i)).
  unfold expected at 1.
  destruct (decrypted sdk basketBEEF o) as [[ls p]|e]; cbn; lia.
Qed.


Lemma error_lines_of_output (o : WalletOutput) :
  List.length (filter is_decrypt_error_line (startEvents sdk basketBEEF o)) +
  List.length (filter is_decrypt_error_line (resumeEvents (slotOf sdk basketBEEF o))) =
  if fails (decrypted sdk basketBEEF o) then 1 else 0.
Proof.
  unfold startEvents, slotOf, decrypted.
  destruct (decoded sdk basketBEEF o) as [[ls enc]|e]; [|reflexivity].
  cbn. destruct (decrypt sdk enc PROTOCOL_ID KEY_ID); reflexivity.
Qed.

Lemma error_lines_of_outputs (outputs : list WalletOutput) :
  List.length (filter is_decrypt_error_line
                 (flat_map (startEvents sdk basketBEEF) outputs)) +
  List.length (filter is_decrypt_error_line
                 (flat_map resumeEvents (map (slotOf sdk basketBEEF) outputs))) =
  List.length (filter (fun o => fails (decrypted sdk basketBEEF o)) outputs).
Proof.
  induction outputs as [|o rest IH]; [reflexivity|].
  cbn [flat_map map filter]. rewrite !filter_app, !length_app.
  pose proof (error_lines_of_output o) as Ho.
  destruct (fails (decrypted sdk basketBEEF o)); cbn [List.length]; lia.
Qed.

End Counting.

(** The error of an output that fails is logged. *)
Lemma failure_is_logged (c : Copy) (sdk : Sdk) (w : World) (res : ListOutputsResult)
    (o : WalletOutput) (e : JsError) :
  listOutputs sdk (listOutputsArgs c) = Ok res ->
  In o (lor_outputs res) ->
  decrypted sdk (lor_BEEF res) o = Err e ->
  In (ConsoleError (Some "Error decrypting task:") e) (events (loadTasks c sdk w)).
Proof.
  intros Hlist Hin Hdec.
  destruct (loadTasks_run c sdk w res Hlist) as (_ & _ & Hev). rewrite Hev.
  right. apply in_or_app. unfold decrypted in Hdec.
  destruct (decoded sdk (lor_BEEF res) o) as [[ls enc]|e'] eqn:Hdecoded.
  - right. apply in_flat_map. exists (slotOf sdk (lor_BEEF res) o).
    split; [now apply in_map|]. unfold slotOf. rewrite Hdecoded.
    destruct (decrypt sdk enc PROTOCOL_ID KEY_ID) as [p|e'']; [discriminate|].
    injection Hdec as <-. now left.
  - left. apply in_flat_map. exists o. split; [assumption|].
    unfold startEvents. rewrite Hdecoded. injection Hdec as <-. now left.
Qed.

(** C4. A discovery pass over the N outputs the store returns, K of which
    fail to decode or decrypt (no transaction for the outpoint in the
    evidence, no output 0, [decode] or [decrypt] throwing), returns normally
    and leaves in the catalogue exactly the records of the N - K outputs that
    decrypt, each with the content built from its output, newest first; an
    output yields no record exactly when it fails, and the error of each of
    the K failures is logged on a line ['Error decrypting task:'], of which
    there are K (both copies). *)
Theorem C4_partial_failure_isolation (c : Copy) (sdk : Sdk) (w : World)
    (res : ListOutputsResult) :
  listOutputs sdk (listOutputsArgs c) = Ok res ->
  let N := List.length (lor_outputs res) in
  let K := List.length (filter (fun o => fails (decrypted sdk (lor_BEEF res) o))
                          (lor_outputs res)) in
  result (loadTasks c sdk w) = Ok tt /\
  List.length (tasks (app (world (loadTasks c sdk w)))) = N - K /\
  List.length (filter is_decrypt_error_line (events (loadTasks c sdk w))) = K /\
  map content (tasks (app (world (loadTasks c sdk w)))) =
    rev (nonNull (expectedFrom c sdk (lor_BEEF res) (finalTxid None (lor_outputs res)) 0
                    (lor_outputs res))) /\
  (forall i o,
     expected c sdk (lor_BEEF res) (finalTxid None (lor_outputs res)) i o = None <->
     fails (decrypted sdk (lor_BEEF res) o) = true) /\
  (forall o e,
     In o (lor_outputs res) ->
     decrypted sdk (lor_BEEF res) o = Err e ->
     In (ConsoleError (Some "Error decrypting task:") e) (events (loadTasks c sdk w))).
Proof.
  intros Hlist N K.
  destruct (loadTasks_run c sdk w res Hlist) as (Hres & Htasks & Hev).
  split; [exact Hres|]. split; [|split; [|split; [exact Htasks|split]]].
  - apply (f_equal (@List.length Content)) in Htasks.
    rewrite length_map, length_rev in Htasks. rewrite Htasks.
    pose proof (kept_plus_dropped c sdk (lor_BEEF res)
                  (finalTxid None (lor_outputs res)) (lor_outputs res) 0).
    subst N K. lia.
  - rewrite Hev. cbn [filter is_decrypt_error_line].
    rewrite filter_app, length_app. apply error_lines_of_outputs.
  - intros i o. apply expected_None_iff.
  - intros o e. now apply failure_is_logged.
Qed.

(** Of the four outputs of [Demo.basket4] the second (a script of one field)
    and the third (no transaction) fail. *)
Lemma C4_partial_failure_isolation_witness :
  listOutputs (Demo.sdk Demo.ledger Demo.basket4) (listOutputsArgs FrontendCopy) =
    Ok (mkLOResult Demo.basket4 (Some [])) /\
  map content
    (tasks (app (world (loadTasks FrontendCopy (Demo.sdk Demo.ledger Demo.basket4)
                          Demo.emptyWorld)))) =
    [mkContent "two" 2%float "B.0" (Demo.taskScript "two") (Some []);
     mkContent "one" 5%float "B.0" (Demo.taskScript "one") (Some [])] /\
  map content
    (tasks (app (world (loadTasks RootCopy (Demo.sdk Demo.ledger Demo.basket4)
                          Demo.emptyWorld)))) =
    [mkContent "two" 2%float "B.3" (Demo.taskScript "two") (Some []);
     mkContent "one" 5%float "B.0" (Demo.taskScript "one") (Some [])] /\
  List.length (filter is_decrypt_error_line
                 (events (loadTasks FrontendCopy (Demo.sdk Demo.ledger Demo.basket4)
                            Demo.emptyWorld))) = 2 /\
  List.length (filter is_decrypt_error_line
                 (events (loadTasks RootCopy (Demo.sdk Demo.ledger Demo.basket4)
                            Demo.emptyWorld))) = 2.
Proof.
  destruct (C4_partial_failure_isolation FrontendCopy
              (Demo.sdk Demo.ledger Demo.basket4) Demo.emptyWorld
              (mkLOResult Demo.basket4 (Some [])) eq_refl)
    as (_ & _ & Hlines & Hcontent & _).
  destruct (C4_partial_failure_isolation RootCopy
              (Demo.sdk Demo.ledger Demo.basket4) Demo.emptyWorld
              (mkLOResult Demo.basket4 (Some [])) eq_refl)
    as (_ & _ & Hlines' & Hcontent' & _).
  split; [reflexivity|]. split; [exact Hcontent|]. split; [exact Hcontent'|].
  split; [exact Hlines|exact Hlines'].
Defined.

(** ** Order of the catalogue *)

Lemma payload_of_expected (c : Copy) (sdk : Sdk) (basketBEEF : option BEEF)
    (txid : option string) (outputs : list WalletOutput) :
  forall i,
  map (fun k => (c_task k, c_sats k, c_lockingScript k))
    (nonNull (expectedFrom c sdk basketBEEF txid i outputs)) =
  nonNull (map (payload sdk basketBEEF) outputs).
Proof.
  induction outputs as [|o rest IH]; intros i; [reflexivity|].
  cbn [expectedFrom map]. unfold expected at 1, payload at 1.
  destruct (decrypted sdk basketBEEF o) as [[ls p]|e]; cbn; now rewrite IH.
Qed.

(** C5. The order of the catalogue.  After a discovery pass the records are
    those of the store's outputs that decrypt, in reverse order: so they are
    in text, value and locking script.  Their identities are not: each
    record's outpoint is built from the variable [txid], which all the
    callbacks of a pass share and which holds the transaction of the last
    output when the records are built.  For a store that lists A.0 then B.0
    the catalogue is not [B.0; A.0]: both records name the transaction B.  A
    creation for a text that is not empty and an amount of at least 1, whose
    services answer, puts the new record (with the identity of its own
    transaction) before the list it found, and does not call the store
    (both copies). *)
Theorem C5_newest_first :
  (forall (c : Copy) (sdk : Sdk) (w : World) (res : ListOutputsResult),
     listOutputs sdk (listOutputsArgs c) = Ok res ->
     map (fun t => (task t, sats t, lockingScript t))
       (tasks (app (world (loadTasks c sdk w)))) =
       rev (nonNull (map (payload sdk (lor_BEEF res)) (lor_outputs res))) /\
     map content (tasks (app (world (loadTasks c sdk w)))) =
       rev (nonNull (expectedFrom c sdk (lor_BEEF res)
                       (finalTxid None (lor_outputs res)) 0 (lor_outputs res)))) /\
  (forall (c : Copy) (sdk : Sdk) (w : World)
          (ct : bytes) (ls : string) (created : CreateActionResult),
     createTask (app w) <> EmptyString ->
     PrimFloat.leb 1 (createAmount (app w)) = true ->
     encrypt sdk (toArray_utf8 sdk (createTask (app w))) PROTOCOL_ID KEY_ID = Ok ct ->
     pushdrop_lock sdk [toArray_utf8 sdk TODO_PROTO_ADDR; ct] PROTOCOL_ID KEY_ID "self" =
       Ok ls ->
     createAction sdk (createArgs c (createTask (app w)) (createAmount (app w)) ls) =
       Ok created ->
     tasks (app (world (handleCreateSubmit c sdk w))) =
       mkTask (nextOid w) (createTask (app w)) (createAmount (app w))
         (templ (car_txid created) ++ ".0") ls (car_tx created) :: tasks (app w) /\
     forall args, ~ In (WalletListOutputs args) (events (handleCreateSubmit c sdk w))) /\
  map (fun o => (wo_outpoint o, payload (Demo.sdk Demo.ledger Demo.basketAB) (Some []) o))
    Demo.basketAB =
    [("A.0", Some ("one", 5%float, Demo.taskScript "one"));
     ("B.0", Some ("two", 2%float, Demo.taskScript "two"))] /\
  map (fun t => (outpoint t, task t))
    (tasks (app (world (loadTasks FrontendCopy (Demo.sdk Demo.ledger Demo.basketAB)
                          Demo.emptyWorld)))) =
    [("B.0", "two"); ("B.0", "one")] /\
  map (fun t => (outpoint t, task t))
    (tasks (app (world (loadTasks RootCopy (Demo.sdk Demo.ledger Demo.basketAB)
                          Demo.emptyWorld)))) =
    [("B.1", "two"); ("B.0", "one")].
Proof.
  split; [|split; [|repeat split; reflexivity]].
  - intros c sdk w res Hlist.
    destruct (loadTasks_run c sdk w res Hlist) as (_ & Htasks & _).
    split; [|exact Htasks].
    rewrite <- payload_of_expected
      with (c := c) (txid := finalTxid None (lor_outputs res)) (i := 0).
    rewrite <- map_rev, <- Htasks, map_map. reflexivity.
  - intros c sdk w ct ls created Htext Hamount Henc Hlock Hcreate.
    destruct (creation_run c sdk w ct ls created Htext Hamount Henc Hlock Hcreate)
      as (Hev & Htasks & _).
    split; [exact Htasks|].
    intros args Hin. rewrite Hev in Hin.
    repeat (destruct Hin as [Hin|Hin]; try discriminate; try contradiction).
Qed.

(** A creation of "Buy milk" for 1000 satoshis from an empty list, in each
    copy, and a discovery of the three records of [Demo.basket3]. *)
Lemma C5_newest_first_witness :
  tasks (app (world (handleCreateSubmit FrontendCopy (Demo.sdk Demo.ledger Demo.basket3)
                       (Demo.filledIn "Buy milk" 1000%float)))) = [Demo.milkRecord] /\
  tasks (app (world (handleCreateSubmit RootCopy (Demo.sdk Demo.ledger Demo.basket3)
                       (Demo.filledIn "Buy milk" 1000%float)))) = [Demo.milkRecord] /\
  map (fun t => (task t, sats t, lockingScript t))
    (tasks (app (world (loadTasks FrontendCopy (Demo.sdk Demo.ledger Demo.basket3)
                          Demo.emptyWorld)))) =
    [("three", 7%float, Demo.taskScript "three");
     ("two", 0%float, Demo.taskScript "two");
     ("one", 5%float, Demo.taskScript "one")] /\
  map (fun t => (task t, sats t, lockingScript t))
    (tasks (app (world (loadTasks RootCopy (Demo.sdk Demo.ledger Demo.basket3)
                          Demo.emptyWorld)))) =
    [("three", 7%float, Demo.taskScript "three");
     ("two", 0%float, Demo.taskScript "two");
     ("one", 5%float, Demo.taskScript "one")].
Proof.
  destruct C5_newest_first as (Hdiscover & Hcreate & _).
  assert (Hmilk : forall c,
            tasks (app (world (handleCreateSubmit c (Demo.sdk Demo.ledger Demo.basket3)
                                 (Demo.filledIn "Buy milk" 1000%float)))) =
            [Demo.milkRecord]).
  { intros c.
    refine (proj1 (Hcreate c (Demo.sdk Demo.ledger Demo.basket3)
                     (Demo.filledIn "Buy milk" 1000%float)
                     (Demo.contextTag PROTOCOL_ID KEY_ID ++ list_byte_of_string "Buy milk")%list
                     (Demo.taskScript "Buy milk")
                     (mkCAResult (Some "created") (Some []) None)
                     _ eq_refl eq_refl eq_refl _)).
    - discriminate.
    - destruct c; reflexivity. }
  split; [exact (Hmilk FrontendCopy)|]. split; [exact (Hmilk RootCopy)|]. split.
  - exact (proj1 (Hdiscover FrontendCopy (Demo.sdk Demo.ledger Demo.basket3) Demo.emptyWorld
                    (mkLOResult Demo.basket3 (Some [])) eq_refl)).
  - exact (proj1 (Hdiscover RootCopy (Demo.sdk Demo.ledger Demo.basket3) Demo.emptyWorld
                    (mkLOResult Demo.basket3 (Some [])) eq_refl)).
Defined.

(** ** Where a catalogued record comes from *)

Section Provenance.
Variable c : Copy.
Variable sdk : Sdk.
Variable basketBEEF : option BEEF.

Lemma In_expectedFrom (txid : option string) (k : Content) (outputs : list WalletOutput) :
  forall i,
  In k (nonNull (expectedFrom c sdk basketBEEF txid i outputs)) <->
  exists j o, nth_error outputs j = Some o /\
              expected c sdk basketBEEF txid (i + j) o = Some k.
Proof.
  induction outputs as [|o rest IH]; intros i.
  - cbn. split; [tauto|]. intros (j & o & Hnth & _). destruct j; discriminate.
  - cbn [expectedFrom]. split.
    + intros Hin.
      destruct (expected c sdk basketBEEF txid i o) as [k'|] eqn:Hexp; cbn in Hin.
      * destruct Hin as [->|Hin].
        -- exists 0, o. rewrite Nat.add_0_r. split; [reflexivity|assumption].
        -- apply IH in Hin. destruct Hin as (j & o' & Hnth & Hk).
           exists (S j), o'. rewrite Nat.add_succ_r. split; assumption.
      * apply IH in Hin. destruct Hin as (j & o' & Hnth & Hk).
        exists (S j), o'. rewrite Nat.add_succ_r. split; assumption.
    + intros (j & o' & Hnth & Hk). destruct j as [|j]; cbn in Hnth.
      * injection Hnth as <-. rewrite Nat.add_0_r in Hk. rewrite Hk. now left.
      * rewrite Nat.add_succ_r in Hk.
        assert (In k (nonNull (expectedFrom c sdk basketBEEF txid (S i) rest))) as Hin
          by (apply IH; now exists j, o').
        destruct (expected c sdk basketBEEF txid i o); [now right|assumption].
Qed.

End Provenance.

(** A content is in the catalogue after a discovery pass exactly when it is
    the record expected for one of the store's outputs. *)
Lemma catalogue_after_discovery (c : Copy) (sdk : Sdk) (w : World)
    (res : ListOutputsResult) (k : Content) :
  listOutputs sdk (listOutputsArgs c) = Ok res ->
  (exists t, In t (tasks (app (world (loadTasks c sdk w)))) /\ content t = k) <->
  (exists j o, nth_error (lor_outputs res) j = Some o /\
     expected c sdk (lor_BEEF res) (finalTxid None (lor_outputs res)) j o = Some k).
Proof.
  intros Hlist. destruct (loadTasks_run c sdk w res Hlist) as (_ & Htasks & _).
  rewrite <- (In_expectedFrom c sdk (lor_BEEF res) _ k (lor_outputs res) 0).
  rewrite in_rev, <- Htasks, in_map_iff.
  split; intros (t & H1 & H2); exists t; tauto.
Qed.

Lemma expected_inv (c : Copy) (sdk : Sdk) (basketBEEF : option BEEF)
    (txid : option string) (i : nat) (o : WalletOutput) (k : Content) :
  expected c sdk basketBEEF txid i o = Some k ->
  exists tx out0 fields plaintext,
    fromBEEF sdk basketBEEF (Some (split0 (wo_outpoint o))) = Ok tx /\
    nth_error (tx_outputs tx) 0 = Some out0 /\
    pushdrop_decode sdk (txo_lockingScript out0) = Ok fields /\
    decrypt sdk (nth_error fields 1) PROTOCOL_ID KEY_ID = Ok plaintext /\
    k = mkContent (toUTF8 sdk plaintext) (orZero (wo_satoshis o))
          (templ txid ++ "." ++ recordedIndex c i) (txo_lockingScript out0) basketBEEF.
Proof.
  unfold expected, decrypted, decoded, output0.
  destruct (fromBEEF sdk basketBEEF (Some (split0 (wo_outpoint o)))) as [tx|e] eqn:Htx;
    [|discriminate].
  destruct (nth_error (tx_outputs tx) 0) as [out0|] eqn:Hout; [|discriminate].
  destruct (pushdrop_decode sdk (txo_lockingScript out0)) as [fields|e] eqn:Hfields;
    [|discriminate].
  destruct (decrypt sdk (nth_error fields 1) PROTOCOL_ID KEY_ID) as [p|e] eqn:Hdec;
    [|discriminate].
  intros [= <-]. exists tx, out0, fields, p. repeat split; assumption.
Qed.

(** ** Discovery does not read the output index of an outpoint *)

Lemma split0_no_dot (s v : string) : split0 (split0 s ++ "." ++ v) = split0 s.
Proof.
  change ("." ++ v) with (String "." v).
  induction s as [|ch s IH]; [reflexivity|].
  cbn. destruct (Ascii.eqb ch ".") eqn:Hch; cbn; [reflexivity|].
  now rewrite Hch, IH.
Qed.

Lemma finalTxid_same_but_vout (outputs outputs' : list WalletOutput) :
  Forall2 same_but_vout outputs outputs' ->
  forall txid, finalTxid txid outputs = finalTxid txid outputs'.
Proof.
  induction 1 as [|o o' rest rest' [Htx _] _ IH]; intros txid; [reflexivity|].
  cbn. rewrite Htx. apply IH.
Qed.

Lemma expected_same_but_vout (c : Copy) (sdk : Sdk) (basketBEEF : option BEEF)
    (txid : option string) (i : nat) (o o' : WalletOutput) :
  same_but_vout o o' ->
  expected c sdk basketBEEF txid i o = expected c sdk basketBEEF txid i o'.
Proof.
  intros [Htx Hsat]. unfold expected, decrypted, decoded. now rewrite Htx, Hsat.
Qed.

Lemma expectedFrom_same_but_vout (c : Copy) (sdk : Sdk) (basketBEEF : option BEEF)
    (txid : option string) (f : ListOutputsArgs -> Res ListOutputsResult)
    (outputs outputs' : list WalletOutput) :
  Forall2 same_but_vout outputs outputs' ->
  forall i,
  expectedFrom c (with_listOutputs f sdk) basketBEEF txid i outputs' =
  expectedFrom c sdk basketBEEF txid i outputs.
Proof.
  induction 1 as [|o o' rest rest' Ho _ IH]; intros i; [reflexivity|].
  cbn [expectedFrom]. rewrite IH. f_equal.
  rewrite (expected_same_but_vout c sdk basketBEEF txid i o o' Ho). reflexivity.
Qed.

(** What a store's outpoint can share with the outpoint that a pass writes. *)
Lemma append_same_head (a x y : string) : a ++ x = a ++ y -> x = y.
Proof.
  induction a as [|ch a IH]; cbn; [trivial|].
  intros H. injection H as H. now apply IH.
Qed.

Lemma finalTxid_of_a_list (outputs : list WalletOutput) :
  outputs <> [] ->
  forall txid, exists s, finalTxid txid outputs = Some (split0 s).
Proof.
  induction outputs as [|o rest IH]; [contradiction|]. intros _ txid.
  cbn [finalTxid]. destruct rest as [|o' rest].
  - exists (wo_outpoint o). reflexivity.
  - apply IH. discriminate.
Qed.

Lemma written_outpoint_differs (outputs : list WalletOutput) (index s v : string) :
  outputs <> [] ->
  v <> index ->
  templ (finalTxid None outputs) ++ "." ++ index <> split0 s ++ "." ++ v.
Proof.
  intros Hne Hv Heq.
  destruct (finalTxid_of_a_list outputs Hne None) as (s' & Hs'). rewrite Hs' in Heq.
  cbn [templ] in Heq.
  assert (Hhead : split0 s' = split0 s).
  { apply (f_equal split0) in Heq. now rewrite !split0_no_dot in Heq. }
  rewrite Hhead in Heq. apply append_same_head in Heq.
  change ("." ++ index = "." ++ v) in Heq. apply append_same_head in Heq.
  now apply Hv.
Qed.

Lemma decrypted_inv (sdk : Sdk) (basketBEEF : option BEEF) (o : WalletOutput)
    (ls : string) (plaintext : bytes) :
  decrypted sdk basketBEEF o = Ok (ls, plaintext) ->
  exists tx out0 fields,
    fromBEEF sdk basketBEEF (Some (split0 (wo_outpoint o))) = Ok tx /\
    nth_error (tx_outputs tx) 0 = Some out0 /\
    ls = txo_lockingScript out0 /\
    pushdrop_decode sdk ls = Ok fields /\
    decrypt sdk (nth_error fields 1) PROTOCOL_ID KEY_ID = Ok plaintext.
Proof.
  unfold decrypted, decoded, output0.
  destruct (fromBEEF sdk basketBEEF (Some (split0 (wo_outpoint o)))) as [tx|e] eqn:Htx;
    [|discriminate].
  destruct (nth_error (tx_outputs tx) 0) as [out0|] eqn:Hout; [|discriminate].
  destruct (pushdrop_decode sdk (txo_lockingScript out0)) as [fields|e] eqn:Hfields;
    [|discriminate].
  destruct (decrypt sdk (nth_error fields 1) PROTOCOL_ID KEY_ID) as [p|e] eqn:Hdec;
    [|discriminate].
  intros [= <- <-]. exists tx, out0, fields. repeat split; assumption.
Qed.

(** The record of an output that decrypts. *)
Lemma decrypted_record (c : Copy) (sdk : Sdk) (w : World) (res : ListOutputsResult)
    (i : nat) (o : WalletOutput) (ls : string) (plaintext : bytes) :
  listOutputs sdk (listOutputsArgs c) = Ok res ->
  nth_error (lor_outputs res) i = Some o ->
  decrypted sdk (lor_BEEF res) o = Ok (ls, plaintext) ->
  exists t,
    In t (tasks (app (world (loadTasks c sdk w)))) /\
    content t =
      mkContent (toUTF8 sdk plaintext) (orZero (wo_satoshis o))
        (templ (finalTxid None (lor_outputs res)) ++ "." ++ recordedIndex c i)
        ls (lor_BEEF res).
Proof.
  intros Hlist Hnth Hdec.
  apply (proj2 (catalogue_after_discovery c sdk w res _ Hlist)).
  exists i, o. split; [assumption|]. unfold expected. now rewrite Hdec.
Qed.

(** C9, as amended.  Every output of the store that decodes and decrypts is
    catalogued with the locking script of output 0 of the transaction named
    before the dot of its outpoint, and with an outpoint that ends in a
    fixed index - 0 in the first copy, the position of the output in the
    store's list in the second - whatever follows the dot in the store's
    outpoint.  So the record's outpoint is not the store's unless the store's
    index is that fixed index: in the first copy a record at a non-zero
    output index is catalogued under another identity.  Every catalogued
    record comes from such an output, and what follows the dot in the
    store's outpoints has no influence on the catalogue (both copies). *)
Theorem C9_output_index_discarded (c : Copy) (sdk : Sdk) (w : World)
    (res : ListOutputsResult) :
  listOutputs sdk (listOutputsArgs c) = Ok res ->
  (forall i o ls plaintext,
     nth_error (lor_outputs res) i = Some o ->
     decrypted sdk (lor_BEEF res) o = Ok (ls, plaintext) ->
     exists t tx out0,
       In t (tasks (app (world (loadTasks c sdk w)))) /\
       fromBEEF sdk (lor_BEEF res) (Some (split0 (wo_outpoint o))) = Ok tx /\
       nth_error (tx_outputs tx) 0 = Some out0 /\
       lockingScript t = txo_lockingScript out0 /\
       task t = toUTF8 sdk plaintext /\
       outpoint t =
         templ (finalTxid None (lor_outputs res)) ++ "." ++ recordedIndex c i /\
       (forall v,
          wo_outpoint o = split0 (wo_outpoint o) ++ "." ++ v ->
          v <> recordedIndex c i ->
          outpoint t <> wo_outpoint o)) /\
  (forall t, In t (tasks (app (world (loadTasks c sdk w)))) ->
     exists i o tx out0,
       nth_error (lor_outputs res) i = Some o /\
       fromBEEF sdk (lor_BEEF res) (Some (split0 (wo_outpoint o))) = Ok tx /\
       nth_error (tx_outputs tx) 0 = Some out0 /\
       lockingScript t = txo_lockingScript out0 /\
       outpoint t =
         templ (finalTxid None (lor_outputs res)) ++ "." ++ recordedIndex c i) /\
  (forall res',
     lor_BEEF res' = lor_BEEF res ->
     Forall2 same_but_vout (lor_outputs res) (lor_outputs res') ->
     map content
       (tasks (app (world (loadTasks c (with_listOutputs (fun _ => Ok res') sdk) w)))) =
     map content (tasks (app (world (loadTasks c sdk w))))) /\
  (forall o v,
     same_but_vout o
       (mkWalletOutput (wo_satoshis o) (split0 (wo_outpoint o) ++ "." ++ v))).
Proof.
  intros Hlist. split; [|split; [|split]].
  - intros i o ls p Hnth Hdec.
    destruct (decrypted_record c sdk w res i o ls p Hlist Hnth Hdec) as (t & Hin & Hk).
    destruct (decrypted_inv sdk (lor_BEEF res) o ls p Hdec)
      as (tx & out0 & fields & Htx & Hout & Hls & _).
    unfold content in Hk. injection Hk as Htask _ Hop Hscript _.
    exists t, tx, out0. repeat split; try assumption; [congruence|].
    intros v Hstore Hv. rewrite Hop, Hstore.
    apply written_outpoint_differs; [|assumption].
    intros Hnil. rewrite Hnil in Hnth. destruct i; discriminate.
  - intros t Hin.
    destruct (proj1 (catalogue_after_discovery c sdk w res (content t) Hlist))
      as (i & o & Hnth & Hexp); [now exists t|].
    apply expected_inv in Hexp.
    destruct Hexp as (tx & out0 & fields & p & Htx & Hout & _ & _ & Hk).
    exists i, o, tx, out0. unfold content in Hk. injection Hk as _ _ Hop Hls _.
    repeat split; assumption.
  - intros res' Hbeef Hsame.
    destruct (loadTasks_run c sdk w res Hlist) as (_ & Htasks & _).
    destruct (loadTasks_run c (with_listOutputs (fun _ => Ok res') sdk) w res' eq_refl)
      as (_ & Htasks' & _).
    rewrite Htasks, Htasks', Hbeef.
    rewrite (expectedFrom_same_but_vout c sdk (lor_BEEF res) _ _ _ _ Hsame).
    now rewrite (finalTxid_same_but_vout _ _ Hsame).
  - intros o v. split; [|reflexivity]. cbn. symmetry. apply split0_no_dot.
Qed.

(** C9, as stated, fails in the second copy: the store lists A.0 and C.1;
    the record at output 1 of the transaction C is the second of the list,
    so it is catalogued under C.1, its own identity - with the locking script
    and the text of output 0 of C, the task "three", not those of its own
    output, the task "hidden". *)
Lemma C9_position_can_be_the_index :
  map wo_outpoint Demo.basketAC1 = ["A.0"; "C.1"] /\
  fromBEEF (Demo.sdk Demo.ledger Demo.basketAC1) (Some []) (Some "C") =
    Ok (Demo.txOf [Demo.taskScript "three"; Demo.taskScript "hidden"]) /\
  map (fun t => (outpoint t, task t, lockingScript t))
    (tasks (app (world (loadTasks RootCopy (Demo.sdk Demo.ledger Demo.basketAC1)
                          Demo.emptyWorld)))) =
  [("C.1", "three", Demo.taskScript "three"); ("C.0", "one", Demo.taskScript "one")].
Proof. repeat split; reflexivity. Qed.

(** The record of [Demo.basketC1] sits at output 1 of transaction C, whose
    script is that of the task "hidden"; it is catalogued as C.0 with the
    script and the text of output 0, the task "three". *)
Example discovery_of_an_output_1 :
  map (fun t => (outpoint t, task t, lockingScript t))
    (tasks (app (world (loadTasks FrontendCopy (Demo.sdk Demo.ledger Demo.basketC1)
                          Demo.emptyWorld)))) =
  [("C.0", "three", Demo.taskScript "three")] /\
  map (fun t => (outpoint t, task t, lockingScript t))
    (tasks (app (world (loadTasks RootCopy (Demo.sdk Demo.ledger Demo.basketC1)
                          Demo.emptyWorld)))) =
  [("C.0", "three", Demo.taskScript "three")].
Proof. split; reflexivity. Qed.

(** With several outputs, every continuation reads the variable [txid] after
    the last callback has assigned it: the records of [Demo.basket3] (A.0,
    B.0, C.1 in the store) all carry the transaction C. *)
Example discovery_shares_txid :
  map (fun t => (outpoint t, task t))
    (tasks (app (world (loadTasks FrontendCopy (Demo.sdk Demo.ledger Demo.basket3)
                          Demo.emptyWorld)))) =
  [("C.0", "three"); ("C.0", "two"); ("C.0", "one")] /\
  map (fun t => (outpoint t, task t))
    (tasks (app (world (loadTasks RootCopy (Demo.sdk Demo.ledger Demo.basket3)
                          Demo.emptyWorld)))) =
  [("C.2", "three"); ("C.1", "two"); ("C.0", "one")].
Proof. split; reflexivity. Qed.

(** The record at C.1, alone in the store: in each copy it is catalogued
    with the script of output 0 and under C.0, which is not its identity. *)
Lemma C9_output_index_discarded_witness :
  (exists t,
     In t (tasks (app (world (loadTasks FrontendCopy (Demo.sdk Demo.ledger Demo.basketC1)
                                Demo.emptyWorld)))) /\
     lockingScript t = Demo.taskScript "three" /\
     outpoint t = "C.0" /\ outpoint t <> "C.1") /\
  (exists t,
     In t (tasks (app (world (loadTasks RootCopy (Demo.sdk Demo.ledger Demo.basketC1)
                                Demo.emptyWorld)))) /\
     lockingScript t = Demo.taskScript "three" /\
     outpoint t = "C.0" /\ outpoint t <> "C.1").
Proof.
  assert (Hboth : forall c,
            exists t,
              In t (tasks (app (world (loadTasks c (Demo.sdk Demo.ledger Demo.basketC1)
                                         Demo.emptyWorld)))) /\
              lockingScript t = Demo.taskScript "three" /\
              outpoint t = "C.0" /\ outpoint t <> "C.1").
  { intros c.
    assert (Hlist : listOutputs (Demo.sdk Demo.ledger Demo.basketC1) (listOutputsArgs c) =
                    Ok (mkLOResult Demo.basketC1 (Some [])))
      by (destruct c; reflexivity).
    destruct (proj1 (C9_output_index_discarded c (Demo.sdk Demo.ledger Demo.basketC1)
                       Demo.emptyWorld (mkLOResult Demo.basketC1 (Some [])) Hlist)
                0 (mkWalletOutput (Some 7%float) "C.1") (Demo.taskScript "three")
                (list_byte_of_string "three") eq_refl eq_refl)
      as (t & tx & out0 & Hin & Htx & Hout & Hls & _ & Hop & Hother).
    exists t. split; [exact Hin|].
    injection Htx as <-. injection Hout as <-.
    split; [exact Hls|]. split; [destruct c; exact Hop|].
    apply (Hother "1"); [reflexivity|destruct c; discriminate]. }
  split; [exact (Hboth FrontendCopy)|exact (Hboth RootCopy)].
Defined.

(** ** Missing amounts *)

(** A redemption whose checks of the evidence pass and for which the wallet
    returns a signable transaction that parses asks the unlocker to sign
    input 0 of that transaction. *)
Lemma redemption_reaches_the_unlocker (c : Copy) (sdk : Sdk) (w : World) (sel : Task)
    (inputBEEF : option BEEF) (created : CreateActionResult)
    (signable : SignableTransaction) (partialTx : Transaction) :
  selectedTask (app w) = Some sel ->
  evidenceOf c sdk sel = Ok inputBEEF ->
  createAction sdk (completeArgs c sdk sel inputBEEF) = Ok created ->
  car_signableTransaction created = Some signable ->
  fromBEEF sdk (Some (st_tx signable)) None = Ok partialTx ->
  In (UnlockerSign (unlockerOf sel) partialTx 0) (events (handleCompleteSubmit c sdk w)).
Proof.
  intros Hsel Hevidence Hcreate Hsignable Hparse.
  unfold completeArgs in Hcreate. unfold unlockerOf.
  destruct c; cbn in Hevidence.
  - injection Hevidence as <-.
    unfold_workflows; unfold_monad; unfold PROTOCOL_ID, KEY_ID; cbn; rewrite Hsel; cbn.
    rewrite Hcreate; cbn. rewrite Hsignable; cbn. rewrite Hparse; cbn.
    repeat step; cbn; auto 10.
  - destruct (Beef_fromBinary sdk (beef sel)) as [b|e] eqn:Hb; [|discriminate].
    destruct (getChainTracker sdk "main") as [tracker|e] eqn:Htracker; [|discriminate].
    destruct (Beef_verify sdk b tracker true) as [ok|e] eqn:Hok; [|discriminate].
    injection Hevidence as <-.
    unfold_workflows; unfold_monad; cbn; rewrite Hsel; cbn.
    rewrite Hb; cbn. rewrite Htracker; cbn. rewrite Hok; cbn.
    rewrite Hcreate; cbn. rewrite Hsignable; cbn. rewrite Hparse; cbn.
    repeat step; cbn; auto 10.
Qed.

(** C10. A discovered output without a satoshi amount is catalogued with
    value 0.  A redemption of a record of value 0 whose checks of the
    evidence pass and for which the wallet returns a signable transaction
    that parses asks the unlocker - built by [PushDrop.unlock] for the amount
    0 and the record's locking script - to sign; no redemption of such a
    record asks for a signature for another amount, and the unlocker is
    asked before the wallet is asked to complete the transaction (both
    copies). *)
Theorem C10_missing_amount_is_zero (c : Copy) (sdk : Sdk) (w : World)
    (res : ListOutputsResult) :
  listOutputs sdk (listOutputsArgs c) = Ok res ->
  (forall i o ls plaintext,
     nth_error (lor_outputs res) i = Some o ->
     wo_satoshis o = None ->
     decrypted sdk (lor_BEEF res) o = Ok (ls, plaintext) ->
     exists t,
       In t (tasks (app (world (loadTasks c sdk w)))) /\
       lockingScript t = ls /\ task t = toUTF8 sdk plaintext /\ sats t = 0%float) /\
  (forall w' sel,
     selectedTask (app w') = Some sel ->
     sats sel = 0%float ->
     (forall u tx i,
        In (UnlockerSign u tx i) (events (handleCompleteSubmit c sdk w')) ->
        u_sourceSatoshis u = 0%float /\ u_lockingScript u = lockingScript sel) /\
     (forall args,
        In (WalletSignAction args) (events (handleCompleteSubmit c sdk w')) ->
        exists u tx i, In (UnlockerSign u tx i) (events (handleCompleteSubmit c sdk w'))) /\
     (forall inputBEEF created signable partialTx,
        evidenceOf c sdk sel = Ok inputBEEF ->
        createAction sdk (completeArgs c sdk sel inputBEEF) = Ok created ->
        car_signableTransaction created = Some signable ->
        fromBEEF sdk (Some (st_tx signable)) None = Ok partialTx ->
        In (UnlockerSign
              (mkUnlocker (0, "todo list") "1" "self" "all" false 0%float
                 (lockingScript sel))
              partialTx 0)
           (events (handleCompleteSubmit c sdk w')))).
Proof.
  intros Hlist. split.
  - intros i o ls p Hnth Hsat Hdec.
    destruct (proj2 (catalogue_after_discovery c sdk w res
                       (mkContent (toUTF8 sdk p) 0%float
                          (templ (finalTxid None (lor_outputs res)) ++ "." ++ recordedIndex c i)
                          ls (lor_BEEF res)) Hlist)) as (t & Hin & Hcontent).
    + exists i, o. split; [assumption|]. unfold expected. now rewrite Hdec, Hsat.
    + exists t. unfold content in Hcontent. injection Hcontent as Ht Hs _ Hl _.
      repeat split; assumption.
  - intros w' sel Hsel Hzero. split; [|split].
    + destruct c; unfold_workflows; unfold_monad; cbn; rewrite Hsel; cbn; repeat step;
        intros u tx i Hin; cbn in Hin;
        repeat (destruct Hin as [Hin|Hin]; try discriminate; try contradiction);
        injection Hin as <- _ _; cbn; split; first [assumption|reflexivity].
    + destruct c; unfold_workflows; unfold_monad; cbn; rewrite Hsel; cbn; repeat step;
        intros args Hin; cbn in Hin;
        repeat (destruct Hin as [Hin|Hin]; try discriminate; try contradiction);
        do 3 eexists; cbn; auto 10.
    + intros inputBEEF created signable partialTx Hevidence Hcreate Hsignable Hparse.
      rewrite <- Hzero.
      exact (redemption_reaches_the_unlocker c sdk w' sel inputBEEF created signable
               partialTx Hsel Hevidence Hcreate Hsignable Hparse).
Qed.

(** The second output of [Demo.basket3] has no amount; its record is
    redeemed in each copy. *)
Lemma C10_missing_amount_is_zero_witness :
  (exists t,
     In t (tasks (app (world (loadTasks FrontendCopy (Demo.sdk Demo.ledger Demo.basket3)
                                Demo.emptyWorld)))) /\
     lockingScript t = Demo.taskScript "two" /\ task t = "two" /\ sats t = 0%float) /\
  (exists t,
     In t (tasks (app (world (loadTasks RootCopy (Demo.sdk Demo.ledger Demo.basket3)
                                Demo.emptyWorld)))) /\
     lockingScript t = Demo.taskScript "two" /\ task t = "two" /\ sats t = 0%float) /\
  In (UnlockerSign
        (mkUnlocker (0, "todo list") "1" "self" "all" false 0%float (Demo.taskScript "two"))
        (mkTx [] []) 0)
     (events (handleCompleteSubmit FrontendCopy (Demo.sdk Demo.ledger Demo.basket3)
                (Demo.selecting Demo.recordTwo))) /\
  In (UnlockerSign
        (mkUnlocker (0, "todo list") "1" "self" "all" false 0%float (Demo.taskScript "two"))
        (mkTx [] []) 0)
     (events (handleCompleteSubmit RootCopy (Demo.sdk Demo.ledger Demo.basket3)
                (Demo.selecting Demo.recordTwo))).
Proof.
  pose proof (C10_missing_amount_is_zero FrontendCopy (Demo.sdk Demo.ledger Demo.basket3)
                Demo.emptyWorld (mkLOResult Demo.basket3 (Some [])) eq_refl)
    as (Hdiscover & Hredeem).
  pose proof (C10_missing_amount_is_zero RootCopy (Demo.sdk Demo.ledger Demo.basket3)
                Demo.emptyWorld (mkLOResult Demo.basket3 (Some [])) eq_refl)
    as (Hdiscover' & Hredeem').
  split; [|split; [|split]].
  - exact (Hdiscover 1 (mkWalletOutput None "B.0") (Demo.taskScript "two")
             (list_byte_of_string "two") eq_refl eq_refl eq_refl).
  - exact (Hdiscover' 1 (mkWalletOutput None "B.0") (Demo.taskScript "two")
             (list_byte_of_string "two") eq_refl eq_refl eq_refl).
  - exact (proj2 (proj2 (Hredeem (Demo.selecting Demo.recordTwo) Demo.recordTwo
                           eq_refl eq_refl))
             (Some []) (mkCAResult None None (Some (mkSignable [] "reference")))
             (mkSignable [] "reference") (mkTx [] []) eq_refl eq_refl eq_refl eq_refl).
  - exact (proj2 (proj2 (Hredeem' (Demo.selecting Demo.recordTwo) Demo.recordTwo
                           eq_refl eq_refl))
             (Some []) (mkCAResult None None (Some (mkSignable [] "reference")))
             (mkSignable [] "reference") (mkTx [] []) eq_refl eq_refl eq_refl eq_refl).
Defined.

(** The redemption of that record asks the unlocker to sign for 0 satoshis. *)
Example redemption_of_a_zero_record :
  filter (fun ev => match ev with UnlockerSign _ _ _ => true | _ => false end)
    (events (handleCompleteSubmit FrontendCopy (Demo.sdk Demo.ledger Demo.basket3)
               (Demo.selecting Demo.recordTwo))) =
  [UnlockerSign
     (mkUnlocker (0, "todo list") "1" "self" "all" false 0%float (Demo.taskScript "two"))
     (mkTx [] []) 0].
Proof. reflexivity. Qed.

(** ** Redemption: the Chain Verifier's answer *)

(** C1. In the second copy, which verifies the evidence, the boolean that
    the Chain Verifier answers is bound to [ok] and never read: a redemption
    runs the same way (state, events, result) whether the answer is [true] or
    [false], and on the answer [false] a redemption whose other steps succeed
    shows the success toast, no error toast and no console line. *)
Theorem C1_verification_answer_unused :
  (forall (sdk : Sdk) (w : World) (b b' : bool),
     Root.handleCompleteSubmit (with_Beef_verify (fun _ _ _ => Ok b) sdk) w =
     Root.handleCompleteSubmit (with_Beef_verify (fun _ _ _ => Ok b') sdk) w) /\
  map (fun ev => match ev with
                 | BeefVerify _ _ _ => "verify"
                 | ToastError _ => "toast.error"
                 | ToastDark _ => "toast.dark"
                 | ConsoleError _ _ => "console.error"
                 | ConsoleLog _ => "console.log"
                 | _ => "call"
                 end)
    (events (Root.handleCompleteSubmit
               (with_Beef_verify (fun _ _ _ => Ok false) (Demo.sdk Demo.ledger Demo.basket3))
               (Demo.selecting Demo.recordTwo))) =
  ["call"; "verify"; "call"; "call"; "call"; "console.log"; "toast.dark"] /\
  tasks (app (world (Root.handleCompleteSubmit
               (with_Beef_verify (fun _ _ _ => Ok false) (Demo.sdk Demo.ledger Demo.basket3))
               (Demo.selecting Demo.recordTwo)))) = [].
Proof.
  split; [|split; reflexivity].
  intros sdk w b b'.
  unfold_workflows; unfold_monad; unfold completeDescription, truncate128; cbn;
    repeat step; reflexivity.
Qed.

(** ** Failed workflows *)

(** C2.  When the [try] block of a create or redeem workflow throws [e], at
    whatever phase, the handler returns with the catalogue's list unchanged
    and logs [e] itself to the console; the one error toast carries the
    message of [e], unaltered: alone on a failed create, and after the fixed
    words ['Error completing task: '] on a failed redeem (both copies). *)
Theorem C2_failed_workflow_leaves_catalogue (c : Copy) (sdk : Sdk) (w : World) :
  (forall e,
     result (handleCreateSubmit_try c sdk (app w) w) = Err e ->
     tasks (app (world (handleCreateSubmit c sdk w))) = tasks (app w) /\
     toast_errors (events (handleCreateSubmit c sdk w)) = [message e] /\
     In (ConsoleError None e) (events (handleCreateSubmit c sdk w)) /\
     result (handleCreateSubmit c sdk w) = Ok tt) /\
  (forall e,
     result (handleCompleteSubmit_try c sdk (app w) w) = Err e ->
     tasks (app (world (handleCompleteSubmit c sdk w))) = tasks (app w) /\
     toast_errors (events (handleCompleteSubmit c sdk w)) =
       ["Error completing task: " ++ message e] /\
     In (ConsoleError None e) (events (handleCompleteSubmit c sdk w)) /\
     result (handleCompleteSubmit c sdk w) = Ok tt).
Proof.
  split.
  - create_branches c w; intros thrown Hthrown; try discriminate;
      injection Hthrown as <-; cbn; repeat split; auto 10.
  - complete_branches c w; intros thrown Hthrown; try discriminate;
      injection Hthrown as <-; cbn; repeat split; auto 10.
Qed.

(** The wallet rejects [createAction] with the message "boom": a redemption
    in the second copy, a creation in the first. *)
Lemma C2_failed_workflow_leaves_catalogue_witness :
  result (handleCompleteSubmit_try RootCopy
            (with_createAction (fun _ => Err Demo.boom) (Demo.sdk Demo.ledger Demo.basket3))
            (app (Demo.selecting Demo.recordTwo)) (Demo.selecting Demo.recordTwo)) =
    Err Demo.boom /\
  tasks (app (world (handleCompleteSubmit RootCopy
            (with_createAction (fun _ => Err Demo.boom) (Demo.sdk Demo.ledger Demo.basket3))
            (Demo.selecting Demo.recordTwo)))) = [Demo.recordTwo] /\
  toast_errors (events (handleCompleteSubmit RootCopy
            (with_createAction (fun _ => Err Demo.boom) (Demo.sdk Demo.ledger Demo.basket3))
            (Demo.selecting Demo.recordTwo))) = ["Error completing task: boom"] /\
  result (handleCreateSubmit_try FrontendCopy
            (with_createAction (fun _ => Err Demo.boom) (Demo.sdk Demo.ledger Demo.basket3))
            (app (Demo.filledIn "Buy milk" 1000%float))
            (Demo.filledIn "Buy milk" 1000%float)) =
    Err Demo.boom /\
  tasks (app (world (handleCreateSubmit FrontendCopy
            (with_createAction (fun _ => Err Demo.boom) (Demo.sdk Demo.ledger Demo.basket3))
            (Demo.filledIn "Buy milk" 1000%float)))) = [] /\
  toast_errors (events (handleCreateSubmit FrontendCopy
            (with_createAction (fun _ => Err Demo.boom) (Demo.sdk Demo.ledger Demo.basket3))
            (Demo.filledIn "Buy milk" 1000%float))) = ["boom"].
Proof.
  pose proof (proj2 (C2_failed_workflow_leaves_catalogue RootCopy
               (with_createAction (fun _ => Err Demo.boom) (Demo.sdk Demo.ledger Demo.basket3))
               (Demo.selecting Demo.recordTwo)) Demo.boom eq_refl) as (Htasks & Htoast & _).
  pose proof (proj1 (C2_failed_workflow_leaves_catalogue FrontendCopy
               (with_createAction (fun _ => Err Demo.boom) (Demo.sdk Demo.ledger Demo.basket3))
               (Demo.filledIn "Buy milk" 1000%float)) Demo.boom eq_refl)
    as (Htasks' & Htoast' & _).
  split; [reflexivity|]. split; [exact Htasks|]. split; [exact Htoast|].
  split; [reflexivity|]. split; [exact Htasks'|exact Htoast'].
Defined.

(** A failed redemption in the first copy: the toast is the wallet's message
    after the fixed words of the redemption. *)
Example redeem_toast_carries_the_message :
  toast_errors (events (handleCompleteSubmit FrontendCopy
            (with_createAction (fun _ => Err Demo.boom) (Demo.sdk Demo.ledger Demo.basket3))
            (Demo.selecting Demo.recordTwo))) =
    ["Error completing task: " ++ message Demo.boom].
Proof. reflexivity. Qed.

(** ** Creation: what is encrypted, locked and recorded *)

Lemma not_cons_self {A} (x : A) (l : list A) : l <> x :: l.
Proof.
  intros H. apply (f_equal (@List.length A)) in H. cbn in H. lia.
Qed.

(** A creation that has put a record on the list has encrypted the text,
    locked the two fields, and submitted the script. *)
Lemma created_record (c : Copy) (sdk : Sdk) (w : World) (t : Task) :
  tasks (app (world (handleCreateSubmit c sdk w))) = t :: tasks (app w) ->
  exists ciphertext args created,
    encrypt sdk (toArray_utf8 sdk (createTask (app w))) PROTOCOL_ID KEY_ID = Ok ciphertext /\
    pushdrop_lock sdk [toArray_utf8 sdk TODO_PROTO_ADDR; ciphertext]
      PROTOCOL_ID KEY_ID "self" = Ok (lockingScript t) /\
    createAction sdk args = Ok created /\
    In (WalletCreateAction args) (events (handleCreateSubmit c sdk w)) /\
    map cao_lockingScript (ca_outputs args) = [lockingScript t] /\
    task t = createTask (app w) /\
    sats t = createAmount (app w) /\
    outpoint t = templ (car_txid created) ++ ".0" /\
    beef t = car_tx created.
Proof.
  create_branches c w; intros Htasks;
    try (apply not_cons_self in Htasks; contradiction);
    injection Htasks as <-; cbn;
    (eexists _, _, _; repeat split; try eassumption; auto 10).
Qed.

(** C6. A creation for a text that is not empty and an amount of at least 1
    whose text [encrypt] turns into a ciphertext calls [lock] once, with
    exactly two fields in this order: the UTF-8 bytes of [TODO_PROTO_ADDR],
    then that ciphertext.  When [lock] and [createAction] answer, the script
    that [lock] returned is the script of the one output submitted and of
    the record put on the list.  No creation calls [lock] with other fields,
    and every record that a creation puts on the list carries the script of
    such a call (both copies). *)
Theorem C6_two_fields_in_order (c : Copy) (sdk : Sdk) (w : World) :
  (forall fields p k counterparty,
     In (PushDropLock fields p k counterparty) (events (handleCreateSubmit c sdk w)) ->
     exists ciphertext,
       encrypt sdk (toArray_utf8 sdk (createTask (app w))) PROTOCOL_ID KEY_ID =
         Ok ciphertext /\
       fields = [toArray_utf8 sdk TODO_PROTO_ADDR; ciphertext]) /\
  (forall t,
     tasks (app (world (handleCreateSubmit c sdk w))) = t :: tasks (app w) ->
     exists ciphertext args created,
       encrypt sdk (toArray_utf8 sdk (createTask (app w))) PROTOCOL_ID KEY_ID =
         Ok ciphertext /\
       pushdrop_lock sdk [toArray_utf8 sdk TODO_PROTO_ADDR; ciphertext]
         PROTOCOL_ID KEY_ID "self" = Ok (lockingScript t) /\
       createAction sdk args = Ok created /\
       map cao_lockingScript (ca_outputs args) = [lockingScript t]) /\
  (forall ciphertext,
     createTask (app w) <> EmptyString ->
     PrimFloat.leb 1 (createAmount (app w)) = true ->
     encrypt sdk (toArray_utf8 sdk (createTask (app w))) PROTOCOL_ID KEY_ID =
       Ok ciphertext ->
     filter is_lock_call (events (handleCreateSubmit c sdk w)) =
       [PushDropLock [toArray_utf8 sdk TODO_PROTO_ADDR; ciphertext]
          PROTOCOL_ID KEY_ID "self"] /\
     forall script created,
       pushdrop_lock sdk [toArray_utf8 sdk TODO_PROTO_ADDR; ciphertext]
         PROTOCOL_ID KEY_ID "self" = Ok script ->
       createAction sdk
         (createArgs c (createTask (app w)) (createAmount (app w)) script) = Ok created ->
       In (WalletCreateAction
             (createArgs c (createTask (app w)) (createAmount (app w)) script))
          (events (handleCreateSubmit c sdk w)) /\
       map cao_lockingScript
         (ca_outputs (createArgs c (createTask (app w)) (createAmount (app w)) script)) =
         [script] /\
       map lockingScript (tasks (app (world (handleCreateSubmit c sdk w)))) =
         script :: map lockingScript (tasks (app w))).
Proof.
  split; [|split].
  - create_branches c w; intros fields p k cp Hin; cbn in Hin;
      repeat (destruct Hin as [Hin|Hin]; try discriminate; try contradiction);
      injection Hin as <- _ _ _; eexists; split;
      first [reflexivity|eassumption].
  - intros t Ht.
    destruct (created_record c sdk w t Ht)
      as (ct & args & created & Henc & Hlock & Hcreate & _ & Hout & _).
    exists ct, args, created. repeat split; assumption.
  - intros ct Htext Hamount Henc.
    split; [now apply creation_locks|].
    intros ls created Hlock Hcreate.
    destruct (creation_run c sdk w ct ls created Htext Hamount Henc Hlock Hcreate)
      as (Hev & Htasks & _).
    rewrite Hev, Htasks. split; [|split; reflexivity].
    right. right. now left.
Qed.

(** The creation of "Buy milk", in each copy. *)
Lemma C6_two_fields_in_order_witness :
  filter is_lock_call
    (events (handleCreateSubmit FrontendCopy (Demo.sdk [] [])
               (Demo.filledIn "Buy milk" 1000%float))) =
    [PushDropLock
       [list_byte_of_string TODO_PROTO_ADDR;
        (Demo.contextTag PROTOCOL_ID KEY_ID ++ list_byte_of_string "Buy milk")%list]
       PROTOCOL_ID KEY_ID "self"] /\
  filter is_lock_call
    (events (handleCreateSubmit RootCopy (Demo.sdk [] [])
               (Demo.filledIn "Buy milk" 1000%float))) =
    [PushDropLock
       [list_byte_of_string TODO_PROTO_ADDR;
        (Demo.contextTag PROTOCOL_ID KEY_ID ++ list_byte_of_string "Buy milk")%list]
       PROTOCOL_ID KEY_ID "self"] /\
  map lockingScript
    (tasks (app (world (handleCreateSubmit FrontendCopy (Demo.sdk [] [])
                          (Demo.filledIn "Buy milk" 1000%float))))) =
  [Demo.taskScript "Buy milk"] /\
  map lockingScript
    (tasks (app (world (handleCreateSubmit RootCopy (Demo.sdk [] [])
                          (Demo.filledIn "Buy milk" 1000%float))))) =
  [Demo.taskScript "Buy milk"].
Proof.
  assert (Hmilk : forall c,
            filter is_lock_call
              (events (handleCreateSubmit c (Demo.sdk [] [])
                         (Demo.filledIn "Buy milk" 1000%float))) =
              [PushDropLock
                 [list_byte_of_string TODO_PROTO_ADDR;
                  (Demo.contextTag PROTOCOL_ID KEY_ID ++ list_byte_of_string "Buy milk")%list]
                 PROTOCOL_ID KEY_ID "self"] /\
            map lockingScript
              (tasks (app (world (handleCreateSubmit c (Demo.sdk [] [])
                                    (Demo.filledIn "Buy milk" 1000%float))))) =
            [Demo.taskScript "Buy milk"]).
  { intros c.
    destruct (proj2 (proj2 (C6_two_fields_in_order c (Demo.sdk [] [])
                              (Demo.filledIn "Buy milk" 1000%float)))
                (Demo.contextTag PROTOCOL_ID KEY_ID ++ list_byte_of_string "Buy milk")%list)
      as (Hlock & Hrecord); [discriminate|reflexivity|reflexivity|].
    split; [exact Hlock|].
    refine (proj2 (proj2 (Hrecord (Demo.taskScript "Buy milk")
                            (mkCAResult (Some "created") (Some []) None) eq_refl _))).
    destruct c; reflexivity. }
  split; [exact (proj1 (Hmilk FrontendCopy))|].
  split; [exact (proj1 (Hmilk RootCopy))|].
  split; [exact (proj2 (Hmilk FrontendCopy))|exact (proj2 (Hmilk RootCopy))].
Defined.

(** ** The small model obeys the laws *)








(** ** Encryption at creation, decryption at discovery *)






(** ** Decoding at discovery *)




(** * Further properties *)

(** ** Which amounts a creation accepts *)

(** X1. A creation reaches the wallet (it calls [encrypt] on the text)
    exactly when the text is not empty and the amount is a double with
    [1 <= amount]: NaN, zeros, negative numbers and fractions below 1 are
    stopped, and every other double passes, fractions above 1 and
    [Infinity] included (both copies). *)
Theorem X1_create_proceeds_iff (c : Copy) (sdk : Sdk) (w : World) :
  In (WalletEncrypt (toArray_utf8 sdk (createTask (app w))) (0, "todo list") "1")
    (events (handleCreateSubmit c sdk w)) <->
  createTask (app w) <> EmptyString /\ PrimFloat.leb 1 (createAmount (app w)) = true.
Proof.
  pose proof (amount_tests (createAmount (app w))) as Hamount.
  pose proof (proj1 (String.eqb_eq (createTask (app w)) EmptyString)) as Hempty.
  pose proof (proj1 (String.eqb_neq (createTask (app w)) EmptyString)) as Hfull.
  create_branches c w; cbn in Hamount;
    try specialize (Hempty eq_refl); try specialize (Hfull eq_refl);
    (split;
     [intros Hin;
      repeat (destruct Hin as [Hin|Hin]; try discriminate; try contradiction);
      split; first [assumption|now symmetry]
     |intros [Hne Hle]; first [contradiction|congruence|left; reflexivity]]).
Qed.

(** The amounts 1.5 and [Infinity] pass, 0.5 does not. *)
Example fractional_amounts :
  calls (events (handleCreateSubmit FrontendCopy (Demo.sdk [] [])
                   (Demo.typed "Buy milk" 1.5%float))) = createProtocol /\
  calls (events (handleCreateSubmit FrontendCopy (Demo.sdk [] [])
                   (Demo.typed "Buy milk" infinity))) = createProtocol /\
  calls (events (handleCreateSubmit FrontendCopy (Demo.sdk [] [])
                   (Demo.typed "Buy milk" 0.5%float))) = [].
Proof. repeat split; reflexivity. Qed.

(** ** What a creation submits and records *)

(** X2. A creation that puts a record on the list has asked the wallet for
    one transaction with no input and exactly one output: the locked script,
    worth the amount entered, in the basket that discovery lists, with
    [randomizeOutputs: false].  The record's outpoint is the transaction id
    the wallet returned followed by [.0], its evidence the transaction
    returned; when the wallet returns no transaction id the outpoint is the
    text "undefined.0" (both copies). *)
Theorem X2_creation_submits_one_output (c c' : Copy) (sdk : Sdk) (w : World) (t : Task) :
  tasks (app (world (handleCreateSubmit c sdk w))) = t :: tasks (app w) ->
  exists args created,
    createAction sdk args = Ok created /\
    calls (events (handleCreateSubmit c sdk w)) = createProtocol /\
    In (WalletCreateAction args) (events (handleCreateSubmit c sdk w)) /\
    ca_inputs args = [] /\
    ca_inputBEEF args = None /\
    ca_outputs args =
      [mkCAOutput (lockingScript t) (createAmount (app w))
         (lo_basket (listOutputsArgs c')) "New ToDo list item"] /\
    opt_randomizeOutputs (ca_options args) = Some false /\
    ca_description args = "Create a TODO task: " ++ createTask (app w) /\
    outpoint t = templ (car_txid created) ++ ".0" /\
    beef t = car_tx created /\
    (car_txid created = None -> outpoint t = "undefined.0").
Proof.
  assert (Hbasket : lo_basket (listOutputsArgs c') = "todo tokens") by (destruct c'; reflexivity).
  rewrite Hbasket. clear Hbasket.
  create_branches c w; intros Htasks;
    try (apply not_cons_self in Htasks; contradiction);
    injection Htasks as <-; cbn;
    (eexists _, _; split; [eassumption|]);
    repeat split; auto 10;
    intros Hnone; now rewrite Hnone.
Qed.

Lemma X2_creation_submits_one_output_witness :
  exists args created,
    Demo.demoCreateAction args = Ok created /\
    ca_inputs args = [] /\
    ca_outputs args =
      [mkCAOutput (Demo.taskScript "Buy milk") 1000%float "todo tokens"
         "New ToDo list item"] /\
    outpoint Demo.milkRecord = templ (car_txid created) ++ ".0".
Proof.
  destruct (X2_creation_submits_one_output FrontendCopy RootCopy
              (Demo.sdk Demo.milkLedger Demo.milkBasket)
              (Demo.typed "Buy milk" 1000%float) Demo.milkRecord eq_refl)
    as (args & created & Hcreate & _ & _ & Hin & _ & Hout & _ & _ & Hop & _).
  exists args, created. repeat split; assumption.
Defined.

(** ** The order of the calls *)

(** X3. The calls of a creation are an initial segment of encrypt, lock,
    createAction, and those of a redemption an initial segment of
    createAction, sign (unlocker), signAction - preceded in the second copy
    by getChainTracker, verify: no call is skipped or repeated, none of
    another kind is made, and a workflow that changes the list has made all
    of its calls. *)
Theorem X3_calls_follow_the_protocol (c : Copy) (sdk : Sdk) (w : World) :
  prefixOf (calls (events (handleCreateSubmit c sdk w))) createProtocol /\
  prefixOf (calls (events (handleCompleteSubmit c sdk w))) (completeProtocol c) /\
  (tasks (app (world (handleCreateSubmit c sdk w))) <> tasks (app w) ->
   calls (events (handleCreateSubmit c sdk w)) = createProtocol) /\
  (tasks (app (world (handleCompleteSubmit c sdk w))) <> tasks (app w) ->
   calls (events (handleCompleteSubmit c sdk w)) = completeProtocol c).
Proof.
  split; [|split; [|split]].
  - create_branches c w; cbn; auto.
  - complete_branches c w; cbn; auto 10.
  - create_branches c w; cbn; intros Hchanged; solve [reflexivity|contradiction].
  - complete_branches c w; cbn; intros Hchanged; solve [reflexivity|contradiction].
Qed.

Lemma X3_calls_follow_the_protocol_witness :
  calls (events (handleCompleteSubmit RootCopy (Demo.sdk Demo.ledger Demo.basket3)
                   (Demo.selecting Demo.recordTwo))) =
  [KGetChainTracker; KVerify; KCreateAction; KUnlockerSign; KSignAction].
Proof.
  apply (proj2 (proj2 (proj2 (X3_calls_follow_the_protocol RootCopy
                                (Demo.sdk Demo.ledger Demo.basket3)
                                (Demo.selecting Demo.recordTwo))))).
  cbn. discriminate.
Defined.

(** ** Discovery only reads *)

Lemma calls_app (l l' : list Event) : calls (l ++ l') = (calls l ++ calls l')%list.
Proof.
  induction l as [|ev l IH]; [reflexivity|].
  destruct ev; cbn; now rewrite ?IH.
Qed.

Lemma calls_of_starts (sdk : Sdk) (basketBEEF : option BEEF) (outputs : list WalletOutput) :
  calls (flat_map (startEvents sdk basketBEEF) outputs) =
  repeat KDecrypt
    (List.length (filter (fun o => negb (fails (decoded sdk basketBEEF o))) outputs)).
Proof.
  induction outputs as [|o rest IH]; [reflexivity|].
  cbn [flat_map filter]. rewrite calls_app, IH. unfold startEvents.
  destruct (decoded sdk basketBEEF o) as [[ls enc]|e]; reflexivity.
Qed.

Lemma calls_of_resumes (slots : list Slot) : calls (flat_map resumeEvents slots) = [].
Proof.
  induction slots as [|s rest IH]; [reflexivity|].
  cbn [flat_map]. rewrite calls_app, IH.
  destruct s as [r|ls sat [p|e]]; reflexivity.
Qed.

(** X4. A discovery pass only reads: it calls listOutputs once, then
    decrypt once for each output whose script decodes, and nothing else; and
    it replaces the list wholesale - what the catalogue shows afterwards
    does not depend on the state before (both copies). *)
Theorem X4_discovery_reads_and_replaces (c : Copy) (sdk : Sdk) (w w' : World)
    (res : ListOutputsResult) :
  listOutputs sdk (listOutputsArgs c) = Ok res ->
  calls (events (loadTasks c sdk w)) =
    KListOutputs ::
    repeat KDecrypt
      (List.length (filter (fun o => negb (fails (decoded sdk (lor_BEEF res) o)))
                      (lor_outputs res))) /\
  map content (tasks (app (world (loadTasks c sdk w)))) =
  map content (tasks (app (world (loadTasks c sdk w')))).
Proof.
  intros Hlist.
  destruct (loadTasks_run c sdk w res Hlist) as (_ & Htasks & Hev).
  destruct (loadTasks_run c sdk w' res Hlist) as (_ & Htasks' & _).
  split.
  - rewrite Hev. cbn [calls]. rewrite calls_app, calls_of_starts, calls_of_resumes.
    now rewrite app_nil_r.
  - now rewrite Htasks, Htasks'.
Qed.

Lemma X4_discovery_reads_and_replaces_witness :
  listOutputs (Demo.sdk Demo.ledger Demo.basket4) (listOutputsArgs RootCopy) =
    Ok (mkLOResult Demo.basket4 (Some [])) /\
  calls (events (loadTasks RootCopy (Demo.sdk Demo.ledger Demo.basket4) Demo.emptyWorld)) =
    [KListOutputs; KDecrypt; KDecrypt; KDecrypt].
Proof.
  split; [reflexivity|].
  exact (proj1 (X4_discovery_reads_and_replaces RootCopy
                  (Demo.sdk Demo.ledger Demo.basket4) Demo.emptyWorld Demo.emptyWorld
                  (mkLOResult Demo.basket4 (Some [])) eq_refl)).
Defined.

(** ** Redemption: nothing selected, nothing to sign *)

(** X5. A redemption with no record selected makes no call at all and
    reports "selectedTask does not exist"; a redemption for which the wallet
    returns no signable transaction reports "Failed to create signable
    transaction" and asks neither the unlocker nor the wallet to sign.  Both
    leave the list as it was (both copies). *)
Theorem X5_nothing_selected_nothing_to_sign (c : Copy) (sdk : Sdk) (w : World) :
  (selectedTask (app w) = None ->
   calls (events (handleCompleteSubmit c sdk w)) = [] /\
   toast_errors (events (handleCompleteSubmit c sdk w)) =
     ["Error completing task: selectedTask does not exist"] /\
   tasks (app (world (handleCompleteSubmit c sdk w))) = tasks (app w)) /\
  (forall args created,
     In (WalletCreateAction args) (events (handleCompleteSubmit c sdk w)) ->
     createAction sdk args = Ok created ->
     car_signableTransaction created = None ->
     ~ In KUnlockerSign (calls (events (handleCompleteSubmit c sdk w))) /\
     ~ In KSignAction (calls (events (handleCompleteSubmit c sdk w))) /\
     toast_errors (events (handleCompleteSubmit c sdk w)) =
       ["Error completing task: Failed to create signable transaction"] /\
     tasks (app (world (handleCompleteSubmit c sdk w))) = tasks (app w)).
Proof.
  split.
  - complete_branches c w; intros Hnone; try discriminate; repeat split.
  - complete_branches c w; intros args created Hin Hcreate Hnone; cbn in Hin;
      repeat (destruct Hin as [Hin|Hin]; try discriminate; try contradiction);
      injection Hin as <-; try congruence;
      (repeat split; try reflexivity; cbn; intros Hcall;
       repeat (destruct Hcall as [Hcall|Hcall]; try discriminate; try contradiction)).
Qed.

Lemma X5_nothing_selected_nothing_to_sign_witness :
  calls (events (handleCompleteSubmit FrontendCopy (Demo.sdk Demo.ledger Demo.basket3)
                   Demo.emptyWorld)) = [] /\
  toast_errors (events (handleCompleteSubmit FrontendCopy (Demo.sdk Demo.ledger Demo.basket3)
                          Demo.emptyWorld)) =
    ["Error completing task: selectedTask does not exist"].
Proof.
  destruct (proj1 (X5_nothing_selected_nothing_to_sign FrontendCopy
                     (Demo.sdk Demo.ledger Demo.basket3) Demo.emptyWorld) eq_refl)
    as (Hcalls & Htoast & _).
  split; assumption.
Defined.

(** ** Redemption: what is spent and what is signed *)

Lemma substring_0_length (n : nat) (s : string) : String.length (substring 0 n s) <= n.
Proof.
  revert s. induction n as [|n IH]; intros s; destruct s as [|ch s]; cbn; try lia.
  specialize (IH s). lia.
Qed.

Lemma substring_0_prefix (n : nat) (s : string) : prefix (substring 0 n s) s = true.
Proof.
  revert s. induction n as [|n IH]; intros s; destruct s as [|ch s]; cbn; try reflexivity.
  destruct (ascii_dec ch ch) as [_|Hne]; [apply IH|contradiction].
Qed.

Lemma prefix_refl (s : string) : prefix s s = true.
Proof.
  induction s as [|ch s IH]; cbn; [reflexivity|].
  destruct (ascii_dec ch ch) as [_|Hne]; [assumption|contradiction].
Qed.

Lemma length_of_append (a b : string) :
  String.length (a ++ b) = String.length a + String.length b.
Proof. induction a as [|ch a IH]; cbn; [reflexivity|now rewrite IH]. Qed.

Lemma ascii_only_append (a b : string) :
  ascii_only (a ++ b) = ascii_only a && ascii_only b.
Proof.
  unfold ascii_only. induction a as [|ch a IH]; cbn [append list_ascii_of_string forallb];
    [reflexivity|].
  now rewrite IH, andb_assoc.
Qed.

(** The small model's string primitives are those of ASCII text. *)
Lemma Demo_utf16_on_ascii (ledger : Demo.Ledger) (basket : list WalletOutput) :
  utf16_on_ascii (Demo.sdk ledger basket).
Proof.
  intros s _. split; [reflexivity|]. intros n. cbn. now rewrite Nat.sub_0_r.
Qed.

Section Descriptions.
Variable sdk : Sdk.
Hypothesis Hengine : utf16_on_ascii sdk.

Lemma truncate128_short (s : string) :
  ascii_only s = true -> String.length (truncate128 sdk s) <= 128.
Proof.
  intros Hascii. destruct (Hengine s Hascii) as (Hlen & Hsub).
  unfold truncate128. rewrite Hlen, Hsub.
  destruct (Nat.ltb 128 (String.length s)) eqn:Hlong.
  - apply substring_0_length.
  - apply Nat.ltb_ge in Hlong. exact Hlong.
Qed.

Lemma truncate128_prefix (s : string) :
  ascii_only s = true -> prefix (truncate128 sdk s) s = true.
Proof.
  intros Hascii. destruct (Hengine s Hascii) as (Hlen & Hsub).
  unfold truncate128. rewrite Hlen, Hsub.
  destruct (Nat.ltb 128 (String.length s)).
  - apply substring_0_prefix.
  - apply prefix_refl.
Qed.

Lemma truncate128_whole (s : string) :
  ascii_only s = true -> String.length s <= 128 -> truncate128 sdk s = s.
Proof.
  intros Hascii Hshort. destruct (Hengine s Hascii) as (Hlen & _).
  unfold truncate128. rewrite Hlen.
  apply Nat.ltb_ge in Hshort. now rewrite Hshort.
Qed.

End Descriptions.

Lemma description_is_ascii (t : string) :
  ascii_only t = true ->
  ascii_only ("Complete a TODO task: " ++ quote ++ t ++ quote) = true.
Proof.
  intros Hascii. rewrite !ascii_only_append, Hascii. reflexivity.
Qed.

Lemma description_length (t : string) :
  String.length ("Complete a TODO task: " ++ quote ++ t ++ quote) = String.length t + 24.
Proof. rewrite !length_of_append. cbn. lia. Qed.

(** X6. The transaction a redemption asks the wallet for spends exactly one
    input, the outpoint of the selected record with room for an unlocking
    script of 73 bytes, and names no output, with [randomizeOutputs: false].
    Its description is the text [Complete a TODO task: "..."], cut by
    [substring(0, 128)] when its [length] exceeds 128 code units.  For a task
    whose text is ASCII (where a character is a code unit) the description
    has at most 128 characters and is an initial segment of that text, all of
    it when the task's text has at most 104 characters (both copies). *)
Theorem X6_redemption_spends_the_selected_outpoint (c : Copy) (sdk : Sdk) (w : World)
    (sel : Task) (args : CreateActionArgs) :
  selectedTask (app w) = Some sel ->
  In (WalletCreateAction args) (events (handleCompleteSubmit c sdk w)) ->
  ca_inputs args = [mkCAInput "Complete a ToDo list item" (outpoint sel) 73] /\
  ca_outputs args = [] /\
  opt_randomizeOutputs (ca_options args) = Some false /\
  ca_description args =
    (if Nat.ltb 128
          (utf16_length sdk ("Complete a TODO task: " ++ quote ++ task sel ++ quote))
     then utf16_substring sdk ("Complete a TODO task: " ++ quote ++ task sel ++ quote) 0 128
     else "Complete a TODO task: " ++ quote ++ task sel ++ quote) /\
  (utf16_on_ascii sdk ->
   ascii_only (task sel) = true ->
   String.length (ca_description args) <= 128 /\
   prefix (ca_description args)
     ("Complete a TODO task: " ++ quote ++ task sel ++ quote) = true /\
   (String.length (task sel) <= 104 ->
    ca_description args = "Complete a TODO task: " ++ quote ++ task sel ++ quote)).
Proof.
  intros Hsel.
  assert (Hcut : utf16_on_ascii sdk ->
                 ascii_only (task sel) = true ->
                 String.length (completeDescription sdk (task sel)) <= 128 /\
                 prefix (completeDescription sdk (task sel))
                   ("Complete a TODO task: " ++ quote ++ task sel ++ quote) = true /\
                 (String.length (task sel) <= 104 ->
                  completeDescription sdk (task sel) =
                  "Complete a TODO task: " ++ quote ++ task sel ++ quote)).
  { intros Hengine Hascii. apply description_is_ascii in Hascii.
    unfold completeDescription. split; [|split].
    - now apply truncate128_short.
    - now apply truncate128_prefix.
    - intros Hshort. apply truncate128_whole; [assumption..|].
      rewrite description_length. lia. }
  revert Hcut.
  destruct c; unfold_workflows; unfold_monad; cbn; rewrite Hsel; cbn; repeat step;
    intros Hcut Hin;
    repeat (destruct Hin as [Hin|Hin]; try discriminate; try contradiction);
    injection Hin as <-;
    (split; [reflexivity|]; split; [reflexivity|]; split; [reflexivity|];
     split; [reflexivity|exact Hcut]).
Qed.

(** A record whose text has 200 characters. *)
Example a_long_description :
  map (fun ev => match ev with
                 | WalletCreateAction args => String.length (ca_description args)
                 | _ => 0
                 end)
    (events (handleCompleteSubmit FrontendCopy (Demo.sdk Demo.ledger Demo.basket3)
               (Demo.selecting
                  (mkTask 1 (string_of_list_ascii (repeat "a"%char 200)) 1%float "C.0"
                     (Demo.taskScript "two") (Some []))))) =
  [128; 0; 0; 0; 0].
Proof. reflexivity. Qed.

Lemma X6_redemption_spends_the_selected_outpoint_witness :
  selectedTask (app (Demo.selecting Demo.recordTwo)) = Some Demo.recordTwo /\
  ascii_only (task Demo.recordTwo) = true /\
  forall args,
    In (WalletCreateAction args)
      (events (handleCompleteSubmit RootCopy (Demo.sdk Demo.ledger Demo.basket3)
                 (Demo.selecting Demo.recordTwo))) ->
    ca_inputs args = [mkCAInput "Complete a ToDo list item" "C.0" 73] /\
    ca_outputs args = [] /\
    ca_description args = "Complete a TODO task: " ++ quote ++ "two" ++ quote.
Proof.
  split; [reflexivity|]. split; [reflexivity|]. intros args Hin.
  destruct (X6_redemption_spends_the_selected_outpoint RootCopy
              (Demo.sdk Demo.ledger Demo.basket3) (Demo.selecting Demo.recordTwo)
              Demo.recordTwo args eq_refl Hin) as (Hinputs & Houtputs & _ & _ & Hcut).
  destruct (Hcut (Demo_utf16_on_ascii Demo.ledger Demo.basket3) eq_refl)
    as (_ & _ & Hwhole).
  split; [exact Hinputs|]. split; [exact Houtputs|].
  apply Hwhole. cbn. lia.
Defined.

(** X7. Whenever a redemption asks the wallet to complete the signature,
    it passes the reference of the signable transaction that the wallet
    returned for this redemption, and for input 0 the unlocking script that
    the unlocker produced for that transaction, input 0, under the protocol
    and key of the lock, the counterparty 'self', the scope 'all', and the
    value and locking script of the selected record (both copies). *)
Theorem X7_signature_completes_the_signable (c : Copy) (sdk : Sdk) (w : World)
    (sel : Task) (sargs : SignActionArgs) :
  selectedTask (app w) = Some sel ->
  In (WalletSignAction sargs) (events (handleCompleteSubmit c sdk w)) ->
  exists args created signable partialTx unlockingScript,
    In (WalletCreateAction args) (events (handleCompleteSubmit c sdk w)) /\
    createAction sdk args = Ok created /\
    car_signableTransaction created = Some signable /\
    fromBEEF sdk (Some (st_tx signable)) None = Ok partialTx /\
    unlocker_sign sdk
      (mkUnlocker (0, "todo list") "1" "self" "all" false (sats sel) (lockingScript sel))
      partialTx 0 = Ok unlockingScript /\
    sargs = mkSAArgs (st_reference signable) [(0, unlockingScript)].
Proof.
  intros Hsel.
  destruct c; unfold_workflows; unfold_monad; cbn; rewrite Hsel; cbn; repeat step;
    intros Hin;
    repeat (destruct Hin as [Hin|Hin]; try discriminate; try contradiction);
    injection Hin as <-;
    (eexists _, _, _, _, _; repeat split; try eassumption; cbn; auto 10).
Qed.

Lemma X7_signature_completes_the_signable_witness :
  selectedTask (app (Demo.selecting Demo.recordTwo)) = Some Demo.recordTwo /\
  forall sargs,
    In (WalletSignAction sargs)
      (events (handleCompleteSubmit FrontendCopy (Demo.sdk Demo.ledger Demo.basket3)
                 (Demo.selecting Demo.recordTwo))) ->
    sargs = mkSAArgs "reference" [(0, "unlocking script")].
Proof.
  split; [reflexivity|]. intros sargs Hin.
  destruct (X7_signature_completes_the_signable FrontendCopy
              (Demo.sdk Demo.ledger Demo.basket3) (Demo.selecting Demo.recordTwo)
              Demo.recordTwo sargs eq_refl Hin)
    as (args & created & signable & tx & us & Hca & Hcreated & Hsignable & _ & Hsign & ->).
  cbn in Hsign. injection Hsign as <-.
  cbn in Hca. destruct Hca as [Hca|[Hca|[Hca|[Hca|[Hca|[]]]]]]; try discriminate.
  injection Hca as <-. cbn in Hcreated. injection Hcreated as <-.
  cbn in Hsignable. injection Hsignable as <-. reflexivity.
Defined.

(** ** Redemption: what leaves the list *)

Lemma without_cons (sel x : Task) (l : list Task) :
  without sel (x :: l) = if same_object x sel then without sel l else x :: without sel l.
Proof. unfold without. cbn. destruct (same_object x sel); reflexivity. Qed.

Lemma without_all_others (sel : Task) (l : list Task) :
  Forall (fun t => oid t <> oid sel) l -> without sel l = l.
Proof.
  induction 1 as [|x l Hx _ IH]; [reflexivity|].
  rewrite without_cons. unfold same_object.
  apply Nat.eqb_neq in Hx. rewrite Hx. now rewrite IH.
Qed.

Lemma NoDup_oid_others (x : Task) (l : list Task) :
  NoDup (map oid (x :: l)) -> Forall (fun t => oid t <> oid x) l.
Proof.
  intros Hnd. inversion Hnd as [|? ? Hnotin _]; subst.
  apply Forall_forall. intros t Ht Heq. apply Hnotin. rewrite <- Heq. now apply in_map.
Qed.

Lemma removeFirst_without (sel : Task) (l : list Task) :
  NoDup (map oid l) -> Root.removeFirst sel l = without sel l.
Proof.
  induction l as [|x l IH]; intros Hnd; [reflexivity|].
  rewrite without_cons. cbn [Root.removeFirst].
  destruct (same_object x sel) eqn:Hx.
  - unfold same_object in Hx. apply Nat.eqb_eq in Hx. symmetry.
    apply (without_all_others sel l). rewrite <- Hx. now apply NoDup_oid_others.
  - f_equal. apply IH. now inversion Hnd.
Qed.

Lemma without_length (sel : Task) (l : list Task) :
  NoDup (map oid l) -> In sel l -> S (List.length (without sel l)) = List.length l.
Proof.
  induction l as [|x l IH]; intros Hnd Hin; [contradiction|].
  rewrite without_cons.
  destruct (same_object x sel) eqn:Hx; cbn [List.length].
  - unfold same_object in Hx. apply Nat.eqb_eq in Hx. f_equal.
    rewrite (without_all_others sel l); [reflexivity|].
    rewrite <- Hx. now apply NoDup_oid_others.
  - f_equal. apply IH; [now inversion Hnd|].
    destruct Hin as [->|Hin]; [|assumption].
    unfold same_object in Hx. rewrite Nat.eqb_refl in Hx. discriminate.
Qed.

(** X8. A redemption that the wallet completes removes the selected record
    from the list by its identity as an object and keeps the others in their
    order; the selection is cleared and the dialog closed.  When the records
    of the list are pairwise distinct objects, the two copies remove the
    same record, and the list gets shorter by exactly one if the selected
    record is on it. *)
Theorem X8_redemption_removes_the_selected_record (c : Copy) (sdk : Sdk) (w : World)
    (sel : Task) (r : SignActionResult) :
  selectedTask (app w) = Some sel ->
  NoDup (map oid (tasks (app w))) ->
  In (ConsoleLog r) (events (handleCompleteSubmit c sdk w)) ->
  tasks (app (world (handleCompleteSubmit c sdk w))) = without sel (tasks (app w)) /\
  selectedTask (app (world (handleCompleteSubmit c sdk w))) = None /\
  completeOpen (app (world (handleCompleteSubmit c sdk w))) = false /\
  (In sel (tasks (app w)) ->
   S (List.length (tasks (app (world (handleCompleteSubmit c sdk w))))) =
   List.length (tasks (app w))).
Proof.
  intros Hsel Hnd.
  assert (Hlen : In sel (tasks (app w)) ->
                 S (List.length (without sel (tasks (app w)))) = List.length (tasks (app w)))
    by (apply without_length; assumption).
  pose proof (removeFirst_without sel (tasks (app w)) Hnd) as Hroot.
  revert Hlen Hroot.
  destruct c; unfold_workflows; unfold_monad; cbn; rewrite Hsel; cbn; repeat step;
    intros Hlen Hroot Hin;
    repeat (destruct Hin as [Hin|Hin]; try discriminate; try contradiction);
    try rewrite Hroot; repeat split; assumption.
Qed.

Lemma X8_redemption_removes_the_selected_record_witness :
  tasks (app (world (handleCompleteSubmit RootCopy (Demo.sdk Demo.ledger Demo.basket3)
                       (Demo.selecting Demo.recordTwo)))) = [] /\
  selectedTask (app (world (handleCompleteSubmit RootCopy (Demo.sdk Demo.ledger Demo.basket3)
                              (Demo.selecting Demo.recordTwo)))) = None.
Proof.
  assert (NoDup (map oid (tasks (app (Demo.selecting Demo.recordTwo))))) as Hnd
    by (cbn; constructor; [intros []|constructor]).
  destruct (X8_redemption_removes_the_selected_record RootCopy
              (Demo.sdk Demo.ledger Demo.basket3) (Demo.selecting Demo.recordTwo)
              Demo.recordTwo (mkSAResult (Some "spent") None) eq_refl Hnd)
    as (Htasks & Hselected & _).
  - cbn. auto 10.
  - split; assumption.
Defined.

(** ** Records are objects of their own *)

Lemma fresh_head (t : Task) (l : list Task) (m n : nat) :
  oid t = m ->
  NoDup (map oid l) ->
  Forall (fun x => S m <= oid x /\ oid x < n) l ->
  NoDup (map oid (t :: l)).
Proof.
  intros Ht Hnd Hall. cbn. constructor; [|assumption].
  intros Hin. apply in_map_iff in Hin. destruct Hin as (x & Hx & Hinx).
  rewrite Forall_forall in Hall. specialize (Hall x Hinx). lia.
Qed.

Lemma Forall_bounds_weaken (l : list Task) (m m' n : nat) :
  m <= m' ->
  Forall (fun x => m' <= oid x /\ oid x < n) l ->
  Forall (fun x => m <= oid x /\ oid x < n) l.
Proof.
  intros Hle. apply Forall_impl. intros x [H1 H2]. split; lia.
Qed.

Section FreshRecords.
Variable sdk : Sdk.
Variable basketBEEF : option BEEF.
Variable txid : option string.

Lemma Frontend_resumeAll_fresh (outputs : list WalletOutput) :
  forall w,
  exists rs n,
    Frontend.resumeAll sdk basketBEEF txid (map (slotOf sdk basketBEEF) outputs) w =
      mkRun (mkWorld (app w) n)
        (flat_map resumeEvents (map (slotOf sdk basketBEEF) outputs)) (Ok rs) /\
    fresh_results w rs n.
Proof.
  induction outputs as [|o rest IH]; intros w.
  - exists [], (nextOid w). destruct w. repeat split; cbn; auto; constructor.
  - cbn [map Frontend.resumeAll flat_map]. unfold slotOf at 1 3.
    destruct (decoded sdk basketBEEF o) as [[ls enc]|e].
    + destruct (decrypt sdk enc PROTOCOL_ID KEY_ID) as [p|e].
      * destruct (IH (mkWorld (app w) (S (nextOid w)))) as (rs & n & Hrun & Hle & Hnd & Hall).
        cbn in Hle.
        eexists (Some _ :: rs), n. split.
        -- eapply bind_run; [reflexivity|].
           apply (bind_ret_run _ (fun rs => _ :: rs)). exact Hrun.
        -- repeat split; [lia| |].
           ++ cbn [nonNull]. eapply fresh_head; [reflexivity|assumption|exact Hall].
           ++ cbn [nonNull]. constructor; [cbn; lia|].
              eapply Forall_bounds_weaken; [|exact Hall]. cbn. lia.
      * destruct (IH w) as (rs & n & Hrun & Hfresh).
        exists (None :: rs), n. split; [|exact Hfresh].
        eapply bind_run; [destruct w; reflexivity|].
        apply (bind_ret_run _ (fun rs => None :: rs)). exact Hrun.
    + destruct (IH w) as (rs & n & Hrun & Hfresh).
      exists (None :: rs), n. split; [|exact Hfresh].
      eapply (bind_run _ _ _ _ _ []); [destruct w; reflexivity|].
      apply (bind_ret_run _ (fun rs => None :: rs)). exact Hrun.
Qed.

Lemma Root_resumeAll_fresh (outputs : list WalletOutput) :
  forall i w,
  exists rs n,
    Root.resumeAll sdk basketBEEF txid i (map (slotOf sdk basketBEEF) outputs) w =
      mkRun (mkWorld (app w) n)
        (flat_map resumeEvents (map (slotOf sdk basketBEEF) outputs)) (Ok rs) /\
    fresh_results w rs n.
Proof.
  induction outputs as [|o rest IH]; intros i w.
  - exists [], (nextOid w). destruct w. repeat split; cbn; auto; constructor.
  - cbn [map Root.resumeAll flat_map]. unfold slotOf at 1 3.
    destruct (decoded sdk basketBEEF o) as [[ls enc]|e].
    + destruct (decrypt sdk enc PROTOCOL_ID KEY_ID) as [p|e].
      * destruct (IH (S i) (mkWorld (app w) (S (nextOid w))))
          as (rs & n & Hrun & Hle & Hnd & Hall).
        cbn in Hle.
        eexists (Some _ :: rs), n. split.
        -- eapply bind_run; [reflexivity|].
           apply (bind_ret_run _ (fun rs => _ :: rs)). exact Hrun.
        -- repeat split; [lia| |].
           ++ cbn [nonNull]. eapply fresh_head; [reflexivity|assumption|exact Hall].
           ++ cbn [nonNull]. constructor; [cbn; lia|].
              eapply Forall_bounds_weaken; [|exact Hall]. cbn. lia.
      * destruct (IH (S i) w) as (rs & n & Hrun & Hfresh).
        exists (None :: rs), n. split; [|exact Hfresh].
        eapply bind_run; [destruct w; reflexivity|].
        apply (bind_ret_run _ (fun rs => None :: rs)). exact Hrun.
    + destruct (IH (S i) w) as (rs & n & Hrun & Hfresh).
      exists (None :: rs), n. split; [|exact Hfresh].
      eapply (bind_run _ _ _ _ _ []); [destruct w; reflexivity|].
      apply (bind_ret_run _ (fun rs => None :: rs)). exact Hrun.
Qed.

End FreshRecords.

(** The world a discovery pass leaves when the store answers. *)
Lemma loadTasks_world_eq (c : Copy) (sdk : Sdk) (w : World) (res : ListOutputsResult) :
  listOutputs sdk (listOutputsArgs c) = Ok res ->
  exists rs n,
    world (loadTasks c sdk w) =
      mkWorld (withTasksLoading false (withTasks (rev (nonNull rs)) (app w))) n /\
    fresh_results w rs n.
Proof.
  intros Hlist. destruct c.
  - destruct (Frontend_resumeAll_fresh sdk (lor_BEEF res) (finalTxid None (lor_outputs res))
                (lor_outputs res) (mkWorld (withTasksLoading true (app w)) (nextOid w)))
      as (rs & n & Hrun & Hfresh).
    exists rs, n.
    assert (Frontend.loadTasks_try sdk w =
            mkRun (mkWorld (withTasks (rev (nonNull rs)) (withTasksLoading true (app w))) n)
              (WalletListOutputs (listOutputsArgs FrontendCopy)
                 :: flat_map (startEvents sdk (lor_BEEF res)) (lor_outputs res)
                 ++ flat_map resumeEvents (map (slotOf sdk (lor_BEEF res)) (lor_outputs res)))
              (Ok tt)) as Htry.
    { unfold Frontend.loadTasks_try.
      eapply (bind_run _ _ w _ _ []); [reflexivity|].
      eapply (bind_run _ _ _ _ _ [_]).
      { cbn in Hlist. rewrite Hlist. apply await_run. }
      eapply bind_run; [apply Frontend_startAll_run|].
      cbn [fst snd].
      erewrite bind_setState_run by exact Hrun. reflexivity. }
    unfold loadTasks, Frontend.loadTasks, finally, tryCatch. rewrite Htry. cbn.
    split; [reflexivity|exact Hfresh].
  - destruct (Root_resumeAll_fresh sdk (lor_BEEF res) (finalTxid None (lor_outputs res))
                (lor_outputs res) 0 w) as (rs & n & Hrun & Hfresh).
    exists rs, n.
    assert (Root.loadTasks_try sdk w =
            mkRun (mkWorld (withTasks (rev (nonNull rs)) (app w)) n)
              (WalletListOutputs (listOutputsArgs RootCopy)
                 :: flat_map (startEvents sdk (lor_BEEF res)) (lor_outputs res)
                 ++ flat_map resumeEvents (map (slotOf sdk (lor_BEEF res)) (lor_outputs res)))
              (Ok tt)) as Htry.
    { unfold Root.loadTasks_try.
      eapply (bind_run _ _ _ _ _ [_]).
      { cbn in Hlist. rewrite Hlist. apply await_run. }
      eapply bind_run; [apply Root_startAll_run|].
      cbn [fst snd].
      erewrite bind_setState_run by (destruct w; exact Hrun). reflexivity. }
    unfold loadTasks, Root.loadTasks, finally, tryCatch. rewrite Htry. cbn.
    split; [reflexivity|exact Hfresh].
Qed.

Lemma loadTasks_world (c : Copy) (sdk : Sdk) (w : World) (res : ListOutputsResult) :
  listOutputs sdk (listOutputsArgs c) = Ok res ->
  exists rs n,
    tasks (app (world (loadTasks c sdk w))) = rev (nonNull rs) /\
    nextOid (world (loadTasks c sdk w)) = n /\
    tasksLoading (app (world (loadTasks c sdk w))) = false /\
    fresh_results w rs n.
Proof.
  intros Hlist.
  destruct (loadTasks_world_eq c sdk w res Hlist) as (rs & n & -> & Hfresh).
  exists rs, n. repeat split; apply Hfresh.
Qed.

(** The world a discovery pass leaves when the store does not answer. *)
Lemma loadTasks_store_failure (c : Copy) (sdk : Sdk) (w : World) (e : JsError) :
  listOutputs sdk (listOutputsArgs c) = Err e ->
  tasks (app (world (loadTasks c sdk w))) = tasks (app w) /\
  nextOid (world (loadTasks c sdk w)) = nextOid w /\
  tasksLoading (app (world (loadTasks c sdk w))) = false /\
  result (loadTasks c sdk w) = Ok tt /\
  events (loadTasks c sdk w) =
    WalletListOutputs (listOutputsArgs c) ::
    (if not_missing_identity e
     then [ToastError ("Failed to load ToDo tasks! Error: " ++ message e);
           ConsoleError None e]
     else []).
Proof.
  intros Hlist.
  destruct c; cbn in Hlist;
    unfold loadTasks, Frontend.loadTasks, Root.loadTasks, finally, tryCatch,
      Frontend.loadTasks_try, Root.loadTasks_try, Frontend.loadTasks_catch,
      Root.loadTasks_catch; unfold_monad; cbn;
    rewrite Hlist; cbn; destruct (not_missing_identity e); cbn; repeat split.
Qed.

Lemma NoDup_oid_without (sel : Task) (l : list Task) :
  NoDup (map oid l) -> NoDup (map oid (without sel l)).
Proof.
  induction l as [|x l IH]; intros Hnd; [constructor|].
  rewrite without_cons. inversion Hnd as [|? ? Hnotin Hrest]; subst.
  destruct (same_object x sel); [now apply IH|].
  cbn. constructor; [|now apply IH].
  intros Hin. apply Hnotin. apply in_map_iff in Hin. destruct Hin as (t & Ht & Hint).
  apply in_map_iff. exists t. split; [assumption|].
  unfold without in Hint. apply filter_In in Hint. tauto.
Qed.

Lemma Forall_without (P : Task -> Prop) (sel : Task) (l : list Task) :
  Forall P l -> Forall P (without sel l).
Proof.
  intros Hall. apply Forall_forall. intros t Ht.
  unfold without in Ht. apply filter_In in Ht.
  rewrite Forall_forall in Hall. apply Hall. tauto.
Qed.

(** X9. The records of the list are always objects of their own: if no two
    records of the list are the same object before a creation, a
    redemption, a discovery pass or a click on an item, then none are after
    it (both copies); so a record can be told from every other by its
    identity, as the removal of a redeemed record requires. *)
Theorem X9_records_stay_distinct_objects (c : Copy) (sdk : Sdk) (w : World) (i : nat) :
  distinct_objects w ->
  distinct_objects (world (handleCreateSubmit c sdk w)) /\
  distinct_objects (world (handleCompleteSubmit c sdk w)) /\
  distinct_objects (world (loadTasks c sdk w)) /\
  distinct_objects (world (clickItem i w)).
Proof.
  intros [Hnd Hall]. split; [|split; [|split]].
  - revert Hnd Hall. unfold distinct_objects.
    create_branches c w; intros Hnd Hall; try (split; assumption).
    all: split;
      [constructor; [|assumption];
       intros Hin; apply in_map_iff in Hin; destruct Hin as (x & Hx & Hin);
       rewrite Forall_forall in Hall; specialize (Hall x Hin); lia
      |constructor; [cbn; lia|];
       eapply Forall_impl; [|exact Hall]; cbn; intros; lia].
  - pose proof (removeFirst_without) as Hroot.
    revert Hnd Hall. unfold distinct_objects.
    complete_branches c w; intros Hnd Hall; try (split; assumption).
    + split; [now apply NoDup_oid_without|now apply Forall_without].
    + rewrite Hroot by assumption.
      split; [now apply NoDup_oid_without|now apply Forall_without].
  - destruct (listOutputs sdk (listOutputsArgs c)) as [res|e] eqn:Hlist.
    + destruct (loadTasks_world c sdk w res Hlist)
        as (rs & n & Htasks & Hnext & _ & Hle & Hfresh & Hbounds).
      unfold distinct_objects. rewrite Htasks, Hnext. split.
      * rewrite map_rev. now apply NoDup_rev.
      * apply Forall_rev. eapply Forall_impl; [|exact Hbounds]. cbn. intros; lia.
    + destruct (loadTasks_store_failure c sdk w e Hlist) as (Htasks & Hnext & _).
      unfold distinct_objects. rewrite Htasks, Hnext. split; assumption.
  - unfold clickItem. destruct (tasksLoading (app w)); [split; assumption|].
    destruct (nth_error (tasks (app w)) i); split; assumption.
Qed.

Lemma X9_records_stay_distinct_objects_witness :
  distinct_objects (Demo.selecting Demo.recordTwo) /\
  distinct_objects
    (world (loadTasks FrontendCopy (Demo.sdk Demo.ledger Demo.basket3)
              (Demo.selecting Demo.recordTwo))).
Proof.
  assert (distinct_objects (Demo.selecting Demo.recordTwo)) as Hw.
  { split; vm_compute.
    - constructor; [intros []|constructor].
    - constructor; constructor. }
  split; [exact Hw|].
  exact (proj1 (proj2 (proj2 (X9_records_stay_distinct_objects FrontendCopy
                                (Demo.sdk Demo.ledger Demo.basket3)
                                (Demo.selecting Demo.recordTwo) 0 Hw)))).
Defined.

(** ** A record created, selected and redeemed *)

(** X10. With the list on screen ([tasksLoading] false): a creation that
    succeeds, a click on the first item of the list and a redemption that
    the wallet completes leave the list as it was before the creation; the
    unlocker is asked to sign for the amount entered at creation and for the
    very script that the lock returned (both copies). *)
Theorem X10_created_then_redeemed (c : Copy) (sdk : Sdk) (w : World)
    (r : SignActionResult) :
  tasksLoading (app w) = false ->
  Forall (fun t => oid t < nextOid w) (tasks (app w)) ->
  In (ToastDark "Task successfully created!") (events (handleCreateSubmit c sdk w)) ->
  In (ConsoleLog r) (events (createThenComplete c sdk w)) ->
  tasks (app (world (createThenComplete c sdk w))) = tasks (app w) /\
  forall u tx i,
    In (UnlockerSign u tx i) (events (createThenComplete c sdk w)) ->
    u_sourceSatoshis u = createAmount (app w) /\
    exists ciphertext,
      encrypt sdk (toArray_utf8 sdk (createTask (app w))) PROTOCOL_ID KEY_ID =
        Ok ciphertext /\
      pushdrop_lock sdk [toArray_utf8 sdk TODO_PROTO_ADDR; ciphertext]
        PROTOCOL_ID KEY_ID "self" = Ok (u_lockingScript u).
Proof.
  intros Hloading Hfresh.
  assert (Hothers : forall t, oid t = nextOid w ->
            without t (tasks (app w)) = tasks (app w)).
  { intros t Ht. apply without_all_others. rewrite Ht.
    eapply Forall_impl; [|exact Hfresh]. cbn. intros; lia. }
  revert Hothers. unfold without.
  destruct c; unfold_session; unfold_workflows; unfold_monad; cbn.
  all: destruct (String.eqb (createTask (app w)) EmptyString) eqn:Htext; cbn;
    [|destruct (PrimFloat.eqb (createAmount (app w)) 0 || isNaN (createAmount (app w)))
        eqn:Hzero; cbn;
      [|destruct (PrimFloat.ltb (createAmount (app w)) 1) eqn:Hlt; cbn]].
  all: repeat first [rewrite Hloading; cbn | step].
  all: intros Hothers Hcreated Hin.
  all: try solve
    [exfalso;
     repeat (destruct Hcreated as [Hcreated|Hcreated]; try discriminate; try contradiction)].
  all: repeat (destruct Hin as [Hin|Hin]; try discriminate; try contradiction).
  all: unfold same_object; cbn; rewrite ?Nat.eqb_refl; cbn.
  all: (split;
        [try reflexivity;
         exact (Hothers (mkTask (nextOid w) EmptyString 0%float EmptyString EmptyString None)
                  eq_refl)
        |intros u tx i Hu;
         repeat (destruct Hu as [Hu|Hu]; try discriminate; try contradiction);
         injection Hu as <- _ _; cbn; split; [reflexivity|];
         eexists; split; first [reflexivity|eassumption]]).
Qed.

(** From the creation dialog, with the list on screen, in each copy. *)
Lemma X10_created_then_redeemed_witness :
  tasksLoading (app (Demo.filledIn "Buy milk" 1000%float)) = false /\
  tasks (app (world (handleCreateSubmit FrontendCopy
                       (Demo.sdk Demo.milkLedger Demo.milkBasket)
                       (Demo.filledIn "Buy milk" 1000%float)))) = [Demo.milkRecord] /\
  tasks (app (world (createThenComplete FrontendCopy
                       (Demo.sdk Demo.milkLedger Demo.milkBasket)
                       (Demo.filledIn "Buy milk" 1000%float)))) = [] /\
  tasks (app (world (createThenComplete RootCopy
                       (Demo.sdk Demo.milkLedger Demo.milkBasket)
                       (Demo.filledIn "Buy milk" 1000%float)))) = [].
Proof.
  split; [reflexivity|]. split; [reflexivity|]. split.
  - apply (X10_created_then_redeemed FrontendCopy (Demo.sdk Demo.milkLedger Demo.milkBasket)
             (Demo.filledIn "Buy milk" 1000%float) (mkSAResult (Some "spent") None)).
    + reflexivity.
    + constructor.
    + vm_compute. tauto.
    + vm_compute. tauto.
  - apply (X10_created_then_redeemed RootCopy (Demo.sdk Demo.milkLedger Demo.milkBasket)
             (Demo.filledIn "Buy milk" 1000%float) (mkSAResult (Some "spent") None)).
    + reflexivity.
    + constructor.
    + vm_compute. tauto.
    + vm_compute. tauto.
Defined.

(** ** Loading indicators *)

(** X11. No workflow leaves its loading indicator on: after a redemption
    [completeLoading] is false and after a discovery pass [tasksLoading] is
    false, whatever happened; after a creation [createLoading] is false,
    except that the first copy leaves it as it was when it rejects the
    request at validation (it has not touched it then). *)
Theorem X11_loading_indicators_are_released (c : Copy) (sdk : Sdk) (w : World) :
  completeLoading (app (world (handleCompleteSubmit c sdk w))) = false /\
  tasksLoading (app (world (loadTasks c sdk w))) = false /\
  (createLoading (app (world (handleCreateSubmit c sdk w))) = false \/
   c = FrontendCopy /\
   calls (events (handleCreateSubmit c sdk w)) = [] /\
   createLoading (app (world (handleCreateSubmit c sdk w))) = createLoading (app w)).
Proof.
  split; [|split].
  - complete_branches c w; reflexivity.
  - destruct (listOutputs sdk (listOutputsArgs c)) as [res|e] eqn:Hlist.
    + destruct (loadTasks_world c sdk w res Hlist) as (_ & _ & _ & _ & Hloading & _).
      exact Hloading.
    + apply (loadTasks_store_failure c sdk w e Hlist).
  - create_branches c w; auto.
Qed.

(** ** Discovery when the store does not answer *)

(** X12. When [listOutputs] rejects, a discovery pass makes no other call,
    leaves the list as it was and returns.  If the error carries the code
    ERR_NO_METANET_IDENTITY nothing is shown or logged; otherwise one toast
    shows the error's message after 'Failed to load ToDo tasks! Error: ' and
    the error is logged (both copies). *)
Theorem X12_discovery_without_the_store (c : Copy) (sdk : Sdk) (w : World) (e : JsError) :
  listOutputs sdk (listOutputsArgs c) = Err e ->
  tasks (app (world (loadTasks c sdk w))) = tasks (app w) /\
  calls (events (loadTasks c sdk w)) = [KListOutputs] /\
  result (loadTasks c sdk w) = Ok tt /\
  (code e = Some "ERR_NO_METANET_IDENTITY" ->
   events (loadTasks c sdk w) = [WalletListOutputs (listOutputsArgs c)]) /\
  (code e <> Some "ERR_NO_METANET_IDENTITY" ->
   events (loadTasks c sdk w) =
     [WalletListOutputs (listOutputsArgs c);
      ToastError ("Failed to load ToDo tasks! Error: " ++ message e);
      ConsoleError None e]).
Proof.
  intros Hlist.
  destruct (loadTasks_store_failure c sdk w e Hlist) as (Htasks & _ & _ & Hres & Hev).
  split; [exact Htasks|]. split.
  - rewrite Hev. destruct (not_missing_identity e); reflexivity.
  - split; [exact Hres|]. rewrite Hev. unfold not_missing_identity. split.
    + intros Hcode. rewrite Hcode. reflexivity.
    + intros Hcode. destruct (code e) as [k|]; [|reflexivity].
      destruct (String.eqb k "ERR_NO_METANET_IDENTITY") eqn:Hk; [|reflexivity].
      apply String.eqb_eq in Hk. subst k. contradiction.
Qed.

Lemma X12_discovery_without_the_store_witness :
  events (loadTasks RootCopy
            (with_listOutputs
               (fun _ => Err (mkError "no identity" (Some "ERR_NO_METANET_IDENTITY")))
               (Demo.sdk Demo.ledger Demo.basket3))
            (Demo.selecting Demo.recordTwo)) =
    [WalletListOutputs (listOutputsArgs RootCopy)] /\
  tasks (app (world (loadTasks RootCopy
            (with_listOutputs
               (fun _ => Err (mkError "no identity" (Some "ERR_NO_METANET_IDENTITY")))
               (Demo.sdk Demo.ledger Demo.basket3))
            (Demo.selecting Demo.recordTwo)))) = [Demo.recordTwo].
Proof.
  destruct (X12_discovery_without_the_store RootCopy
              (with_listOutputs
                 (fun _ => Err (mkError "no identity" (Some "ERR_NO_METANET_IDENTITY")))
                 (Demo.sdk Demo.ledger Demo.basket3))
              (Demo.selecting Demo.recordTwo)
              (mkError "no identity" (Some "ERR_NO_METANET_IDENTITY")) eq_refl)
    as (Htasks & _ & _ & Hsilent & _).
  split; [exact (Hsilent eq_refl)|exact Htasks].
Defined.

(** ** The forms *)

Lemma tryCatch_returns {A} (m : M A) (h : JsError -> M A) (w : World) (a : A) :
  result (m w) = Ok a -> tryCatch m h w = m w.
Proof.
  unfold tryCatch. destruct (m w) as [w1 ev1 [a'|e]]; cbn; [reflexivity|discriminate].
Qed.

Lemma handlers_return (c : Copy) (sdk : Sdk) (w : World) :
  result (handleCreateSubmit c sdk w) = Ok tt /\
  result (handleCompleteSubmit c sdk w) = Ok tt.
Proof.
  split.
  - create_branches c w; reflexivity.
  - complete_branches c w; reflexivity.
Qed.

(** X13. Neither handler ever rejects: every failure ends in the handler's
    own [catch].  So submitting a form does what its handler does, and the
    line 'Error in form submission:' of the forms is never logged (both
    copies). *)
Theorem X13_forms_never_see_a_rejection (c : Copy) (sdk : Sdk) (w : World) :
  onSubmitCreate c sdk w = handleCreateSubmit c sdk w /\
  onSubmitComplete c sdk w = handleCompleteSubmit c sdk w /\
  result (onSubmitCreate c sdk w) = Ok tt /\
  result (onSubmitComplete c sdk w) = Ok tt /\
  (forall l e,
     In (ConsoleError (Some l) e) (events (onSubmitCreate c sdk w)) \/
     In (ConsoleError (Some l) e) (events (onSubmitComplete c sdk w)) ->
     False).
Proof.
  destruct (handlers_return c sdk w) as (Hcreate & Hcomplete).
  assert (Hc1 : onSubmitCreate c sdk w = handleCreateSubmit c sdk w)
    by (apply tryCatch_returns with (a := tt); exact Hcreate).
  assert (Hc2 : onSubmitComplete c sdk w = handleCompleteSubmit c sdk w)
    by (apply tryCatch_returns with (a := tt); exact Hcomplete).
  rewrite Hc1, Hc2. repeat split; try assumption.
  intros l e [Hin|Hin]; revert Hin.
  - create_branches c w; intros Hin;
      repeat (destruct Hin as [Hin|Hin]; try discriminate; try contradiction).
  - complete_branches c w; intros Hin;
      repeat (destruct Hin as [Hin|Hin]; try discriminate; try contradiction).
Qed.

(** ** Discovery: the transaction named by the records *)

Lemma finalTxid_last (front : list WalletOutput) (last : WalletOutput) :
  forall txid, finalTxid txid (front ++ [last]) = Some (split0 (wo_outpoint last)).
Proof.
  induction front as [|o front IH]; intros txid; [reflexivity|].
  cbn [List.app finalTxid]. apply IH.
Qed.

(** X14. The variable [txid] of a discovery pass is shared by the callbacks
    of all outputs and is read after they have all assigned it.  So after a
    discovery over a non-empty list of outputs every record of the list
    names, before the dot of its outpoint, the transaction of the last
    output listed - whichever output it was decoded from; in the first copy
    all records carry the same outpoint, that transaction with '.0'. *)
Theorem X14_records_name_the_last_transaction (c : Copy) (sdk : Sdk) (w : World)
    (res : ListOutputsResult) (front : list WalletOutput) (last : WalletOutput)
    (t : Task) :
  listOutputs sdk (listOutputsArgs c) = Ok res ->
  lor_outputs res = (front ++ [last])%list ->
  In t (tasks (app (world (loadTasks c sdk w)))) ->
  split0 (outpoint t) = split0 (wo_outpoint last) /\
  (c = FrontendCopy -> outpoint t = split0 (wo_outpoint last) ++ ".0").
Proof.
  intros Hlist Houts Hin.
  destruct (proj1 (catalogue_after_discovery c sdk w res (content t) Hlist))
    as (j & o & _ & Hexp); [exists t; split; [exact Hin|reflexivity]|].
  apply expected_inv in Hexp.
  destruct Hexp as (tx & out0 & fields & plaintext & _ & _ & _ & _ & Hk).
  apply (f_equal c_outpoint) in Hk. cbn [content c_outpoint] in Hk.
  rewrite Houts, finalTxid_last in Hk. cbn [templ] in Hk.
  rewrite Hk. split.
  - apply split0_no_dot.
  - intros ->. reflexivity.
Qed.

Lemma X14_records_name_the_last_transaction_witness :
  map outpoint
    (tasks (app (world (loadTasks FrontendCopy (Demo.sdk Demo.ledger Demo.basket3)
                          Demo.emptyWorld)))) = ["C.0"; "C.0"; "C.0"] /\
  Forall (fun t => outpoint t = "C.0")
    (tasks (app (world (loadTasks FrontendCopy (Demo.sdk Demo.ledger Demo.basket3)
                          Demo.emptyWorld)))).
Proof.
  split; [reflexivity|].
  apply Forall_forall. intros t Hin.
  exact (proj2 (X14_records_name_the_last_transaction FrontendCopy
                  (Demo.sdk Demo.ledger Demo.basket3) Demo.emptyWorld
                  (mkLOResult Demo.basket3 (Some []))
                  [mkWalletOutput (Some 5%float) "A.0"; mkWalletOutput None "B.0"]
                  (mkWalletOutput (Some 7%float) "C.1") t eq_refl eq_refl Hin) eq_refl).
Defined.

(** ** Polling for the wallet *)

Lemma onChecked_missing (e : JsError) (p : Polling) :
  onChecked (checkForMetaNetClient (Err e)) p =
  mkPolling (withIsMncMissing true (p_app p)) (p_interval p).
Proof. reflexivity. Qed.

Lemma onChecked_found (network : string) (p : Polling) :
  onChecked (checkForMetaNetClient (Ok network)) p =
  mkPolling (withIsMncMissing false (p_app p)) false.
Proof.
  unfold onChecked, checkForMetaNetClient.
  destruct (String.eqb network "mainnet" || String.eqb network "testnet"); reflexivity.
Qed.

Lemma poll_missing (missed : list JsError) (later : list (Res string)) :
  forall p,
    p_interval p = true ->
    missed <> [] ->
    poll (map (@Err string) missed ++ later) p =
    (fst (poll later (mkPolling (withIsMncMissing true (p_app p)) true)),
     List.length missed + snd (poll later (mkPolling (withIsMncMissing true (p_app p)) true))).
Proof.
  induction missed as [|e missed IH]; intros p Hp Hne; [contradiction|].
  cbn [map List.app poll]. rewrite Hp, onChecked_missing, Hp.
  destruct missed as [|e' missed].
  - cbn [map List.app List.length]. destruct (poll later _) as [p' n]. reflexivity.
  - rewrite IH by (reflexivity || discriminate).
    cbn [p_app p_interval List.length fst snd]. reflexivity.
Qed.

(** X15. The interval that looks for the wallet: while [getNetwork] rejects,
    every tick makes a check and the modal is shown; at the first tick at
    which [getNetwork] resolves - with any network name, also one that is
    neither 'mainnet' nor 'testnet' - the modal is closed and the interval
    cleared, so that no later tick makes a check, whatever the wallet would
    answer then (each check settling before the next tick). *)
Theorem X15_polling_stops_at_the_first_answer (missed : list JsError) (network : string)
    (later : list (Res string)) (p : Polling) :
  p_interval p = true ->
  poll (map (@Err string) missed ++ Ok network :: later) p =
    (mkPolling (withIsMncMissing false (p_app p)) false, S (List.length missed)) /\
  (missed <> [] ->
   poll (map (@Err string) missed) p =
     (mkPolling (withIsMncMissing true (p_app p)) true, List.length missed)).
Proof.
  intros Hp.
  assert (Hfound : forall q, p_interval q = true ->
            poll (Ok network :: later) q =
            (mkPolling (withIsMncMissing false (p_app q)) false, 1)).
  { intros q Hq. cbn [poll]. rewrite Hq, onChecked_found.
    destruct later; reflexivity. }
  split.
  - destruct missed as [|e missed].
    + exact (Hfound p Hp).
    + rewrite poll_missing by (assumption || discriminate).
      rewrite Hfound by reflexivity. cbn [fst snd p_app].
      f_equal. apply Nat.add_1_r.
  - intros Hne.
    rewrite <- (app_nil_r (map (@Err string) missed)).
    rewrite poll_missing by assumption.
    cbn [poll fst snd]. f_equal. apply Nat.add_0_r.
Qed.

Lemma X15_polling_stops_at_the_first_answer_witness :
  poll [Err Demo.boom; Err Demo.boom; Ok "regtest"; Err Demo.boom; Ok "mainnet"]
    (mkPolling Demo.emptyApp true) =
  (mkPolling Demo.emptyApp false, 3).
Proof.
  exact (proj1 (X15_polling_stops_at_the_first_answer [Demo.boom; Demo.boom] "regtest"
                  [Err Demo.boom; Ok "mainnet"] (mkPolling Demo.emptyApp true) eq_refl)).
Defined.

(** ** Redemption: the evidence handed to the wallet *)

(** X16. The evidence of a redemption.  The first copy hands the wallet the
    evidence stored in the selected record as it is, also when the record
    has none.  The second copy asks the wallet for the spending transaction
    exactly when the record's evidence parses, a chain tracker for 'main' is
    obtained and the verification of the evidence settles; what it hands
    over is the parsed evidence. *)
Theorem X16_evidence_handed_to_the_wallet (sdk : Sdk) (w : World) (sel : Task) :
  selectedTask (app w) = Some sel ->
  (forall args,
     In (WalletCreateAction args) (events (handleCompleteSubmit FrontendCopy sdk w)) ->
     ca_inputBEEF args = beef sel) /\
  (forall args,
     In (WalletCreateAction args) (events (handleCompleteSubmit RootCopy sdk w)) ->
     exists b tracker ok,
       Beef_fromBinary sdk (beef sel) = Ok b /\
       getChainTracker sdk "main" = Ok tracker /\
       Beef_verify sdk b tracker true = Ok ok /\
       ca_inputBEEF args = Some b) /\
  (forall b tracker ok,
     Beef_fromBinary sdk (beef sel) = Ok b ->
     getChainTracker sdk "main" = Ok tracker ->
     Beef_verify sdk b tracker true = Ok ok ->
     exists args,
       In (WalletCreateAction args) (events (handleCompleteSubmit RootCopy sdk w))).
Proof.
  intros Hsel. split; [|split].
  - intros args.
    unfold_workflows; unfold_monad; cbn; rewrite Hsel; cbn; repeat step;
      intros Hin;
      repeat (destruct Hin as [Hin|Hin]; try discriminate; try contradiction);
      injection Hin as <-; reflexivity.
  - intros args.
    unfold_workflows; unfold_monad; cbn; rewrite Hsel; cbn; repeat step;
      intros Hin;
      repeat (destruct Hin as [Hin|Hin]; try discriminate; try contradiction);
      injection Hin as <-; eexists _, _, _; repeat split; eassumption.
  - intros b tracker ok Hb Htracker Hok.
    unfold_workflows; unfold_monad; cbn; rewrite Hsel; cbn.
    rewrite Hb; cbn. rewrite Htracker; cbn. rewrite Hok; cbn.
    repeat step; eexists; cbn; auto 10.
Qed.

Lemma X16_evidence_handed_to_the_wallet_witness :
  selectedTask (app (Demo.selecting Demo.recordTwo)) = Some Demo.recordTwo /\
  exists args,
    In (WalletCreateAction args)
      (events (handleCompleteSubmit RootCopy (Demo.sdk Demo.ledger Demo.basket3)
                 (Demo.selecting Demo.recordTwo))).
Proof.
  split; [reflexivity|].
  exact (proj2 (proj2 (X16_evidence_handed_to_the_wallet
                         (Demo.sdk Demo.ledger Demo.basket3)
                         (Demo.selecting Demo.recordTwo) Demo.recordTwo eq_refl))
           [] "main" true eq_refl eq_refl eq_refl).
Defined.

(** ** One toast for each run *)

(** X17. Every run of a handler shows exactly one toast.  Either it is the
    one dark toast of success, and then the form is reset - after a creation
    the text is empty, the amount back at its default (1 in the first copy,
    1000 in the second), the dialog closed and one record has been put before
    the list; after a redemption the dialog is closed and nothing is
    selected - or it is one error toast, and then the form is as the user
    left it (text, amount, dialog, selection) and so is the list (both
    copies). *)
Theorem X17_one_toast_for_each_run (c : Copy) (sdk : Sdk) (w : World) :
  ((toast_darks (events (handleCreateSubmit c sdk w)) = ["Task successfully created!"] /\
    toast_errors (events (handleCreateSubmit c sdk w)) = [] /\
    createTask (app (world (handleCreateSubmit c sdk w))) = EmptyString /\
    createAmount (app (world (handleCreateSubmit c sdk w))) =
      match c with FrontendCopy => 1%float | RootCopy => 1000%float end /\
    createOpen (app (world (handleCreateSubmit c sdk w))) = false /\
    (exists t, tasks (app (world (handleCreateSubmit c sdk w))) = t :: tasks (app w))) \/
   (toast_darks (events (handleCreateSubmit c sdk w)) = [] /\
    exists m,
      toast_errors (events (handleCreateSubmit c sdk w)) = [m] /\
      createTask (app (world (handleCreateSubmit c sdk w))) = createTask (app w) /\
      createAmount (app (world (handleCreateSubmit c sdk w))) = createAmount (app w) /\
      createOpen (app (world (handleCreateSubmit c sdk w))) = createOpen (app w) /\
      tasks (app (world (handleCreateSubmit c sdk w))) = tasks (app w))) /\
  (((exists m, toast_darks (events (handleCompleteSubmit c sdk w)) = [m]) /\
    toast_errors (events (handleCompleteSubmit c sdk w)) = [] /\
    completeOpen (app (world (handleCompleteSubmit c sdk w))) = false /\
    selectedTask (app (world (handleCompleteSubmit c sdk w))) = None) \/
   (toast_darks (events (handleCompleteSubmit c sdk w)) = [] /\
    exists m,
      toast_errors (events (handleCompleteSubmit c sdk w)) = [m] /\
      completeOpen (app (world (handleCompleteSubmit c sdk w))) = completeOpen (app w) /\
      selectedTask (app (world (handleCompleteSubmit c sdk w))) = selectedTask (app w) /\
      tasks (app (world (handleCompleteSubmit c sdk w))) = tasks (app w))).
Proof.
  split.
  - create_branches c w; first [run_succeeded|run_failed].
  - complete_branches c w; first [run_succeeded|run_failed].
Qed.

(** ** A selection made before a discovery pass *)





